(** * Task manager: countdown and alert engine, recurrence and task forms

    A shallow embedding of [src/app/page.tsx]: the helpers ([toDateTime],
    [pad2], [addToYMD], [nextByRecurrence]), the one-second countdown handler
    of the [Home] component, and the task operations ([addTask], [toggleTask],
    [saveEdit]), with the properties the design document states about them.

    The host facilities the page relies on are modelled in the first part:
    JavaScript truthiness of optional strings, the [Date] object (a time value
    in milliseconds, or the Invalid Date), local time as a fixed offset from
    UTC, and [Array.prototype.sort] as a stable sort. A string holds the
    UTF-8 bytes of a text. *)

From Stdlib Require Import ZArith QArith Lia List Bool Ascii String Permutation Sorted.
From stdpp Require Import base decidable option list strings gmap.

Local Open Scope string_scope.
Local Open Scope Z_scope.

(** ** JavaScript values used by the page *)

Module JS.

(** An optional string property: [None] is [undefined]. Both [undefined] and
    the empty string are falsy. *)
Definition truthy (o : option string) : bool :=
  match o with
  | Some s => negb (String.eqb s "")
  | None => false
  end.

(** [a || b] on optional strings. *)
Definition or (a b : option string) : option string :=
  if truthy a then a else b.

(** [a || "literal"]: the result is always a string. *)
Definition orStr (a : option string) (b : string) : string :=
  match a with
  | Some s => if String.eqb s "" then b else s
  | None => b
  end.

(** [s || undefined] for a form field that always holds a string. *)
Definition orUndefined (s : string) : option string :=
  if String.eqb s "" then None else Some s.

(** Decimal digits. *)
Definition digitChar (d : Z) : ascii := ascii_of_N (Z.to_N (48 + d)).

Definition digitOf (c : ascii) : option Z :=
  let n := Z.of_N (N_of_ascii c) in
  if (48 <=? n) && (n <=? 57) then Some (n - 48) else None.

(** The value of a string made of decimal digits only. *)
Fixpoint digitsFrom (acc : Z) (s : string) : option Z :=
  match s with
  | EmptyString => Some acc
  | String c s' =>
      match digitOf c with
      | Some d => digitsFrom (10 * acc + d) s'
      | None => None
      end
  end.

Definition digits (s : string) : option Z :=
  match s with
  | EmptyString => None
  | _ => digitsFrom 0 s
  end.

(** The last [n] decimal digits of [v], most significant first. *)
Fixpoint fixedDigits (n : nat) (v : Z) : string :=
  match n with
  | O => ""
  | S n' => fixedDigits n' (v / 10) +:+ String (digitChar (v mod 10)) ""
  end.

(** [Number.prototype.toString] on a non-negative integer. *)
Fixpoint natDigits (fuel : nat) (v : Z) : string :=
  match fuel with
  | O => ""
  | S fuel' =>
      if v <? 10 then String (digitChar v) ""
      else natDigits fuel' (v / 10) +:+ String (digitChar (v mod 10)) ""
  end.

(** [n.toString()] for an integer [n]. *)
Definition toString (v : Z) : string :=
  if v <? 0 then "-" +:+ natDigits (S (Z.to_nat (Z.log2 (- v)))) (- v)
  else natDigits (S (Z.to_nat (Z.log2 v))) v.

(** [s.padStart(2, "0")]. *)
Definition padStart2 (s : string) : string :=
  match String.length s with
  | O => "00"
  | S O => "0" +:+ s
  | _ => s
  end.

(** White space removed by [String.prototype.trim]: the WhiteSpace and
    LineTerminator characters of the language, by the length of their UTF-8
    form. One byte: tab, line feed, vertical tab, form feed, carriage return
    and space. *)
Definition isSpace (c : ascii) : bool :=
  let n := N_of_ascii c in
  (N.eqb n 32 || N.eqb n 9 || N.eqb n 10 || N.eqb n 11 || N.eqb n 12 || N.eqb n 13)%bool.

(** Two bytes: U+00A0. *)
Definition isSpace2 (c1 c2 : ascii) : bool :=
  (N.eqb (N_of_ascii c1) 194 && N.eqb (N_of_ascii c2) 160)%bool.

(** Three bytes: U+1680, U+2000 to U+200A, U+2028, U+2029, U+202F, U+205F,
    U+3000 and U+FEFF. *)
Definition isSpace3 (c1 c2 c3 : ascii) : bool :=
  let a := N_of_ascii c1 in
  let b := N_of_ascii c2 in
  let c := N_of_ascii c3 in
  (N.eqb a 225 && N.eqb b 154 && N.eqb c 128
   || N.eqb a 226 && N.eqb b 128
      && (N.leb 128 c && N.leb c 138 || N.eqb c 168 || N.eqb c 169 || N.eqb c 175)
   || N.eqb a 226 && N.eqb b 129 && N.eqb c 159
   || N.eqb a 227 && N.eqb b 128 && N.eqb c 128
   || N.eqb a 239 && N.eqb b 187 && N.eqb c 191)%bool.

(** [s.trimStart()]: the white space characters at the head are dropped one
    by one. *)
Fixpoint trimStart (s : string) : string :=
  match s with
  | EmptyString => ""
  | String c1 s1 =>
      if isSpace c1 then trimStart s1
      else
        match s1 with
        | String c2 s2 =>
            if isSpace2 c1 c2 then trimStart s2
            else
              match s2 with
              | String c3 s3 => if isSpace3 c1 c2 c3 then trimStart s3 else s
              | EmptyString => s
              end
        | EmptyString => s
        end
  end.

(** [s.trimEnd()]: the text is cut where only white space follows. *)
Fixpoint trimEnd (s : string) : string :=
  match s with
  | EmptyString => ""
  | String c s' => if String.eqb (trimStart s) "" then "" else String c (trimEnd s')
  end.

Definition trim (s : string) : string := trimEnd (trimStart s).

End JS.

(** ** The host calendar: days and civil dates

    Day numbers count days from 1970-01-01; months are 1..12 here and 0..11
    in the [Date] methods below, as in the language. *)

Module Calendar.

Definition msPerDay : Z := 86400000.
Definition msPerMinute : Z := 60000.
Definition msPerHour : Z := 3600000.

Definition isLeap (y : Z) : bool :=
  ((y mod 4 =? 0) && negb (y mod 100 =? 0) || (y mod 400 =? 0))%bool.

Definition daysInMonth (y m : Z) : Z :=
  if m =? 2 then (if isLeap y then 29 else 28)
  else if (m =? 4) || (m =? 6) || (m =? 9) || (m =? 11) then 30
  else 31.

(** Day number of the civil date [y]-[m]-[d] (proleptic Gregorian). *)
Definition daysFromCivil (y m d : Z) : Z :=
  let y' := if m <=? 2 then y - 1 else y in
  let era := y' / 400 in
  let yoe := y' - era * 400 in
  let mp := if 2 <? m then m - 3 else m + 9 in
  let doy := (153 * mp + 2) / 5 + d - 1 in
  let doe := yoe * 365 + yoe / 4 - yoe / 100 + doy in
  era * 146097 + doe - 719468.

(** Civil date of a day number. *)
Definition civilFromDays (z : Z) : Z * Z * Z :=
  let z' := z + 719468 in
  let era := z' / 146097 in
  let doe := z' - era * 146097 in
  let yoe := (doe - doe / 1460 + doe / 36524 - doe / 146096) / 365 in
  let doy := doe - (365 * yoe + yoe / 4 - yoe / 100) in
  let mp := (5 * doy + 2) / 153 in
  let d := doy - (153 * mp + 2) / 5 + 1 in
  let m := if mp <? 10 then mp + 3 else mp - 9 in
  let y := yoe + era * 400 in
  (if m <=? 2 then y + 1 else y, m, d).

(** [MakeDay(year, month, date)] with a 0-based [month] that may lie outside
    0..11 and a [date] that may lie outside the month: both carry over. *)
Definition MakeDay (year month date : Z) : Z :=
  daysFromCivil (year + month / 12) (month mod 12 + 1) 1 + date - 1.

Definition MakeDate (day time : Z) : Z := day * msPerDay + time.

Definition Day (t : Z) : Z := t / msPerDay.
Definition TimeWithinDay (t : Z) : Z := t mod msPerDay.

Definition YearFromTime (t : Z) : Z := fst (fst (civilFromDays (Day t))).
(** 0-based month, as [getMonth] reports it. *)
Definition MonthFromTime (t : Z) : Z := snd (fst (civilFromDays (Day t))) - 1.
Definition DateFromTime (t : Z) : Z := snd (civilFromDays (Day t)).

End Calendar.

(** ** The [Date] object

    A [Date] holds a time value: milliseconds since 1970-01-01T00:00Z, or NaN
    for the Invalid Date. Local time is UTC plus [tz] minutes, the host's
    offset east of Greenwich, taken as constant (no daylight saving). *)

Inductive Date : Type :=
  | InvalidDate
  | DateAt (tv : Z).

Module DateObj.
Import Calendar.

Definition maxTime : Z := 8640000000000000.

Definition TimeClip (t : Z) : Date :=
  if Z.abs t <=? maxTime then DateAt t else InvalidDate.

Definition LocalTime (tz t : Z) : Z := t + tz * msPerMinute.
Definition UTC (tz t : Z) : Z := t - tz * msPerMinute.

(** [d.getTime()]; [None] is NaN. *)
Definition getTime (d : Date) : option Z :=
  match d with
  | DateAt tv => Some tv
  | InvalidDate => None
  end.

(** [new Date(n)] for an integral number [n]. *)
Definition ofNumber (n : Z) : Date := TimeClip n.

Definition charAt (s : string) (i : nat) (c : ascii) : bool :=
  match String.get i s with
  | Some c' => Ascii.eqb c c'
  | None => false
  end.

(** The fields of [YYYY-MM-DDTHH:mm] or [YYYY-MM-DDTHH:mm:ss]. *)
Definition fields (s : string) : option (Z * Z * Z * Z * Z * Z) :=
  if charAt s 4 "-" && charAt s 7 "-" && charAt s 10 "T" && charAt s 13 ":" then
    match JS.digits (substring 0 4 s), JS.digits (substring 5 2 s),
          JS.digits (substring 8 2 s), JS.digits (substring 11 2 s),
          JS.digits (substring 14 2 s) with
    | Some y, Some mo, Some d, Some h, Some mi =>
        if (String.length s =? 16)%nat then Some (y, mo, d, h, mi, 0)
        else if (String.length s =? 19)%nat && charAt s 16 ":" then
          match JS.digits (substring 17 2 s) with
          | Some sec => Some (y, mo, d, h, mi, sec)
          | None => None
          end
        else None
    | _, _, _, _, _ => None
    end
  else None.

(** [new Date(s)] for a date-time string. The form controls of the page
    produce [YYYY-MM-DD] and [HH:mm] (or [HH:mm:ss]), so the string built by
    [toDateTime] has the shape [YYYY-MM-DDTHH:mm] with optional seconds,
    which the language reads as local time. Strings of this shape with a
    field out of range, and strings of any other shape, give the Invalid
    Date here. Hosts read more than this (a year of six digits with a sign,
    fractions of a second, a [Z] suffix, on some hosts a day past the end
    of its month): such strings are outside this model. *)
Definition parse (tz : Z) (s : string) : Date :=
  match fields s with
  | Some (y, mo, d, h, mi, sec) =>
      if (1 <=? mo) && (mo <=? 12) && (1 <=? d) && (d <=? daysInMonth y mo)
         && (h <=? 23) && (mi <=? 59) && (sec <=? 59) then
        TimeClip (UTC tz (MakeDate (MakeDay y (mo - 1) d)
                                   (h * msPerHour + mi * msPerMinute + sec * 1000)))
      else InvalidDate
  | None => InvalidDate
  end.

(** [d.getMonth()] and [d.getDate()], in local time; [None] is NaN. *)
Definition getMonth (tz : Z) (d : Date) : option Z :=
  match d with
  | DateAt tv => Some (MonthFromTime (LocalTime tz tv))
  | InvalidDate => None
  end.

Definition getDate (tz : Z) (d : Date) : option Z :=
  match d with
  | DateAt tv => Some (DateFromTime (LocalTime tz tv))
  | InvalidDate => None
  end.

(** [d.setMonth(month)] and [d.setDate(date)]: the new value of [d]. *)
Definition setMonth (tz : Z) (d : Date) (month : option Z) : Date :=
  match d, month with
  | DateAt tv, Some mo =>
      let t := LocalTime tz tv in
      TimeClip (UTC tz (MakeDate (MakeDay (YearFromTime t) mo (DateFromTime t))
                                 (TimeWithinDay t)))
  | _, _ => InvalidDate
  end.

Definition setDate (tz : Z) (d : Date) (date : option Z) : Date :=
  match d, date with
  | DateAt tv, Some dt =>
      let t := LocalTime tz tv in
      TimeClip (UTC tz (MakeDate (MakeDay (YearFromTime t) (MonthFromTime t) dt)
                                 (TimeWithinDay t)))
  | _, _ => InvalidDate
  end.

(** The year of an ISO string: four digits, or a sign and six digits. *)
Definition isoYear (y : Z) : string :=
  if (0 <=? y) && (y <=? 9999) then JS.fixedDigits 4 y
  else (if y <? 0 then "-" else "+") +:+ JS.fixedDigits 6 (Z.abs y).

(** The ISO string of a time value, in UTC. *)
Definition isoString (tv : Z) : string :=
  let '(y, m, dd) := civilFromDays (Day tv) in
  let t := TimeWithinDay tv in
  isoYear y +:+ "-" +:+ JS.fixedDigits 2 m +:+ "-" +:+ JS.fixedDigits 2 dd
  +:+ "T" +:+ JS.fixedDigits 2 (t / msPerHour)
  +:+ ":" +:+ JS.fixedDigits 2 ((t / msPerMinute) mod 60)
  +:+ ":" +:+ JS.fixedDigits 2 ((t / 1000) mod 60)
  +:+ "." +:+ JS.fixedDigits 3 (t mod 1000) +:+ "Z".

(** [d.toISOString()]; [None] is the RangeError thrown for the Invalid
    Date. *)
Definition toISOString (d : Date) : option string :=
  match d with
  | InvalidDate => None
  | DateAt tv => Some (isoString tv)
  end.

(** [a < b] and [a >= b] on dates compare the time values; a comparison
    with NaN is false. *)
Definition lt (a b : Date) : bool :=
  match a, b with
  | DateAt x, DateAt y => x <? y
  | _, _ => false
  end.

Definition ge (a b : Date) : bool :=
  match a, b with
  | DateAt x, DateAt y => y <=? x
  | _, _ => false
  end.

End DateObj.

(** ** Types *)

Inductive Recurrence : Type := none | daily | weekly | monthly.

Record Task : Type := mkTask {
  id : string;
  title : string;
  completed : bool;
  startDate : option string;
  startTime : option string;
  endDate : option string;
  endTime : option string;
  recurrence : option Recurrence;
  createdAt : option string
}.

Record CountdownState : Type := mkCountdown {
  cd_title : string;
  cd_time : string;
  cd_color : string
}.

(** ** Helpers *)

(** [toDateTime(d, t, fallbackTime = "00:00")]; [None] is [null]. *)
Definition toDateTime (tz : Z) (d t : option string) (fallbackTime : string)
  : option Date :=
  match d with
  | Some ds =>
      if String.eqb ds "" then None
      else Some (DateObj.parse tz (ds +:+ "T" +:+ JS.orStr t fallbackTime))
  | None => None
  end.

Definition pad2 (n : Z) : string := JS.padStart2 (JS.toString n).

(** [addToYMD(ymd, { days, months })]; [None] is the RangeError that
    [toISOString] throws when [ymd] is not a date. *)
Definition addToYMD (tz : Z) (ymd : string) (days months : Z) : option string :=
  let dt := DateObj.parse tz (ymd +:+ "T00:00") in
  let dt := if months =? 0 then dt
            else DateObj.setMonth tz dt (option_map (fun m => m + months) (DateObj.getMonth tz dt)) in
  let dt := if days =? 0 then dt
            else DateObj.setDate tz dt (option_map (fun d => d + days) (DateObj.getDate tz dt)) in
  option_map (substring 0 10) (DateObj.toISOString dt).

(** [nextByRecurrence(date, rule)]: [None] is a thrown RangeError,
    [Some None] is [undefined]. *)
Definition nextByRecurrence (tz : Z) (date : option string) (rule : Recurrence)
  : option (option string) :=
  match date with
  | None => Some None
  | Some d =>
      if String.eqb d "" then Some None
      else
        match rule with
        | daily => option_map Some (addToYMD tz d 1 0)
        | weekly => option_map Some (addToYMD tz d 7 0)
        | monthly => option_map Some (addToYMD tz d 0 1)
        | none => Some None
        end
  end.

(** ** Fixed classes of the banner *)

Module COLOR.
Definition blue : string := "bg-blue-600".
Definition yellow : string := "bg-yellow-400".
Definition red : string := "bg-red-600".
Definition redPulse : string := "bg-red-600 animate-pulse".
End COLOR.

(** ** The countdown handler

    The component keeps [lastColor], [lastTaskKey], [alarmStarted],
    [countdown] and [needsAudioUnlock] as React state and the set of fired
    notification keys in a ref. The interval callback closes over the state
    of the render that installed it: what it reads during one run is the
    state before the run, and each [setX] replaces the value seen by the next
    render. The ref is read and written in place. *)

Inductive Permission : Type := granted | denied | default.

Record EngineState : Type := mkEngine {
  lastColor : string;
  lastTaskKey : string;
  alarmStarted : bool;
  countdown : option CountdownState;
  needsAudioUnlock : bool;
  notified5min : gset string
}.

Definition initialState : EngineState :=
  {| lastColor := ""; lastTaskKey := ""; alarmStarted := false;
     countdown := None; needsAudioUnlock := false; notified5min := ∅ |}.

(** What one run of the callback finds outside the component state. *)
Record TickInput : Type := mkInput {
  now : Z;                          (* [new Date()] *)
  tasks : list Task;                (* the [tasks] state *)
  notificationDefined : bool;       (* [typeof Notification !== "undefined"] *)
  notifPerm : option Permission;    (* the [notifPerm] state *)
  playRejected : bool               (* the promise of [play()] is rejected *)
}.

(** Calls that leave the component. [Notify] also records the key under
    which the notification was entered in the ref. *)
Inductive Effect : Type :=
  | AlarmPause                      (* [pause()] and rewind of the alert audio *)
  | AlarmPlay                       (* [play()] on the alert audio *)
  | ChimePlay                       (* [play()] on the notify audio *)
  | Notify (key ntitle body : string).

Definition Effect_eqb (a b : Effect) : bool :=
  match a, b with
  | AlarmPause, AlarmPause | AlarmPlay, AlarmPlay | ChimePlay, ChimePlay => true
  | Notify k t b, Notify k' t' b' => String.eqb k k' && String.eqb t t' && String.eqb b b'
  | _, _ => false
  end.

(** *** A monad for one run: queued state, calls made, exceptions *)

Record Run : Type := mkRun {
  queued : EngineState;
  calls : list Effect
}.

(** [None] as a result: an exception left the callback; what was queued
    before stays queued. *)
Definition Handler (A : Type) : Type := Run -> option A * Run.

Definition ret {A} (a : A) : Handler A := fun r => (Some a, r).

Definition bind {A B} (m : Handler A) (k : A -> Handler B) : Handler B :=
  fun r =>
    match m r with
    | (Some a, r') => k a r'
    | (None, r') => (None, r')
    end.

Definition throw {A} : Handler A := fun r => (None, r).

Definition orThrow {A} (o : option A) : Handler A :=
  match o with
  | Some a => ret a
  | None => throw
  end.

Notation "x <- m ;; k" := (bind m (fun x => k))
  (at level 100, m at next level, right associativity).
Notation "m ;; k" := (bind m (fun _ => k))
  (at level 100, right associativity).

Definition emit (e : Effect) : Handler unit :=
  fun r => (Some tt, {| queued := queued r; calls := (calls r ++ [e])%list |}).

Definition modify (f : EngineState -> EngineState) : Handler unit :=
  fun r => (Some tt, {| queued := f (queued r); calls := calls r |}).

Definition when (b : bool) (m : Handler unit) : Handler unit :=
  if b then m else ret tt.

Definition setLastColor (v : string) : Handler unit :=
  modify (fun s => {| lastColor := v; lastTaskKey := lastTaskKey s;
                      alarmStarted := alarmStarted s; countdown := countdown s;
                      needsAudioUnlock := needsAudioUnlock s;
                      notified5min := notified5min s |}).

Definition setLastTaskKey (v : string) : Handler unit :=
  modify (fun s => {| lastColor := lastColor s; lastTaskKey := v;
                      alarmStarted := alarmStarted s; countdown := countdown s;
                      needsAudioUnlock := needsAudioUnlock s;
                      notified5min := notified5min s |}).

Definition setAlarmStarted (v : bool) : Handler unit :=
  modify (fun s => {| lastColor := lastColor s; lastTaskKey := lastTaskKey s;
                      alarmStarted := v; countdown := countdown s;
                      needsAudioUnlock := needsAudioUnlock s;
                      notified5min := notified5min s |}).

Definition setCountdown (v : option CountdownState) : Handler unit :=
  modify (fun s => {| lastColor := lastColor s; lastTaskKey := lastTaskKey s;
                      alarmStarted := alarmStarted s; countdown := v;
                      needsAudioUnlock := needsAudioUnlock s;
                      notified5min := notified5min s |}).

Definition setNeedsAudioUnlock (v : bool) : Handler unit :=
  modify (fun s => {| lastColor := lastColor s; lastTaskKey := lastTaskKey s;
                      alarmStarted := alarmStarted s; countdown := countdown s;
                      needsAudioUnlock := v;
                      notified5min := notified5min s |}).

(** [notified5minRef.current.has(key)] and [.add(key)]. *)
Definition hasNotified (key : string) : Handler bool :=
  fun r => (Some (bool_decide (key ∈ notified5min (queued r))), r).

Definition addNotified (key : string) : Handler unit :=
  modify (fun s => {| lastColor := lastColor s; lastTaskKey := lastTaskKey s;
                      alarmStarted := alarmStarted s; countdown := countdown s;
                      needsAudioUnlock := needsAudioUnlock s;
                      notified5min := {[ key ]} ∪ notified5min s |}).

(** The audio elements are rendered with the page, so both refs are set
    whenever the interval fires. *)
Definition pauseAlarm : Handler unit := emit AlarmPause.

Definition playAlarm (inp : TickInput) : Handler unit :=
  emit AlarmPlay ;; when (playRejected inp) (setNeedsAudioUnlock true).

Definition playChime (inp : TickInput) : Handler unit :=
  emit ChimePlay ;; when (playRejected inp) (setNeedsAudioUnlock true).

(** *** Selection of the target *)

Record Cand : Type := mkCand {
  task : Task;
  due : Date;
  start : option Date
}.

(** The due date of a task as the handler computes it:
    [toDateTime(t.endDate || t.startDate, t.endTime || t.startTime || "23:59")]. *)
Definition dueDateTime (tz : Z) (t : Task) : option Date :=
  toDateTime tz (JS.or (endDate t) (startDate t))
             (Some (JS.orStr (JS.or (endTime t) (startTime t)) "23:59")) "00:00".

Definition startDateTime (tz : Z) (t : Task) : option Date :=
  toDateTime tz (startDate t) (startTime t) "00:00".

Definition activeTasks (ts : list Task) : list Task :=
  List.filter (fun t => negb (completed t)) ts.

Definition isStarted (tz nowMs : Z) (t : Task) : bool :=
  match startDateTime tz t with
  | Some st => DateObj.ge (DateAt nowMs) st
  | None => true
  end.

Definition startedTasks (tz nowMs : Z) (active : list Task) : list Task :=
  List.filter (isStarted tz nowMs) active.

Definition toCand (tz : Z) (t : Task) : Cand :=
  {| task := t;
     due := match dueDateTime tz t with
            | Some d => d
            | None => DateObj.ofNumber 8640000000000000
            end;
     start := startDateTime tz t |}.

Definition dueIsNumber (c : Cand) : bool :=
  match DateObj.getTime (due c) with
  | Some _ => true
  | None => false
  end.

Definition candidatesOf (tz : Z) (started : list Task) : list Cand :=
  List.filter dueIsNumber (List.map (toCand tz) started).

(** [Array.prototype.sort(cmp)]: a stable sort; a comparison that yields NaN
    counts as 0. *)
Fixpoint insertBy {A} (cmp : A -> A -> Z) (x : A) (l : list A) : list A :=
  match l with
  | [] => [x]
  | y :: l' => if cmp x y <=? 0 then x :: l else y :: insertBy cmp x l'
  end.

Definition sortBy {A} (cmp : A -> A -> Z) (l : list A) : list A :=
  List.fold_right (insertBy cmp) [] l.

(** [(a, b) => a.due.getTime() - b.due.getTime()]. *)
Definition compareDue (a b : Cand) : Z :=
  match DateObj.getTime (due a), DateObj.getTime (due b) with
  | Some x, Some y => x - y
  | _, _ => 0
  end.

Definition isEmpty {A} (l : list A) : bool :=
  match l with
  | [] => true
  | _ => false
  end.

(** What the handler decides before any alert: the three informational
    outcomes, or the candidate it tracks ([candidates[0]] after the sort). *)
Inductive Selection : Type :=
  | NoActiveTasks
  | NoneStartedYet
  | NoDeadlineSet
  | Selected (target : Cand).

Definition selectTarget (tz nowMs : Z) (ts : list Task) : Selection :=
  let active := activeTasks ts in
  if isEmpty active then NoActiveTasks
  else
    let started := startedTasks tz nowMs active in
    if isEmpty started then NoneStartedYet
    else
      let candidates := candidatesOf tz started in
      if isEmpty candidates then NoDeadlineSet
      else
        match sortBy compareDue candidates with
        | target :: _ => Selected target
        | [] => NoDeadlineSet
        end.

(** *** Alerts *)

(** [now.getTime() >= start + (due - start) / 2]; the division is exact
    in the rationals, as it is in floating point for these magnitudes. *)
Definition halfReached (startD : Date) (dueMs nowMs : Z) : bool :=
  match DateObj.getTime startD with
  | Some s => Qle_bool (inject_Z s + inject_Z (dueMs - s) / 2) (inject_Z nowMs)
  | None => false
  end.

(** The colour before the five-minute and one-minute overrides. *)
Definition baseColor (startD : option Date) (dueMs nowMs : Z) : string :=
  let diffMs := dueMs - nowMs in
  match startD with
  | Some sd =>
      if 5 * 60 * 1000 <? diffMs then
        (if halfReached sd dueMs nowMs then COLOR.yellow else COLOR.blue)
      else if (diffMs <=? 24 * 60 * 60 * 1000) && (5 * 60 * 1000 <? diffMs)
      then COLOR.yellow else COLOR.blue
  | None =>
      if (diffMs <=? 24 * 60 * 60 * 1000) && (5 * 60 * 1000 <? diffMs)
      then COLOR.yellow else COLOR.blue
  end.

(** [show5minNotification(task, diffMs)], for [diffMs >= 0]. *)
Definition show5minNotification (tz : Z) (inp : TickInput) (t : Task) (diffMs : Z)
  : Handler unit :=
  if negb (notificationDefined inp) then ret tt
  else
    match notifPerm inp with
    | Some granted =>
        dueIso <- match dueDateTime tz t with
                  | Some d => orThrow (DateObj.toISOString d)
                  | None => ret ""
                  end ;;
        let key := id t +:+ "-" +:+ dueIso in
        seen <- hasNotified key ;;
        if seen then ret tt
        else
          addNotified key ;;
          let mins := diffMs / 60000 in
          let secs := (diffMs / 1000) mod 60 in
          emit (Notify key "5 minutes left"
                  (title t +:+ " — " +:+ JS.toString mins +:+ "m "
                   +:+ pad2 secs +:+ "s left"))
    | _ => ret tt
    end.

(** The part of the callback that runs once a target with a positive
    remaining time is known. [st] is the state the callback closed over. *)
Definition alert (tz : Z) (inp : TickInput) (st : EngineState) (target : Cand)
    (dueMs : Z) : Handler unit :=
  let diffMs := dueMs - now inp in
  let color := baseColor (start target) dueMs (now inp) in
  let color := if diffMs <=? 5 * 60 * 1000 then COLOR.red else color in
  when (diffMs <=? 5 * 60 * 1000) (show5minNotification tz inp (task target) diffMs) ;;
  let color := if diffMs <=? 60 * 1000 then COLOR.redPulse else color in
  (if diffMs <=? 60 * 1000 then
     when (negb (alarmStarted st)) (playAlarm inp ;; setAlarmStarted true)
   else
     when (alarmStarted st) pauseAlarm ;;
     when (alarmStarted st) (setAlarmStarted false)) ;;
  when (negb (String.eqb (lastColor st) "")
        && negb (String.eqb color (lastColor st))
        && (60 * 1000 <? diffMs))
       (playChime inp) ;;
  setLastColor color ;;
  let h := diffMs / 3600000 in
  let m := (diffMs / 60000) mod 60 in
  let s := (diffMs / 1000) mod 60 in
  setCountdown (Some {| cd_title := title (task target);
                        cd_time := JS.toString h +:+ "h " +:+ pad2 m +:+ "m "
                                   +:+ pad2 s +:+ "s left";
                        cd_color := color |}).

(** The callback from [const target = candidates[0]] on. *)
Definition trackTarget (tz : Z) (inp : TickInput) (st : EngineState) (target : Cand)
  : Handler unit :=
  dueIso <- orThrow (DateObj.toISOString (due target)) ;;
  let targetKey := id (task target) +:+ "-" +:+ dueIso in
  when (negb (String.eqb targetKey (lastTaskKey st)))
       (pauseAlarm ;;
        setAlarmStarted false ;;
        setLastColor "" ;;
        setLastTaskKey targetKey) ;;
  dueMs <- orThrow (DateObj.getTime (due target)) ;;
  let diffMs := dueMs - now inp in
  if diffMs <=? 0 then
    pauseAlarm ;;
    setAlarmStarted false ;;
    setCountdown (Some {| cd_title := title (task target);
                          cd_time := "Done"; cd_color := COLOR.blue |})
  else alert tz inp st target dueMs.

(** The interval callback. *)
Definition tickHandler (tz : Z) (inp : TickInput) (st : EngineState) : Handler unit :=
  let active := activeTasks (tasks inp) in
  if isEmpty active then
    pauseAlarm ;;
    setAlarmStarted false ;;
    setCountdown None ;;
    setLastColor "" ;;
    setLastTaskKey ""
  else
    let started := startedTasks tz (now inp) active in
    if isEmpty started then
      pauseAlarm ;;
      setAlarmStarted false ;;
      setCountdown (Some {| cd_title := "No tasks started yet"; cd_time := "";
                            cd_color := COLOR.blue |})
    else
      let candidates := candidatesOf tz started in
      if isEmpty candidates then
        setCountdown (Some {| cd_title := "Set an end date/time to enable countdown";
                              cd_time := ""; cd_color := COLOR.blue |})
      else
        match sortBy compareDue candidates with
        | target :: _ => trackTarget tz inp st target
        | [] => throw
        end.

(** One tick: the state of the next render and the calls made, in order. *)
Definition tick (tz : Z) (inp : TickInput) (st : EngineState)
  : EngineState * list Effect :=
  let r := snd (tickHandler tz inp st {| queued := st; calls := [] |}) in
  (queued r, calls r).

(** Whether an exception left the callback. *)
Definition tickThrows (tz : Z) (inp : TickInput) (st : EngineState) : bool :=
  match fst (tickHandler tz inp st {| queued := st; calls := [] |}) with
  | Some _ => false
  | None => true
  end.

(** A session: the handler run on a list of inputs, each run starting from
    the state the previous one left. The calls of all runs, in order. *)
Fixpoint runTicks (tz : Z) (inps : list TickInput) (st : EngineState)
  : EngineState * list Effect :=
  match inps with
  | [] => (st, [])
  | inp :: rest =>
      let '(st1, es1) := tick tz inp st in
      let '(st2, es2) := runTicks tz rest st1 in
      (st2, (es1 ++ es2)%list)
  end.

(** ** Creating, completing and editing tasks *)

(** The add form and the edit form of the component. *)
Module AddForm.
Record t : Type := mk {
  input : string;
  startDate : string;
  startTime : string;
  endDate : string;
  endTime : string;
  recurrence : Recurrence
}.
Definition empty : t := mk "" "" "" "" "" none.
End AddForm.

Module EditForm.
Record t : Type := mk {
  editingId : option string;
  editInput : string;
  editStartDate : string;
  editStartTime : string;
  editEndDate : string;
  editEndTime : string;
  editRecurrence : Recurrence
}.
Definition empty : t := mk None "" "" "" "" "" none.
End EditForm.

(** The outcome of a form handler: the task list and the form afterwards,
    and the message shown with [alert], if any. *)
Record Outcome (F : Type) : Type := mkOutcome {
  out_tasks : list Task;
  out_form : F;
  out_alert : option string
}.
Arguments mkOutcome {F} _ _ _.
Arguments out_tasks {F} _.
Arguments out_form {F} _.
Arguments out_alert {F} _.

Definition endBeforeStartMessage : string :=
  "End date/time cannot be earlier than start date/time.".

(** [s && ed && ed < s]. *)
Definition endsBeforeStart (s ed : option Date) : bool :=
  match s, ed with
  | Some sd, Some edd => DateObj.lt edd sd
  | _, _ => false
  end.

(** [addTask]; [newId] is the value of [genId()] and [nowIso] the value of
    [new Date().toISOString()]. *)
Definition addTask (tz : Z) (newId nowIso : string) (f : AddForm.t) (prev : list Task)
  : Outcome AddForm.t :=
  if String.eqb (JS.trim (AddForm.input f)) "" then mkOutcome prev f None
  else
    let s := toDateTime tz (Some (AddForm.startDate f)) (Some (AddForm.startTime f)) "00:00" in
    let ed := toDateTime tz (Some (AddForm.endDate f)) (Some (AddForm.endTime f)) "23:59" in
    if endsBeforeStart s ed then mkOutcome prev f (Some endBeforeStartMessage)
    else
      let newTask :=
        {| id := newId;
           title := JS.trim (AddForm.input f);
           completed := false;
           startDate := JS.orUndefined (AddForm.startDate f);
           startTime := JS.orUndefined (AddForm.startTime f);
           endDate := JS.or (Some (AddForm.endDate f)) (JS.orUndefined (AddForm.startDate f));
           endTime := JS.orUndefined (AddForm.endTime f);
           recurrence := Some (AddForm.recurrence f);
           createdAt := Some nowIso |} in
      mkOutcome (prev ++ [newTask])%list AddForm.empty None.

Definition isRecurring (r : option Recurrence) : option Recurrence :=
  match r with
  | Some none | None => None
  | Some rule => Some rule
  end.

(** [toggleTask(id)]: the updater passed to [setTasks]; [None] when the
    RangeError of [addToYMD] leaves it. *)
Definition toggleTask (tz : Z) (newId nowIso : string) (tid : string) (prev : list Task)
  : option (list Task) :=
  let list :=
    List.map (fun t => if String.eqb (id t) tid
                       then {| id := id t; title := title t;
                               completed := negb (completed t);
                               startDate := startDate t; startTime := startTime t;
                               endDate := endDate t; endTime := endTime t;
                               recurrence := recurrence t; createdAt := createdAt t |}
                       else t) prev in
  match List.find (fun tt => String.eqb (id tt) tid) list with
  | Some t =>
      match (if completed t then isRecurring (recurrence t) else None) with
      | Some rule =>
          match nextByRecurrence tz (startDate t) rule,
                nextByRecurrence tz (JS.or (endDate t) (startDate t)) rule with
          | Some nextStartDate, Some nextEndDate =>
              if JS.truthy nextStartDate || JS.truthy nextEndDate then
                Some (list ++ [ {| id := newId; title := title t; completed := false;
                                   startDate := nextStartDate; startTime := startTime t;
                                   endDate := nextEndDate; endTime := endTime t;
                                   recurrence := recurrence t;
                                   createdAt := Some nowIso |} ])%list
              else Some list
          | _, _ => None
          end
      | None => Some list
      end
  | None => Some list
  end.

(** [saveEdit]. *)
Definition saveEdit (tz : Z) (f : EditForm.t) (prev : list Task) : Outcome EditForm.t :=
  match EditForm.editingId f with
  | None => mkOutcome prev f None
  | Some eid =>
      if String.eqb eid "" then mkOutcome prev f None
      else
        let s := toDateTime tz (Some (EditForm.editStartDate f))
                            (Some (EditForm.editStartTime f)) "00:00" in
        let ed := toDateTime tz
                    (JS.or (Some (EditForm.editEndDate f)) (Some (EditForm.editStartDate f)))
                    (Some (JS.orStr (JS.or (Some (EditForm.editEndTime f))
                                           (Some (EditForm.editStartTime f))) "23:59"))
                    "00:00" in
        if endsBeforeStart s ed then mkOutcome prev f (Some endBeforeStartMessage)
        else
          mkOutcome
            (List.map
               (fun t =>
                  if String.eqb (id t) eid then
                    {| id := id t;
                       title := JS.orStr (Some (JS.trim (EditForm.editInput f))) (title t);
                       completed := completed t;
                       startDate := JS.orUndefined (EditForm.editStartDate f);
                       startTime := JS.orUndefined (EditForm.editStartTime f);
                       endDate := JS.or (Some (EditForm.editEndDate f))
                                        (JS.orUndefined (EditForm.editStartDate f));
                       endTime := JS.orUndefined (EditForm.editEndTime f);
                       recurrence := Some (EditForm.editRecurrence f);
                       createdAt := createdAt t |}
                  else t)
               prev)
            EditForm.empty None
  end.

(** ** Import

    The handler of the file input, from the parsed array on: the tasks of
    the page and then the imported ones are entered in a [Map] by id, and
    the values of the map become the task list. A [Map] keeps its keys in
    the order of their first insertion; it is kept here as its entries in
    that order. *)

(** [map.set(k, v)]. *)
Fixpoint mapSet (k : string) (v : Task) (m : list (string * Task))
  : list (string * Task) :=
  match m with
  | [] => [(k, v)]
  | (k', v') :: m' =>
      if String.eqb k' k then (k', v) :: m' else (k', v') :: mapSet k v m'
  end.

(** [[...tasks, ...data].forEach(t => map.set(t.id, t))] on the map [m]. *)
Definition setAll (l : list Task) (m : list (string * Task)) : list (string * Task) :=
  List.fold_left (fun m t => mapSet (id t) t m) l m.

(** [Array.from(map.values())] after the import of [data]. *)
Definition mergeImported (tasks data : list Task) : list Task :=
  List.map snd (setAll (tasks ++ data)%list []).

(** The entries of a map built from tasks: distinct keys, each the id of its
    value. *)
Definition keyedById (m : list (string * Task)) : Prop :=
  List.NoDup (List.map fst m) /\ Forall (fun e => id (snd e) = fst e) m.

(** [t] is the last task of [l] with its id. *)
Definition lastWithId (t : Task) (l : list Task) : Prop :=
  exists l1 l2, l = (l1 ++ t :: l2)%list /\ forall t', In t' l2 -> id t' <> id t.

(** ** The visible list

    [visibleTasks]: the tasks that pass the filter and the search, sorted
    by the chosen key and then with the uncompleted tasks first. The case
    folding and the collation of the host, [toLowerCase] and
    [localeCompare], are taken as given. *)

(** The numbers a sort key can be: a time value, NaN for the Invalid Date,
    and the infinities. *)
Inductive Num : Type := NaN | NegInf | PosInf | Fin (z : Z).

(** [a - b]. For two time values only the sign of the difference is used
    below, and rounding does not change it. *)
Definition numSub (a b : Num) : Num :=
  match a, b with
  | NaN, _ | _, NaN => NaN
  | Fin x, Fin y => Fin (x - y)
  | PosInf, PosInf | NegInf, NegInf => NaN
  | PosInf, _ => PosInf
  | NegInf, _ => NegInf
  | Fin _, PosInf => NegInf
  | Fin _, NegInf => PosInf
  end.

(** What [sort] makes of the number its comparator returns: NaN counts as 0,
    otherwise the sign decides. *)
Definition sortValue (n : Num) : Z :=
  match n with
  | NaN => 0
  | NegInf => -1
  | PosInf => 1
  | Fin z => z
  end.

Module DateText.
Import Calendar.

(** The fields of [YYYY-MM-DDTHH:mm:ss.sssZ], the form [toISOString]
    writes for a year of four digits. *)
Definition fieldsZ (s : string) : option (Z * Z * Z * Z * Z * Z * Z) :=
  if (String.length s =? 24)%nat && DateObj.charAt s 4 "-" && DateObj.charAt s 7 "-"
     && DateObj.charAt s 10 "T" && DateObj.charAt s 13 ":" && DateObj.charAt s 16 ":"
     && DateObj.charAt s 19 "." && DateObj.charAt s 23 "Z" then
    match JS.digits (substring 0 4 s), JS.digits (substring 5 2 s),
          JS.digits (substring 8 2 s), JS.digits (substring 11 2 s),
          JS.digits (substring 14 2 s), JS.digits (substring 17 2 s),
          JS.digits (substring 20 3 s) with
    | Some y, Some mo, Some d, Some h, Some mi, Some sec, Some ms =>
        Some (y, mo, d, h, mi, sec, ms)
    | _, _, _, _, _, _, _ => None
    end
  else None.

(** [new Date(s)] for a stored stamp: a string of the form [toISOString]
    writes is read as UTC, and every other string as [DateObj.parse] reads
    it, so a string of neither form gives the Invalid Date here. *)
Definition ofString (tz : Z) (s : string) : Date :=
  match fieldsZ s with
  | Some (y, mo, d, h, mi, sec, ms) =>
      if (1 <=? mo) && (mo <=? 12) && (1 <=? d) && (d <=? daysInMonth y mo)
         && (h <=? 23) && (mi <=? 59) && (sec <=? 59) then
        DateObj.TimeClip (MakeDate (MakeDay y (mo - 1) d)
                                   (h * msPerHour + mi * msPerMinute + sec * 1000 + ms))
      else InvalidDate
  | None => DateObj.parse tz s
  end.

End DateText.

(** [d.getTime()] as a number. *)
Definition numOfDate (d : Date) : Num :=
  match d with
  | DateAt tv => Fin tv
  | InvalidDate => NaN
  end.

(** [safeTime(d, t, fallback)]:
    [toDateTime(d, t, fallback)?.getTime() ?? Number.POSITIVE_INFINITY]. *)
Definition safeTime (tz : Z) (d t : option string) (fallback : string) : Num :=
  match toDateTime tz d t fallback with
  | Some dt => numOfDate dt
  | None => PosInf
  end.

Definition getStart (tz : Z) (t : Task) : Num :=
  safeTime tz (startDate t) (Some (JS.orStr (startTime t) "00:00")) "00:00".

Definition getEnd (tz : Z) (t : Task) : Num :=
  if JS.truthy (endDate t) then
    safeTime tz (endDate t) (Some (JS.orStr (endTime t) "23:59")) "00:00"
  else if JS.truthy (startDate t) then
    safeTime tz (startDate t)
             (Some (JS.orStr (JS.or (endTime t) (startTime t)) "23:59")) "00:00"
  else PosInf.

Definition getCreated (tz : Z) (t : Task) : Num :=
  match createdAt t with
  | Some s => if String.eqb s "" then Fin 0 else numOfDate (DateText.ofString tz s)
  | None => Fin 0
  end.

(** The values of the filter and sort controls. *)
Inductive ListFilter : Type := filterAll | filterActive | filterCompleted.
Inductive ListSort : Type := sortEnd | sortStart | sortCreated | sortTitle.

(** [s.includes(q)]. *)
Fixpoint includes (s q : string) : bool :=
  String.prefix q s ||
  match s with
  | String _ s' => includes s' q
  | EmptyString => false
  end.

(** The comparator of the first sort. *)
Definition compareBy (tz : Z) (localeCompare : string -> string -> Z) (sort : ListSort)
    (a b : Task) : Z :=
  match sort with
  | sortEnd => sortValue (numSub (getEnd tz a) (getEnd tz b))
  | sortStart => sortValue (numSub (getStart tz a) (getStart tz b))
  | sortCreated => sortValue (numSub (getCreated tz a) (getCreated tz b))
  | sortTitle => localeCompare (title a) (title b)
  end.

(** The comparator of the second sort:
    [a.completed === b.completed ? 0 : a.completed ? 1 : -1]. *)
Definition compareCompleted (a b : Task) : Z :=
  if Bool.eqb (completed a) (completed b) then 0
  else if completed a then 1 else -1.

(** Whether a task passes the filter and the search. *)
Definition passesFilter (filter : ListFilter) (t : Task) : bool :=
  match filter with
  | filterAll => true
  | filterActive => negb (completed t)
  | filterCompleted => completed t
  end.

Definition passesSearch (toLowerCase : string -> string) (query : string) (t : Task)
  : bool :=
  let q := toLowerCase (JS.trim query) in
  if String.eqb q "" then true else includes (toLowerCase (title t)) q.

(** [visibleTasks]. *)
Definition visibleTasks (tz : Z) (toLowerCase : string -> string)
    (localeCompare : string -> string -> Z)
    (tasks : list Task) (filter : ListFilter) (sort : ListSort) (query : string)
  : list Task :=
  let arr := tasks in
  let arr := match filter with
             | filterActive => List.filter (fun t => negb (completed t)) arr
             | _ => arr
             end in
  let arr := match filter with
             | filterCompleted => List.filter (fun t => completed t) arr
             | _ => arr
             end in
  let q := toLowerCase (JS.trim query) in
  let arr := if String.eqb q "" then arr
             else List.filter (fun t => includes (toLowerCase (title t)) q) arr in
  let sorted := sortBy (compareBy tz localeCompare sort) arr in
  sortBy compareCompleted sorted.

(** The order of two sort keys, as the comparator of the first sort sees
    it. *)
Definition numLe (x y : Num) : Prop := sortValue (numSub x y) <= 0.

(** ** Reading the outcome of a tick *)

(** The escalation zones of the design document. *)
Inductive Zone : Type := Normal | Warning | Imminent | Critical | Done.

(** The zone a published banner stands for: the text [Done], or else the
    class of the banner; the informational banners carry no time text and
    stand for no zone. *)
Definition zoneOfColor (c : string) : option Zone :=
  if String.eqb c COLOR.redPulse then Some Critical
  else if String.eqb c COLOR.red then Some Imminent
  else if String.eqb c COLOR.yellow then Some Warning
  else if String.eqb c COLOR.blue then Some Normal
  else None.

Definition zoneOfCountdown (c : CountdownState) : option Zone :=
  if String.eqb (cd_time c) "Done" then Some Done
  else if String.eqb (cd_time c) "" then None
  else zoneOfColor (cd_color c).

(** The start instant of a candidate as a number, when it has one. *)
Definition startMsOf (c : Cand) : option Z :=
  match start c with
  | Some d => DateObj.getTime d
  | None => None
  end.

(** A task takes part in the ranking when it is not completed, has
    started, and its due date is a number. *)
Definition eligible (tz nowMs : Z) (t : Task) : bool :=
  negb (completed t) && isStarted tz nowMs t && dueIsNumber (toCand tz t).

(** The time value the ranking uses for a task. *)
Definition dueMsOf (tz : Z) (t : Task) : Z :=
  match DateObj.getTime (due (toCand tz t)) with
  | Some x => x
  | None => 0
  end.

(** The first element that no other element precedes in the order [cmp]. *)
Fixpoint firstMin {A} (cmp : A -> A -> Z) (l : list A) : option A :=
  match l with
  | [] => None
  | x :: l' =>
      match firstMin cmp l' with
      | None => Some x
      | Some y => if cmp x y <=? 0 then Some x else Some y
      end
  end.

(** How many calls of a kind a run made. *)
Definition countCalls (e : Effect) (l : list Effect) : nat :=
  List.length (List.filter (Effect_eqb e) l).

(** The notifications fired under [key], and their number. *)
Definition isNotifyFor (key : string) (e : Effect) : bool :=
  match e with
  | Notify k _ _ => String.eqb k key
  | _ => false
  end.

Definition countNotify (key : string) (l : list Effect) : nat :=
  List.length (List.filter (isNotifyFor key) l).

(** ** The outcome of a tick, written out

    The definitions below name what the statements speak of: the keys, the
    decisions of the handler, and the run of each branch as a closed form. *)

(** The key under which [show5minNotification] enters a task in the ref. *)
Definition notifyKeyOf (tz : Z) (t : Task) : string :=
  id t +:+ "-" +:+ match dueDateTime tz t with
                   | Some (DateAt tv) => DateObj.isoString tv
                   | _ => ""
                   end.

(** The key by which the handler tells targets apart. *)
Definition targetKeyOf (c : Cand) : string :=
  id (task c) +:+ "-" +:+ match due c with
                          | DateAt tv => DateObj.isoString tv
                          | InvalidDate => ""
                          end.

(** Notifications exist on the host and the user has granted them. *)
Definition canNotify (inp : TickInput) : bool :=
  notificationDefined inp &&
  match notifPerm inp with
  | Some granted => true
  | _ => false
  end.

(** The body of the notification. *)
Definition notifyBody (t : Task) (diffMs : Z) : string :=
  title t +:+ " — " +:+ JS.toString (diffMs / 60000) +:+ "m "
  +:+ pad2 ((diffMs / 1000) mod 60) +:+ "s left".

(** The state with [key] added to the ref. *)
Definition withNotified (key : string) (s : EngineState) : EngineState :=
  {| lastColor := lastColor s; lastTaskKey := lastTaskKey s;
     alarmStarted := alarmStarted s; countdown := countdown s;
     needsAudioUnlock := needsAudioUnlock s;
     notified5min := {[ key ]} ∪ notified5min s |}.

(** The class of the banner for a positive remaining time. *)
Definition zoneColor (startD : option Date) (dueMs nowMs : Z) : string :=
  let diffMs := dueMs - nowMs in
  if diffMs <=? 60 * 1000 then COLOR.redPulse
  else if diffMs <=? 5 * 60 * 1000 then COLOR.red
  else baseColor startD dueMs nowMs.

(** The time text of the banner. *)
Definition timeText (diffMs : Z) : string :=
  JS.toString (diffMs / 3600000) +:+ "h " +:+ pad2 ((diffMs / 60000) mod 60) +:+ "m "
  +:+ pad2 ((diffMs / 1000) mod 60) +:+ "s left".

(** The decisions of [alert]: whether it fires the notification, starts or
    stops the alarm, and plays the chime. The last three are taken from the
    closed-over state [st]. *)
Definition firesNotification (tz : Z) (inp : TickInput) (c : Cand) (dueMs : Z)
    (seen : gset string) : bool :=
  (dueMs - now inp <=? 5 * 60 * 1000) && canNotify inp
  && negb (bool_decide (notifyKeyOf tz (task c) ∈ seen)).

Definition startsAlarm (inp : TickInput) (st : EngineState) (dueMs : Z) : bool :=
  (dueMs - now inp <=? 60 * 1000) && negb (alarmStarted st).

Definition stopsAlarm (inp : TickInput) (st : EngineState) (dueMs : Z) : bool :=
  negb (dueMs - now inp <=? 60 * 1000) && alarmStarted st.

Definition playsChime (inp : TickInput) (st : EngineState) (c : Cand) (dueMs : Z) : bool :=
  negb (String.eqb (lastColor st) "")
  && negb (String.eqb (zoneColor (start c) dueMs (now inp)) (lastColor st))
  && (60 * 1000 <? dueMs - now inp).

(** The run after [alert], written out. *)
Definition afterAlert (tz : Z) (inp : TickInput) (st : EngineState) (c : Cand)
    (dueMs : Z) (r : Run) : Run :=
  let diffMs := dueMs - now inp in
  let key := notifyKeyOf tz (task c) in
  let fire := firesNotification tz inp c dueMs (notified5min (queued r)) in
  let play := startsAlarm inp st dueMs in
  let stop := stopsAlarm inp st dueMs in
  let chime := playsChime inp st c dueMs in
  {| queued :=
       {| lastColor := zoneColor (start c) dueMs (now inp);
          lastTaskKey := lastTaskKey (queued r);
          alarmStarted := if play then true
                          else if stop then false else alarmStarted (queued r);
          countdown := Some {| cd_title := title (task c);
                               cd_time := timeText diffMs;
                               cd_color := zoneColor (start c) dueMs (now inp) |};
          needsAudioUnlock := if (play || chime) && playRejected inp then true
                              else needsAudioUnlock (queued r);
          notified5min := if fire then {[ key ]} ∪ notified5min (queued r)
                          else notified5min (queued r) |};
     calls := (calls r
               ++ (if fire then [Notify key "5 minutes left" (notifyBody (task c) diffMs)]
                   else [])
               ++ (if play then [AlarmPlay] else [])
               ++ (if stop then [AlarmPause] else [])
               ++ (if chime then [ChimePlay] else []))%list |}.

(** The run after the handler has compared the key of the target with the
    key it closed over. *)
Definition afterReset (st : EngineState) (c : Cand) : Run :=
  if negb (String.eqb (targetKeyOf c) (lastTaskKey st)) then
    {| queued := {| lastColor := ""; lastTaskKey := targetKeyOf c;
                    alarmStarted := false; countdown := countdown st;
                    needsAudioUnlock := needsAudioUnlock st;
                    notified5min := notified5min st |};
       calls := [AlarmPause] |}
  else {| queued := st; calls := [] |}.

(** The run after the branch taken when no time remains. *)
Definition afterDone (c : Cand) (r : Run) : Run :=
  {| queued := {| lastColor := lastColor (queued r);
                  lastTaskKey := lastTaskKey (queued r);
                  alarmStarted := false;
                  countdown := Some {| cd_title := title (task c); cd_time := "Done";
                                       cd_color := COLOR.blue |};
                  needsAudioUnlock := needsAudioUnlock (queued r);
                  notified5min := notified5min (queued r) |};
     calls := (calls r ++ [AlarmPause])%list |}.

(** The run of a tick that tracks [c], due at [dueMs]. *)
Definition afterTarget (tz : Z) (inp : TickInput) (st : EngineState) (c : Cand)
    (dueMs : Z) : Run :=
  if dueMs - now inp <=? 0 then afterDone c (afterReset st c)
  else afterAlert tz inp st c dueMs (afterReset st c).

(** The state and the calls of a tick, outcome by outcome. *)
Definition tickResult (tz : Z) (inp : TickInput) (st : EngineState)
  : EngineState * list Effect :=
  match selectTarget tz (now inp) (tasks inp) with
  | NoActiveTasks =>
      ({| lastColor := ""; lastTaskKey := ""; alarmStarted := false;
          countdown := None; needsAudioUnlock := needsAudioUnlock st;
          notified5min := notified5min st |}, [AlarmPause])
  | NoneStartedYet =>
      ({| lastColor := lastColor st; lastTaskKey := lastTaskKey st;
          alarmStarted := false;
          countdown := Some {| cd_title := "No tasks started yet"; cd_time := "";
                               cd_color := COLOR.blue |};
          needsAudioUnlock := needsAudioUnlock st;
          notified5min := notified5min st |}, [AlarmPause])
  | NoDeadlineSet =>
      ({| lastColor := lastColor st; lastTaskKey := lastTaskKey st;
          alarmStarted := alarmStarted st;
          countdown := Some {| cd_title := "Set an end date/time to enable countdown";
                               cd_time := ""; cd_color := COLOR.blue |};
          needsAudioUnlock := needsAudioUnlock st;
          notified5min := notified5min st |}, [])
  | Selected c =>
      match DateObj.getTime (due c) with
      | Some dueMs =>
          (queued (afterTarget tz inp st c dueMs), calls (afterTarget tz inp st c dueMs))
      | None => (st, [])
      end
  end.

(** The rule of the design document, section 4.3, in its own words:
    [remaining = due - now]. *)
Inductive zoneRule (startMs : option Z) (dueMs nowMs : Z) : Zone -> Prop :=
  | zoneDone :
      dueMs - nowMs <= 0 -> zoneRule startMs dueMs nowMs Done
  | zoneCritical :
      0 < dueMs - nowMs <= 60 * 1000 -> zoneRule startMs dueMs nowMs Critical
  | zoneImminent :
      60 * 1000 < dueMs - nowMs <= 300 * 1000 -> zoneRule startMs dueMs nowMs Imminent
  | zoneWarningHalfway (s : Z) :
      startMs = Some s -> 300 * 1000 < dueMs - nowMs ->
      (inject_Z s + inject_Z (dueMs - s) / 2 <= inject_Z nowMs)%Q ->
      zoneRule startMs dueMs nowMs Warning
  | zoneNormalHalfway (s : Z) :
      startMs = Some s -> 300 * 1000 < dueMs - nowMs ->
      ~ (inject_Z s + inject_Z (dueMs - s) / 2 <= inject_Z nowMs)%Q ->
      zoneRule startMs dueMs nowMs Normal
  | zoneWarningDay :
      startMs = None -> 300 * 1000 < dueMs - nowMs <= 86400 * 1000 ->
      zoneRule startMs dueMs nowMs Warning
  | zoneNormalDay :
      startMs = None -> 86400 * 1000 < dueMs - nowMs ->
      zoneRule startMs dueMs nowMs Normal.

(** The calls that are notifications. *)
Definition isNotify (e : Effect) : bool :=
  match e with
  | Notify _ _ _ => true
  | _ => false
  end.

(** The statement of the design document about [lastZone], on one tick:
    after a tick that tracks a target, the recorded class is the class of
    the banner the tick published. *)
Definition recordsPublishedZone (tz : Z) (inp : TickInput) (st : EngineState) : Prop :=
  forall c, selectTarget tz (now inp) (tasks inp) = Selected c ->
            match countdown (fst (tick tz inp st)) with
            | Some banner => lastColor (fst (tick tz inp st)) = cd_color banner
            | None => False
            end.

(** The two dates each handler compares, as it computes them from its
    form. *)
Definition createStart (tz : Z) (f : AddForm.t) : option Date :=
  toDateTime tz (Some (AddForm.startDate f)) (Some (AddForm.startTime f)) "00:00".

Definition createEnd (tz : Z) (f : AddForm.t) : option Date :=
  toDateTime tz (Some (AddForm.endDate f)) (Some (AddForm.endTime f)) "23:59".

Definition editStart (tz : Z) (f : EditForm.t) : option Date :=
  toDateTime tz (Some (EditForm.editStartDate f)) (Some (EditForm.editStartTime f)) "00:00".

Definition editEnd (tz : Z) (f : EditForm.t) : option Date :=
  toDateTime tz
    (JS.or (Some (EditForm.editEndDate f)) (Some (EditForm.editStartDate f)))
    (Some (JS.orStr (JS.or (Some (EditForm.editEndTime f))
                           (Some (EditForm.editStartTime f))) "23:59"))
    "00:00".

(** ** The instants of a submission

    The instant a date field and a time field of a form stand for: none
    when the date is blank; [fallback] is the time of day that a blank time
    field stands for. *)
Definition fieldInstant (tz : Z) (date time fallback : string) : option Date :=
  if String.eqb date "" then None
  else Some (DateObj.parse tz
               (date +:+ "T" +:+ if String.eqb time "" then fallback else time)).

(** The end date of the task a submission describes: the end-date field, or
    the start date when that field is blank. *)
Definition describedEndDate (startDate endDate : string) : string :=
  if String.eqb endDate "" then startDate else endDate.

(** The start instant of a submission: a blank start time stands for
    midnight. *)
Definition createdStart (tz : Z) (f : AddForm.t) : option Date :=
  fieldInstant tz (AddForm.startDate f) (AddForm.startTime f) "00:00".

Definition editedStart (tz : Z) (f : EditForm.t) : option Date :=
  fieldInstant tz (EditForm.editStartDate f) (EditForm.editStartTime f) "00:00".

(** The end instant of a submission. On creation a blank end time stands
    for 23:59; on an edit it stands for the start time, and for 23:59 when
    that is blank too. *)
Definition createdEnd (tz : Z) (f : AddForm.t) : option Date :=
  fieldInstant tz (describedEndDate (AddForm.startDate f) (AddForm.endDate f))
               (AddForm.endTime f) "23:59".

Definition editedEnd (tz : Z) (f : EditForm.t) : option Date :=
  fieldInstant tz (describedEndDate (EditForm.editStartDate f) (EditForm.editEndDate f))
               (EditForm.editEndTime f)
               (if String.eqb (EditForm.editStartTime f) "" then "23:59"
                else EditForm.editStartTime f).

(** The statement of the design document for creation, on one submission. *)
Definition createFailsIffEndBeforeStart (tz : Z) (newId nowIso : string)
    (f : AddForm.t) (prev : list Task) : Prop :=
  forall s e,
    createdStart tz f = Some (DateAt s) -> createdEnd tz f = Some (DateAt e) ->
    (out_alert (addTask tz newId nowIso f prev) = Some endBeforeStartMessage <-> e < s).

(** The end instant of a stored task read from its own end fields, with
    23:59 for a blank end time. *)
Definition endDateTime (tz : Z) (t : Task) : option Date :=
  toDateTime tz (endDate t) (endTime t) "23:59".

(** A task with a start date has an end date. *)
Definition hasEndDateIfStartDate (t : Task) : Prop :=
  JS.truthy (startDate t) = true -> JS.truthy (endDate t) = true.

(** The text of a date field for a year of four digits. *)
Definition ymdString (y m d : Z) : string :=
  JS.fixedDigits 4 y +:+ "-" +:+ JS.fixedDigits 2 m +:+ "-" +:+ JS.fixedDigits 2 d.

(** A tick that tracks a target of key [k] within its last minute. *)
Definition criticalOn (tz : Z) (k : string) (inp : TickInput) : Prop :=
  exists c dueMs,
    selectTarget tz (now inp) (tasks inp) = Selected c /\
    targetKeyOf c = k /\
    DateObj.getTime (due c) = Some dueMs /\
    0 < dueMs - now inp <= 60 * 1000.

(** [deleteTask(id)]: the updater passed to [setTasks]. *)
Definition deleteTask (tid : string) (prev : list Task) : list Task :=
  List.filter (fun t => negb (String.eqb (id t) tid)) prev.

(** [startEdit(t)]: the edit form it loads. *)
Definition startEdit (t : Task) : EditForm.t :=
  {| EditForm.editingId := Some (id t);
     EditForm.editInput := title t;
     EditForm.editStartDate := JS.orStr (startDate t) "";
     EditForm.editStartTime := JS.orStr (startTime t) "";
     EditForm.editEndDate := JS.orStr (endDate t) "";
     EditForm.editEndTime := JS.orStr (endTime t) "";
     EditForm.editRecurrence := match recurrence t with
                                | Some r => r
                                | None => none
                                end |}.

(** The shape of the tasks [addTask] writes: an id, a trimmed title that is
    not blank, optional fields that are absent rather than empty, an end
    date whenever there is a start date, and a recurrence. *)
Record writtenByForm (t : Task) : Prop := {
  wf_id : id t <> "";
  wf_title : JS.trim (title t) = title t /\ title t <> "";
  wf_startDate : startDate t <> Some "";
  wf_startTime : startTime t <> Some "";
  wf_endDate : endDate t <> Some "";
  wf_endTime : endTime t <> Some "";
  wf_end_if_start : startDate t <> None -> endDate t <> None;
  wf_recurrence : recurrence t <> None
}.

(** The task with its completion flag flipped, as [toggleTask] writes it. *)
Definition flipCompleted (t : Task) : Task :=
  {| id := id t; title := title t; completed := negb (completed t);
     startDate := startDate t; startTime := startTime t;
     endDate := endDate t; endTime := endTime t;
     recurrence := recurrence t; createdAt := createdAt t |}.

(** A string that does not begin with white space. *)
Definition headNotSpace (s : string) : Prop :=
  match s with
  | String c1 s1 =>
      JS.isSpace c1 = false /\
      match s1 with
      | String c2 s2 =>
          JS.isSpace2 c1 c2 = false /\
          match s2 with
          | String c3 _ => JS.isSpace3 c1 c2 c3 = false
          | EmptyString => True
          end
      | EmptyString => True
      end
  | EmptyString => True
  end.

(** A continuation byte of UTF-8. *)
Definition isCont (c : ascii) : Prop := (128 <= N_of_ascii c <= 191)%N.

(** The key of the first sort, for the three sorts by a number. *)
Definition sortKey (tz : Z) (sort : ListSort) (t : Task) : Num :=
  match sort with
  | sortEnd => getEnd tz t
  | sortStart => getStart tz t
  | sortCreated => getCreated tz t
  | sortTitle => Fin 0
  end.

(** The tasks [visibleTasks] sorts. *)
Definition shownTasks (toLowerCase : string -> string) (tasks : list Task)
    (filter : ListFilter) (query : string) : list Task :=
  List.filter (fun t => passesFilter filter t && passesSearch toLowerCase query t) tasks.

(** The month after [m] of year [y]. *)
Definition nextMonth (y m : Z) : Z * Z := if m =? 12 then (y + 1, 1) else (y, m + 1).

(** ** The instants of a task, in the words of the design document

    A task carries a start and an end, each a calendar date and a time of
    day, every one of the four optional. A field is set when it holds a
    text. *)
Definition fieldSet (o : option string) : option string :=
  match o with
  | Some s => if String.eqb s "" then None else Some s
  | None => None
  end.

(** The start instant: the start date at the start time, at midnight when
    no start time is set. [None] when the task has no start date;
    [Some None] when it has one that does not read as a date. *)
Definition startInstant (tz : Z) (t : Task) : option (option Z) :=
  match fieldSet (startDate t) with
  | Some d =>
      Some (DateObj.getTime
              (DateObj.parse tz (d +:+ "T" +:+ match fieldSet (startTime t) with
                                               | Some x => x
                                               | None => "00:00"
                                               end)))
  | None => None
  end.

(** "A task is started if it has no start instant, or the start instant is
    not after now." *)
Definition startedAt (tz nowMs : Z) (t : Task) : Prop :=
  startInstant tz t = None \/ exists s, startInstant tz t = Some (Some s) /\ s <= nowMs.

(** The due instant: "its end instant, or its start instant if no end is
    set", field by field: the end date, or else the start date, at the end
    time, or else the start time, or else the last minute of the day.
    [None] when the task has neither date, and when the date and time do
    not read as a date. *)
Definition dueInstant (tz : Z) (t : Task) : option Z :=
  match fieldSet (endDate t), fieldSet (startDate t) with
  | Some d, _ | None, Some d =>
      DateObj.getTime
        (DateObj.parse tz (d +:+ "T" +:+ match fieldSet (endTime t), fieldSet (startTime t) with
                                         | Some x, _ | None, Some x => x
                                         | None, None => "23:59"
                                         end))
  | None, None => None
  end.

(** A task that takes part in the ranking at [nowMs], with its due
    instant: active, started and due. *)
Definition ranked (tz nowMs : Z) (t : Task) (d : Z) : Prop :=
  completed t = false /\ startedAt tz nowMs t /\ dueInstant tz t = Some d.

(** ** Sample tasks and sessions *)

(** Tasks A, B and C of the design document, for now = 2024-05-01T12:00:00Z
    on a host at UTC: A is due in 10 s, B starts in 1 s, C is due in 20 s. *)
Definition exampleA : Task :=
  mkTask "a" "A" false None None (Some "2024-05-01") (Some "12:00:10") None None.
Definition exampleB : Task :=
  mkTask "b" "B" false (Some "2024-05-01") (Some "12:00:01")
         (Some "2024-05-01") (Some "12:00:05") None None.
Definition exampleC : Task :=
  mkTask "c" "C" false (Some "2024-04-30") (Some "09:00")
         (Some "2024-05-01") (Some "12:00:20") None None.

Definition zoneWitnessInput : TickInput :=
  mkInput 1714564780000 [exampleA] true (Some granted) false.

Definition notifyWitnessInput : TickInput :=
  mkInput 1714564780000 [exampleA] true (Some granted) false.

(** A session for task A, due 2024-05-01T12:00:10Z: a tick 20 s before the
    due instant, then a tick 1 s after it. *)
Definition criticalInput : TickInput :=
  mkInput 1714564790000 [exampleA] true (Some granted) false.

Definition doneInput : TickInput :=
  mkInput 1714564811000 [exampleA] true (Some granted) false.

Definition criticalState : EngineState := fst (tick 0 criticalInput initialState).

Definition warningInput : TickInput :=
  mkInput 1714564000000 [exampleA] true (Some granted) false.

(** An imported task whose end date is not a date. *)
Definition importedTask : Task :=
  mkTask "b" "B" false None None (Some "soon") None None None.

Definition completedA : Task :=
  mkTask "a" "A" true None None (Some "2024-05-01") (Some "12:00:10") None None.

Definition noDeadlineInput : TickInput :=
  mkInput 1714564791000 [completedA; importedTask] true (Some granted) false.

(** Task A completed while task D, due at the same instant, takes over;
    notifications are not granted. *)
Definition handoverInput : TickInput :=
  mkInput 1714564791000
          [completedA;
           mkTask "d" "D" false None None (Some "2024-05-01") (Some "12:00:10") None None]
          true None false.

Definition undatedTask : Task := mkTask "n" "N" false None None None None None None.

Definition undatedInput : TickInput :=
  mkInput 1714564800000 [undatedTask] true (Some granted) false.

Definition blankTitleForm : AddForm.t :=
  AddForm.mk "  " "2024-05-02" "" "2024-05-01" "" none.

Definition lateStartForm : AddForm.t :=
  AddForm.mk "Report" "2024-05-02" "09:00" "2024-05-01" "17:00" none.

Definition earlyEndForm : AddForm.t :=
  AddForm.mk "Call" "2024-01-01" "10:00" "" "09:00" none.

Definition earlyEndTask : Task :=
  mkTask "id" "Call" false (Some "2024-01-01") (Some "10:00")
         (Some "2024-01-01") (Some "09:00") (Some none)
         (Some "2023-12-31T00:00:00.000Z").

Definition startOnlyForm : AddForm.t :=
  AddForm.mk "Walk" "2024-01-01" "" "" "" none.

(** Two more ticks in the last minute of task A. *)
Definition criticalInput2 : TickInput :=
  mkInput 1714564791000 [exampleA] true (Some granted) false.

Definition criticalInput3 : TickInput :=
  mkInput 1714564792000 [exampleA] true (Some granted) false.

(** A daily task as [addTask] writes it. *)
Definition dailyTask : Task :=
  mkTask "r" "Run" false (Some "2024-01-31") (Some "07:00") (Some "2024-01-31") None
         (Some daily) (Some "2024-01-30T00:00:00.000Z").

(** Task A completed while task E, due at 13:00, takes over. *)
Definition laterTask : Task :=
  mkTask "e" "E" false None None (Some "2024-05-01") (Some "13:00") None None.

Definition switchInput : TickInput :=
  mkInput 1714564791000 [completedA; laterTask] true (Some granted) false.

(** A task whose id holds a hyphen. *)
Definition hyphenTask : Task :=
  mkTask "a-b" "AB" false None None (Some "2024-05-01") (Some "12:00:10") None None.

(** * Properties *)

(** ** The stable sort and the head of its result *)

Section Sorting.
Context {A : Type} (cmp : A -> A -> Z).

Lemma In_insertBy (x y : A) (l : list A) :
  In y (insertBy cmp x l) <-> y = x \/ In y l.
Proof.
  induction l as [|z l IH]; simpl.
  - intuition.
  - destruct (cmp x z <=? 0); simpl; [intuition|].
    rewrite IH. intuition.
Qed.

Lemma In_sortBy (y : A) (l : list A) : In y (sortBy cmp l) <-> In y l.
Proof.
  induction l as [|x l IH]; simpl; [tauto|].
  rewrite In_insertBy, IH. intuition.
Qed.

Lemma hd_insertBy (x : A) (l : list A) :
  hd_error (insertBy cmp x l) =
  match hd_error l with
  | None => Some x
  | Some y => if cmp x y <=? 0 then Some x else Some y
  end.
Proof.
  destruct l as [|z l]; simpl; [reflexivity|].
  destruct (cmp x z <=? 0); reflexivity.
Qed.

Lemma hd_sortBy (l : list A) : hd_error (sortBy cmp l) = firstMin cmp l.
Proof.
  induction l as [|x l IH]; simpl; [reflexivity|].
  rewrite hd_insertBy, IH. reflexivity.
Qed.

Lemma firstMin_None (l : list A) : firstMin cmp l = None -> l = [].
Proof.
  destruct l as [|x l]; simpl; [reflexivity|].
  destruct (firstMin cmp l); [destruct (cmp x a <=? 0)|]; discriminate.
Qed.

Lemma sortBy_nil (l : list A) : sortBy cmp l = [] -> l = [].
Proof.
  intros H. apply firstMin_None. rewrite <- hd_sortBy, H. reflexivity.
Qed.

End Sorting.

(** ** Selection *)

Lemma candidates_cons (tz nowMs : Z) (t : Task) (ts : list Task) :
  candidatesOf tz (startedTasks tz nowMs (activeTasks (t :: ts))) =
  if eligible tz nowMs t
  then toCand tz t :: candidatesOf tz (startedTasks tz nowMs (activeTasks ts))
  else candidatesOf tz (startedTasks tz nowMs (activeTasks ts)).
Proof.
  unfold candidatesOf, startedTasks, activeTasks, eligible. simpl.
  destruct (completed t); simpl; [reflexivity|].
  destruct (isStarted tz nowMs t); simpl; [|reflexivity].
  destruct (dueIsNumber (toCand tz t)); reflexivity.
Qed.

Lemma candidates_In (tz nowMs : Z) (ts : list Task) (c : Cand) :
  In c (candidatesOf tz (startedTasks tz nowMs (activeTasks ts))) <->
  exists t, In t ts /\ eligible tz nowMs t = true /\ c = toCand tz t.
Proof.
  induction ts as [|x ts IH].
  - simpl. split; [tauto|]. intros (t & [] & _).
  - rewrite candidates_cons. destruct (eligible tz nowMs x) eqn:E.
    + simpl. rewrite IH. split.
      * intros [<-|(t & Hin & He & ->)]; eauto 6.
      * intros (t & [<-|Hin] & He & ->); eauto 6.
    + rewrite IH. split.
      * intros (t & Hin & He & ->). exists t. simpl. auto.
      * intros (t & [<-|Hin] & He & ->); [congruence|eauto].
Qed.

Lemma compareDue_eligible (tz nowMs : Z) (a b : Task) :
  eligible tz nowMs a = true -> eligible tz nowMs b = true ->
  compareDue (toCand tz a) (toCand tz b) = dueMsOf tz a - dueMsOf tz b.
Proof.
  unfold eligible, dueIsNumber, compareDue, dueMsOf.
  intros Ha Hb.
  destruct (DateObj.getTime (due (toCand tz a))); [|rewrite andb_false_r in Ha; discriminate].
  destruct (DateObj.getTime (due (toCand tz b))); [|rewrite andb_false_r in Hb; discriminate].
  reflexivity.
Qed.

(** The head of the sorted candidates is the candidate of the first
    eligible task of least due time. *)
Lemma firstMin_candidates (tz nowMs : Z) (ts : list Task) (c : Cand) :
  firstMin compareDue (candidatesOf tz (startedTasks tz nowMs (activeTasks ts))) = Some c ->
  exists l1 t l2,
    ts = (l1 ++ t :: l2)%list /\ c = toCand tz t /\ eligible tz nowMs t = true /\
    (forall t', In t' l1 -> eligible tz nowMs t' = true -> dueMsOf tz t < dueMsOf tz t') /\
    (forall t', In t' l2 -> eligible tz nowMs t' = true -> dueMsOf tz t <= dueMsOf tz t').
Proof.
  revert c. induction ts as [|x ts IH]; intros c.
  - simpl. discriminate.
  - rewrite candidates_cons. destruct (eligible tz nowMs x) eqn:Ex.
    + simpl.
      destruct (firstMin compareDue (candidatesOf tz (startedTasks tz nowMs (activeTasks ts))))
        as [y|] eqn:Hy.
      * destruct (IH y eq_refl) as (l1 & t & l2 & -> & -> & Et & Hl1 & Hl2).
        rewrite (compareDue_eligible tz nowMs x t Ex Et).
        destruct (dueMsOf tz x - dueMsOf tz t <=? 0) eqn:Hc; intros [= <-].
        -- apply Z.leb_le in Hc.
           exists [], x, (l1 ++ t :: l2)%list. repeat split; auto.
           ++ intros t' [].
           ++ intros t' Hin Et'. apply in_app_or in Hin.
              destruct Hin as [Hin|[<-|Hin]].
              ** specialize (Hl1 t' Hin Et'). lia.
              ** lia.
              ** specialize (Hl2 t' Hin Et'). lia.
        -- apply Z.leb_gt in Hc.
           exists (x :: l1), t, l2. repeat split; auto.
           intros t' [<-|Hin] Et'; [lia|auto].
      * intros [= <-]. apply firstMin_None in Hy.
        exists [], x, ts. repeat split; auto.
        -- intros t' [].
        -- intros t' Hin Et'.
           assert (Hc : In (toCand tz t')
                          (candidatesOf tz (startedTasks tz nowMs (activeTasks ts))))
             by (apply candidates_In; eauto).
           rewrite Hy in Hc. destruct Hc.
    + intros Hc. destruct (IH c Hc) as (l1 & t & l2 & -> & -> & Et & Hl1 & Hl2).
      exists (x :: l1), t, l2. repeat split; auto.
      intros t' [<-|Hin] Et'; [congruence|auto].
Qed.

Lemma isEmpty_true {A} (l : list A) : isEmpty l = true <-> l = [].
Proof. destruct l; simpl; split; congruence. Qed.

(** What [selectTarget] returns, read off the list of candidates. *)
Lemma selectTarget_firstMin (tz nowMs : Z) (ts : list Task) :
  match selectTarget tz nowMs ts with
  | Selected c =>
      firstMin compareDue (candidatesOf tz (startedTasks tz nowMs (activeTasks ts))) = Some c
  | _ => candidatesOf tz (startedTasks tz nowMs (activeTasks ts)) = []
  end.
Proof.
  unfold selectTarget.
  destruct (activeTasks ts) as [|a l] eqn:Ha; cbn [isEmpty]; [reflexivity|].
  destruct (startedTasks tz nowMs (a :: l)) as [|b l'] eqn:Hb; cbn [isEmpty]; [reflexivity|].
  destruct (candidatesOf tz (b :: l')) as [|c l''] eqn:Hc; cbn [isEmpty]; [reflexivity|].
  rewrite <- hd_sortBy.
  destruct (sortBy compareDue (c :: l'')) eqn:Hs; [|reflexivity].
  apply sortBy_nil in Hs. discriminate.
Qed.

Lemma isStarted_iff (tz nowMs : Z) (t : Task) :
  isStarted tz nowMs t = true <->
  startDateTime tz t = None \/
  exists s, startDateTime tz t = Some (DateAt s) /\ s <= nowMs.
Proof.
  unfold isStarted.
  destruct (startDateTime tz t) as [[|s]|]; simpl.
  - split; [discriminate|]. intros [H|(s & H & _)]; discriminate.
  - rewrite Z.leb_le. split.
    + intros H. right. exists s. auto.
    + intros [H|(s' & [= <-] & H)]; [discriminate|assumption].
  - split; auto.
Qed.

Lemma selectTarget_three (tz T : Z) (A B C : Task) :
  completed A = false -> completed B = false -> completed C = false ->
  isStarted tz T A = true -> isStarted tz T B = false -> isStarted tz T C = true ->
  dueDateTime tz A = Some (DateAt (T + 10000)) ->
  dueDateTime tz C = Some (DateAt (T + 20000)) ->
  selectTarget tz T [A; B; C] = Selected (toCand tz A).
Proof.
  intros HA HB HC SA SB SC DA DC.
  unfold selectTarget, candidatesOf, startedTasks, activeTasks.
  cbn [List.filter List.map]. rewrite HA, HB, HC. cbn [negb List.filter isEmpty].
  rewrite SA, SB, SC. cbn [List.map List.filter isEmpty].
  assert (NA : dueIsNumber (toCand tz A) = true)
    by (unfold dueIsNumber, toCand; cbn [due]; rewrite DA; reflexivity).
  assert (NC : dueIsNumber (toCand tz C) = true)
    by (unfold dueIsNumber, toCand; cbn [due]; rewrite DC; reflexivity).
  rewrite NA, NC. cbn [isEmpty sortBy List.fold_right insertBy].
  replace (compareDue (toCand tz A) (toCand tz C)) with (-10000).
  - reflexivity.
  - unfold compareDue, toCand; cbn [due]. rewrite DA, DC. cbn [DateObj.getTime]. lia.
Qed.

Lemma selectTarget_first_least :
  forall tz nowMs ts,
    match selectTarget tz nowMs ts with
    | Selected c =>
        exists l1 t l2,
          ts = (l1 ++ t :: l2)%list /\ c = toCand tz t /\
          completed t = false /\ isStarted tz nowMs t = true /\
          DateObj.getTime (due c) = Some (dueMsOf tz t) /\
          (forall t', In t' l1 -> eligible tz nowMs t' = true ->
                      dueMsOf tz t < dueMsOf tz t') /\
          (forall t', In t' l2 -> eligible tz nowMs t' = true ->
                      dueMsOf tz t <= dueMsOf tz t')
    | _ => forall t, In t ts -> eligible tz nowMs t = false
    end.
Proof.
  intros tz nowMs ts.
  pose proof (selectTarget_firstMin tz nowMs ts) as H.
  assert (Hnone : candidatesOf tz (startedTasks tz nowMs (activeTasks ts)) = [] ->
                  forall t, In t ts -> eligible tz nowMs t = false).
  { intros Hnil t Hin. destruct (eligible tz nowMs t) eqn:E; [|reflexivity].
    assert (Hc : In (toCand tz t) (candidatesOf tz (startedTasks tz nowMs (activeTasks ts))))
      by (apply candidates_In; eauto).
    rewrite Hnil in Hc. destruct Hc. }
  destruct (selectTarget tz nowMs ts) as [| | |c]; auto.
  destruct (firstMin_candidates tz nowMs ts c H) as (l1 & t & l2 & E1 & E2 & Et & Hl1 & Hl2).
  exists l1, t, l2. subst c.
  unfold eligible in Et. apply andb_prop in Et. destruct Et as [Et Hd].
  apply andb_prop in Et. destruct Et as [Hc Hs].
  repeat split; auto.
  - destruct (completed t); [discriminate|reflexivity].
  - unfold dueMsOf. unfold dueIsNumber in Hd.
    destruct (DateObj.getTime (due (toCand tz t))); [reflexivity|discriminate].
Qed.

Lemma fieldSet_not_empty (o : option string) (s : string) :
  fieldSet o = Some s -> String.eqb s "" = false /\ o = Some s.
Proof.
  unfold fieldSet. destruct o as [x|]; [|discriminate].
  destruct (String.eqb x "") eqn:E; [discriminate|]. intros [= <-]. auto.
Qed.

Lemma fieldSet_none (o : option string) :
  fieldSet o = None -> JS.truthy o = false /\ forall b, JS.orStr o b = b.
Proof.
  unfold fieldSet, JS.truthy, JS.orStr. destruct o as [x|]; [|auto].
  destruct (String.eqb x ""); [auto|discriminate].
Qed.

(** The handler's start date is the start instant of the design
    document. *)
Lemma startDateTime_startInstant (tz : Z) (t : Task) :
  startInstant tz t = option_map DateObj.getTime (startDateTime tz t).
Proof.
  unfold startInstant, startDateTime, toDateTime.
  destruct (fieldSet (startDate t)) as [d|] eqn:Ed.
  - apply fieldSet_not_empty in Ed. destruct Ed as [Ene ->]. rewrite Ene.
    cbn [option_map]. do 4 f_equal.
    destruct (fieldSet (startTime t)) as [x|] eqn:Ex.
    + apply fieldSet_not_empty in Ex. destruct Ex as [Exe ->].
      unfold JS.orStr. rewrite Exe. reflexivity.
    + apply fieldSet_none in Ex. destruct Ex as [_ Ex]. rewrite Ex. reflexivity.
  - unfold fieldSet in Ed. destruct (startDate t) as [d|]; [|reflexivity].
    destruct (String.eqb d ""); [reflexivity|discriminate].
Qed.

Lemma isStarted_startedAt (tz nowMs : Z) (t : Task) :
  isStarted tz nowMs t = true <-> startedAt tz nowMs t.
Proof.
  rewrite isStarted_iff. unfold startedAt. rewrite startDateTime_startInstant.
  destruct (startDateTime tz t) as [[|s]|]; cbn [option_map DateObj.getTime].
  - split; intros [H|(s & H & _)]; discriminate.
  - split.
    + intros [H|(s' & [= <-] & H)]; [discriminate|]. right. exists s. auto.
    + intros [H|(s' & [= <-] & H)]; [discriminate|]. right. exists s. auto.
  - split; intros _; left; reflexivity.
Qed.

(** The handler's due date is the due instant of the design document. *)
Lemma dueDateTime_dueInstant (tz : Z) (t : Task) :
  dueInstant tz t = match dueDateTime tz t with
                    | Some d => DateObj.getTime d
                    | None => None
                    end.
Proof.
  unfold dueInstant, dueDateTime, toDateTime.
  assert (Htime : JS.orStr (Some (JS.orStr (JS.or (endTime t) (startTime t)) "23:59")) "00:00"
                  = match fieldSet (endTime t), fieldSet (startTime t) with
                    | Some x, _ | None, Some x => x
                    | None, None => "23:59"
                    end).
  { unfold JS.or.
    destruct (fieldSet (endTime t)) as [x|] eqn:Ex.
    - apply fieldSet_not_empty in Ex. destruct Ex as [Exe ->].
      unfold JS.truthy. rewrite Exe. cbn [negb]. unfold JS.orStr. rewrite Exe, Exe. reflexivity.
    - apply fieldSet_none in Ex. destruct Ex as [-> _].
      destruct (fieldSet (startTime t)) as [y|] eqn:Ey.
      + apply fieldSet_not_empty in Ey. destruct Ey as [Eye ->].
        unfold JS.orStr. rewrite Eye, Eye. reflexivity.
      + apply fieldSet_none in Ey. destruct Ey as [_ Ey]. rewrite Ey. reflexivity. }
  rewrite Htime. unfold JS.or.
  destruct (fieldSet (endDate t)) as [d|] eqn:Ed.
  - apply fieldSet_not_empty in Ed. destruct Ed as [Ede ->].
    unfold JS.truthy. rewrite Ede. cbn [negb]. rewrite Ede. reflexivity.
  - apply fieldSet_none in Ed. destruct Ed as [-> _].
    destruct (fieldSet (startDate t)) as [d|] eqn:Es.
    + apply fieldSet_not_empty in Es. destruct Es as [Ese ->]. rewrite Ese. reflexivity.
    + unfold fieldSet in Es. destruct (startDate t) as [d|]; [|reflexivity].
      destruct (String.eqb d ""); [reflexivity|discriminate].
Qed.

Lemma ranked_eligible (tz nowMs : Z) (t : Task) (d : Z) :
  ranked tz nowMs t d ->
  eligible tz nowMs t = true /\ dueMsOf tz t = d /\ due (toCand tz t) = DateAt d.
Proof.
  intros (Hc & Hs & Hd). apply isStarted_startedAt in Hs.
  rewrite dueDateTime_dueInstant in Hd.
  unfold eligible, dueMsOf, dueIsNumber, toCand. cbn [due]. rewrite Hc, Hs.
  destruct (dueDateTime tz t) as [[|x]|]; try discriminate.
  cbn in Hd. injection Hd as ->. cbn. auto.
Qed.

Lemma eligible_ranked (tz nowMs : Z) (t : Task) :
  eligible tz nowMs t = true ->
  (exists d, ranked tz nowMs t d) \/ dueMsOf tz t = DateObj.maxTime.
Proof.
  unfold eligible. intros H.
  apply andb_true_iff in H. destruct H as [H Hd].
  apply andb_true_iff in H. destruct H as [Hc Hs].
  apply negb_true_iff in Hc. apply isStarted_startedAt in Hs.
  unfold ranked. rewrite dueDateTime_dueInstant.
  unfold dueIsNumber, dueMsOf, toCand in *. cbn [due] in *.
  destruct (dueDateTime tz t) as [[|x]|].
  - discriminate.
  - left. exists x. auto.
  - right. reflexivity.
Qed.

Lemma app_cons_positions {A} (l1 l2 l1' l2' : list A) (a b : A) :
  (l1 ++ a :: l2 = l1' ++ b :: l2')%list ->
  (l1 = l1' /\ a = b /\ l2 = l2') \/ (In b l1 /\ In a l2') \/ (In a l1' /\ In b l2).
Proof.
  revert l1'. induction l1 as [|x l1 IH]; intros [|y l1'] H; cbn [app] in H.
  - injection H as Ha Hl. auto.
  - injection H as Ha Hl. right. right. split; [left; symmetry; exact Ha|].
    rewrite Hl. apply List.in_or_app. right. left. reflexivity.
  - injection H as Ha Hl. right. left. split; [left; exact Ha|].
    rewrite <- Hl. apply List.in_or_app. right. left. reflexivity.
  - injection H as Hx H. destruct (IH _ H) as [(E1 & E2 & E3)|[[H1 H2]|[H1 H2]]].
    + left. subst. auto.
    + right. left. split; [right; exact H1|exact H2].
    + right. right. split; [right; exact H1|exact H2].
Qed.



(** ** The callback, outcome by outcome *)

Lemma tickHandler_select (tz : Z) (inp : TickInput) (st : EngineState) :
  tickHandler tz inp st =
  match selectTarget tz (now inp) (tasks inp) with
  | NoActiveTasks =>
      pauseAlarm ;; setAlarmStarted false ;; setCountdown None ;;
      setLastColor "" ;; setLastTaskKey ""
  | NoneStartedYet =>
      pauseAlarm ;; setAlarmStarted false ;;
      setCountdown (Some {| cd_title := "No tasks started yet"; cd_time := "";
                            cd_color := COLOR.blue |})
  | NoDeadlineSet =>
      setCountdown (Some {| cd_title := "Set an end date/time to enable countdown";
                            cd_time := ""; cd_color := COLOR.blue |})
  | Selected c => trackTarget tz inp st c
  end.
Proof.
  unfold tickHandler, selectTarget.
  destruct (activeTasks (tasks inp)) as [|a l]; cbn [isEmpty]; [reflexivity|].
  destruct (startedTasks tz (now inp) (a :: l)) as [|b l']; cbn [isEmpty]; [reflexivity|].
  destruct (candidatesOf tz (b :: l')) as [|c l''] eqn:Hc; cbn [isEmpty]; [reflexivity|].
  destruct (sortBy compareDue (c :: l'')) eqn:Hs; [|reflexivity].
  apply sortBy_nil in Hs. discriminate.
Qed.

(** A tracked candidate comes from an eligible task of the list. *)
Lemma selected_from_task (tz nowMs : Z) (ts : list Task) (c : Cand) :
  selectTarget tz nowMs ts = Selected c ->
  exists t, In t ts /\ c = toCand tz t /\ eligible tz nowMs t = true.
Proof.
  intros H. pose proof (selectTarget_firstMin tz nowMs ts) as F. rewrite H in F.
  destruct (firstMin_candidates tz nowMs ts c F) as (l1 & t & l2 & -> & -> & Et & _).
  exists t. split; [apply in_elt|auto].
Qed.

(** The shape of the candidate of an eligible task. *)
Lemma eligible_shape (tz nowMs : Z) (t : Task) :
  eligible tz nowMs t = true ->
  completed t = false /\
  due (toCand tz t) = DateAt (dueMsOf tz t) /\
  (dueDateTime tz t = None \/ dueDateTime tz t = Some (DateAt (dueMsOf tz t))) /\
  (start (toCand tz t) = None \/
   exists s, start (toCand tz t) = Some (DateAt s) /\ s <= nowMs).
Proof.
  unfold eligible. intros E.
  apply andb_prop in E. destruct E as [E Hd].
  apply andb_prop in E. destruct E as [Hc Hs].
  split; [destruct (completed t); [discriminate|reflexivity]|].
  apply isStarted_iff in Hs.
  unfold dueIsNumber, dueMsOf, toCand in *. cbn [due start] in *.
  destruct (dueDateTime tz t) as [[|tv]|]; cbn in *; try discriminate; auto.
Qed.

Lemma show5minNotification_eq (tz : Z) (inp : TickInput) (t : Task) (diffMs : Z) (r : Run) :
  dueDateTime tz t <> Some InvalidDate ->
  show5minNotification tz inp t diffMs r =
  (Some tt,
   if canNotify inp && negb (bool_decide (notifyKeyOf tz t ∈ notified5min (queued r)))
   then {| queued := withNotified (notifyKeyOf tz t) (queued r);
           calls := (calls r ++ [Notify (notifyKeyOf tz t) "5 minutes left"
                                        (notifyBody t diffMs)])%list |}
   else r).
Proof.
  intros Hd. unfold show5minNotification, canNotify, notifyKeyOf.
  destruct (notificationDefined inp); cbn [negb andb]; [|reflexivity].
  destruct (notifPerm inp) as [[| |]|]; cbn [andb]; try reflexivity.
  destruct (dueDateTime tz t) as [[|tv]|]; [congruence| |];
    cbn [orThrow DateObj.toISOString]; unfold bind, ret, hasNotified;
    match goal with |- context [bool_decide ?P] => destruct (bool_decide P) end;
    reflexivity.
Qed.

Lemma alert_eq (tz : Z) (inp : TickInput) (st : EngineState) (c : Cand) (dueMs : Z)
    (r : Run) :
  dueDateTime tz (task c) <> Some InvalidDate ->
  alert tz inp st c dueMs r = (Some tt, afterAlert tz inp st c dueMs r).
Proof.
  intros Hd.
  unfold alert, afterAlert, firesNotification, startsAlarm, stopsAlarm, playsChime,
    zoneColor, timeText.
  cbv beta iota delta [bind when playAlarm playChime pauseAlarm setAlarmStarted
    setLastColor setCountdown setNeedsAudioUnlock emit modify ret].
  destruct (dueMs - now inp <=? 5 * 60 * 1000) eqn:H5; cbn [andb].
  - rewrite (show5minNotification_eq tz inp (task c) (dueMs - now inp) r Hd).
    replace (60 * 1000 <? dueMs - now inp) with (negb (dueMs - now inp <=? 60 * 1000))
      by (rewrite Z.leb_antisym, negb_involutive; reflexivity).
    destruct (canNotify inp && negb (bool_decide (notifyKeyOf tz (task c) ∈ notified5min (queued r))));
      destruct (dueMs - now inp <=? 60 * 1000) eqn:H1;
      destruct (alarmStarted st); destruct (playRejected inp);
      cbn [negb andb orb queued calls]; rewrite ?andb_false_r, ?andb_true_r;
      try (destruct (negb (String.eqb (lastColor st) "")
                     && negb (String.eqb COLOR.red (lastColor st))));
      unfold withNotified;
      cbn [negb andb orb queued calls lastColor lastTaskKey alarmStarted
           countdown needsAudioUnlock notified5min];
      rewrite <- ?app_assoc, ?app_nil_r; reflexivity.
  - assert (H1 : (dueMs - now inp <=? 60 * 1000) = false)
      by (apply Z.leb_gt; apply Z.leb_gt in H5; lia).
    assert (H1' : (60 * 1000 <? dueMs - now inp) = true)
      by (apply Z.ltb_lt; apply Z.leb_gt in H1; lia).
    rewrite H1, H1'.
    destruct (alarmStarted st); destruct (playRejected inp);
      cbn [negb andb orb queued calls]; rewrite ?andb_true_r;
      destruct (negb (String.eqb (lastColor st) "")
                && negb (String.eqb (baseColor (start c) dueMs (now inp)) (lastColor st)));
      unfold withNotified;
      cbn [negb andb orb queued calls lastColor lastTaskKey alarmStarted
           countdown needsAudioUnlock notified5min];
      rewrite <- ?app_assoc, ?app_nil_r; reflexivity.
Qed.

Lemma trackTarget_eq (tz : Z) (inp : TickInput) (st : EngineState) (c : Cand) (dueMs : Z) :
  due c = DateAt dueMs ->
  dueDateTime tz (task c) <> Some InvalidDate ->
  trackTarget tz inp st c {| queued := st; calls := [] |}
  = (Some tt, afterTarget tz inp st c dueMs).
Proof.
  intros Hdue Hd. unfold trackTarget, afterTarget. rewrite Hdue.
  cbn [DateObj.toISOString DateObj.getTime orThrow].
  assert (Hr : (when (negb (String.eqb (id (task c) +:+ "-" +:+ DateObj.isoString dueMs)
                                        (lastTaskKey st)))
                     (pauseAlarm ;; setAlarmStarted false ;; setLastColor "" ;;
                      setLastTaskKey (id (task c) +:+ "-" +:+ DateObj.isoString dueMs)))
                 {| queued := st; calls := [] |}
               = (Some tt, afterReset st c)).
  { unfold afterReset, targetKeyOf. rewrite Hdue.
    destruct (negb (String.eqb (id (task c) +:+ "-" +:+ DateObj.isoString dueMs)
                               (lastTaskKey st))); reflexivity. }
  unfold bind at 1. unfold ret at 1. unfold bind at 1. rewrite Hr.
  unfold bind at 1. unfold ret at 1.
  destruct (dueMs - now inp <=? 0).
  - reflexivity.
  - apply alert_eq. exact Hd.
Qed.

Lemma selected_shape (tz : Z) (inp : TickInput) (c : Cand) :
  selectTarget tz (now inp) (tasks inp) = Selected c ->
  exists dueMs,
    due c = DateAt dueMs /\
    dueDateTime tz (task c) <> Some InvalidDate /\
    (dueDateTime tz (task c) = None \/ dueDateTime tz (task c) = Some (DateAt dueMs)) /\
    completed (task c) = false /\
    (start c = None \/ exists s, start c = Some (DateAt s) /\ s <= now inp).
Proof.
  intros H. destruct (selected_from_task _ _ _ _ H) as (t & _ & -> & Et).
  destruct (eligible_shape _ _ _ Et) as (Hc & Hdue & Hd & Hs).
  exists (dueMsOf tz t). cbn [task toCand]. repeat split; auto.
  destruct Hd as [-> | ->]; discriminate.
Qed.

Lemma tick_eq (tz : Z) (inp : TickInput) (st : EngineState) :
  tick tz inp st = tickResult tz inp st /\ tickThrows tz inp st = false.
Proof.
  unfold tick, tickThrows, tickResult. rewrite tickHandler_select.
  destruct (selectTarget tz (now inp) (tasks inp)) as [| | |c] eqn:Hsel;
    try (split; reflexivity).
  destruct (selected_shape tz inp c Hsel) as (dueMs & Hdue & Hd & _).
  rewrite (trackTarget_eq tz inp st c dueMs Hdue Hd), Hdue.
  split; reflexivity.
Qed.

(** ** The zone of a tick *)

Lemma zoneRule_functional (startMs : option Z) (dueMs nowMs : Z) (z z' : Zone) :
  zoneRule startMs dueMs nowMs z -> zoneRule startMs dueMs nowMs z' -> z = z'.
Proof.
  intros H H'. destruct H; destruct H'; try reflexivity; try lia; try congruence.
  - assert (s = s0) by congruence. subst. contradiction.
  - assert (s = s0) by congruence. subst. contradiction.
Qed.

Lemma length_append (a b : string) :
  String.length (a +:+ b) = (String.length a + String.length b)%nat.
Proof. induction a as [|ch a IH]; simpl; [reflexivity|]. rewrite IH. reflexivity. Qed.

Lemma eqb_length_neq (a b : string) :
  String.length a <> String.length b -> String.eqb a b = false.
Proof.
  intros H. destruct (String.eqb a b) eqn:E; [|reflexivity].
  apply String.eqb_eq in E. subst. contradiction.
Qed.

Lemma timeText_not_Done (d : Z) : String.eqb (timeText d) "Done" = false.
Proof.
  apply eqb_length_neq. unfold timeText. rewrite !length_append. simpl. lia.
Qed.

Lemma timeText_not_empty (d : Z) : String.eqb (timeText d) "" = false.
Proof.
  apply eqb_length_neq. unfold timeText. rewrite !length_append. simpl. lia.
Qed.

Lemma halfReached_iff (s dueMs nowMs : Z) :
  halfReached (DateAt s) dueMs nowMs = true <->
  (inject_Z s + inject_Z (dueMs - s) / 2 <= inject_Z nowMs)%Q.
Proof. unfold halfReached. cbn [DateObj.getTime]. apply Qle_bool_iff. Qed.

(** The zone that [zoneColor] stands for follows the rule. *)
Lemma zoneColor_rule (startD : option Date) (startMs : option Z) (dueMs nowMs : Z) :
  (startD = None /\ startMs = None \/
   exists s, startD = Some (DateAt s) /\ startMs = Some s) ->
  0 < dueMs - nowMs ->
  exists z, zoneOfColor (zoneColor startD dueMs nowMs) = Some z /\
            zoneRule startMs dueMs nowMs z.
Proof.
  intros Hs Hpos. unfold zoneColor, baseColor.
  destruct (dueMs - nowMs <=? 60 * 1000) eqn:H1.
  { apply Z.leb_le in H1. exists Critical. split; [reflexivity|].
    apply zoneCritical. lia. }
  apply Z.leb_gt in H1.
  destruct (dueMs - nowMs <=? 5 * 60 * 1000) eqn:H5.
  { apply Z.leb_le in H5. exists Imminent. split; [reflexivity|].
    apply zoneImminent. lia. }
  apply Z.leb_gt in H5.
  assert (H5' : (5 * 60 * 1000 <? dueMs - nowMs) = true) by (apply Z.ltb_lt; lia).
  destruct Hs as [[-> ->] | (s & -> & ->)]; rewrite H5'.
  - destruct (dueMs - nowMs <=? 24 * 60 * 60 * 1000) eqn:H24; cbn [andb].
    + apply Z.leb_le in H24. exists Warning. split; [reflexivity|].
      apply zoneWarningDay; [reflexivity|lia].
    + apply Z.leb_gt in H24. exists Normal. split; [reflexivity|].
      apply zoneNormalDay; [reflexivity|lia].
  - destruct (halfReached (DateAt s) dueMs nowMs) eqn:Hh.
    + exists Warning. split; [reflexivity|].
      apply (zoneWarningHalfway _ _ _ s); [reflexivity|lia|].
      apply halfReached_iff. exact Hh.
    + exists Normal. split; [reflexivity|].
      apply (zoneNormalHalfway _ _ _ s); [reflexivity|lia|].
      intros Hq. apply halfReached_iff in Hq. congruence.
Qed.

(** The boundaries are inclusive: exactly 60 s is Critical, exactly 300 s
    Imminent, and, without a start, exactly 86400 s is Warning. *)
Lemma zone_boundaries (nowMs : Z) :
  zoneOfColor (zoneColor None (nowMs + 60000) nowMs) = Some Critical /\
  zoneOfColor (zoneColor None (nowMs + 60001) nowMs) = Some Imminent /\
  zoneOfColor (zoneColor None (nowMs + 300000) nowMs) = Some Imminent /\
  zoneOfColor (zoneColor None (nowMs + 300001) nowMs) = Some Warning /\
  zoneOfColor (zoneColor None (nowMs + 86400000) nowMs) = Some Warning /\
  zoneOfColor (zoneColor None (nowMs + 86400001) nowMs) = Some Normal.
Proof.
  unfold zoneColor, baseColor. cbv zeta.
  replace (nowMs + 60000 - nowMs) with 60000 by lia.
  replace (nowMs + 60001 - nowMs) with 60001 by lia.
  replace (nowMs + 300000 - nowMs) with 300000 by lia.
  replace (nowMs + 300001 - nowMs) with 300001 by lia.
  replace (nowMs + 86400000 - nowMs) with 86400000 by lia.
  replace (nowMs + 86400001 - nowMs) with 86400001 by lia.
  repeat split; reflexivity.
Qed.

(** C1. On every tick that tracks a target with due instant [due] and start
    instant [start] (possibly absent), the banner published stands for the
    zone that the rule assigns to [remaining = due - now]: Done up to 0,
    Critical up to 60 s, Imminent up to 300 s, then Warning from the halfway
    instant on when the start is known, Warning up to 86400 s when it is
    not, and Normal otherwise; the rule assigns no other zone. *)
Theorem zone_classifier_rule (tz : Z) (inp : TickInput) (st : EngineState) (c : Cand) :
  selectTarget tz (now inp) (tasks inp) = Selected c ->
  exists dueMs z,
    DateObj.getTime (due c) = Some dueMs /\
    (start c = None <-> startMsOf c = None) /\
    match countdown (fst (tick tz inp st)) with
    | Some banner => zoneOfCountdown banner = Some z
    | None => False
    end /\
    zoneRule (startMsOf c) dueMs (now inp) z /\
    (forall z', zoneRule (startMsOf c) dueMs (now inp) z' -> z' = z).
Proof.
  intros Hsel.
  destruct (selected_shape tz inp c Hsel) as (dueMs & Hdue & _ & _ & _ & Hs).
  destruct (tick_eq tz inp st) as [-> _]. unfold tickResult. rewrite Hsel, Hdue.
  cbn [DateObj.getTime fst]. unfold afterTarget.
  assert (Hstart : start c = None /\ startMsOf c = None \/
                   exists s, start c = Some (DateAt s) /\ startMsOf c = Some s).
  { unfold startMsOf. destruct Hs as [-> | (s & -> & _)]; [left; auto|right; eauto]. }
  assert (Hiff : start c = None <-> startMsOf c = None).
  { destruct Hstart as [[-> ->] | (s & -> & ->)]; split; congruence. }
  destruct (dueMs - now inp <=? 0) eqn:H0.
  - apply Z.leb_le in H0. exists dueMs, Done.
    assert (R : zoneRule (startMsOf c) dueMs (now inp) Done) by (apply zoneDone; lia).
    repeat split; auto; try (apply Hiff; assumption).
    intros z' Hz'. exact (zoneRule_functional _ _ _ _ _ Hz' R).
  - apply Z.leb_gt in H0.
    destruct (zoneColor_rule (start c) (startMsOf c) dueMs (now inp) Hstart H0)
      as (z & Hz & R).
    exists dueMs, z. cbn [afterAlert queued countdown].
    unfold zoneOfCountdown. cbn [cd_time cd_color].
    rewrite timeText_not_Done, timeText_not_empty.
    repeat split; auto; try (apply Hiff; assumption).
    intros z' Hz'. exact (zoneRule_functional _ _ _ _ _ Hz' R).
Qed.

Lemma zone_classifier_rule_witness :
  exists dueMs z,
    DateObj.getTime (due (toCand 0 exampleA)) = Some dueMs /\
    (start (toCand 0 exampleA) = None <-> startMsOf (toCand 0 exampleA) = None) /\
    match countdown (fst (tick 0 zoneWitnessInput initialState)) with
    | Some banner => zoneOfCountdown banner = Some z
    | None => False
    end /\
    zoneRule (startMsOf (toCand 0 exampleA)) dueMs (now zoneWitnessInput) z /\
    (forall z', zoneRule (startMsOf (toCand 0 exampleA)) dueMs (now zoneWitnessInput) z'
                -> z' = z).
Proof.
  apply (zone_classifier_rule 0 zoneWitnessInput initialState (toCand 0 exampleA)).
  vm_compute. reflexivity.
Defined.

(** ** Notifications *)

Lemma countNotify_app (key : string) (l1 l2 : list Effect) :
  countNotify key (l1 ++ l2) = (countNotify key l1 + countNotify key l2)%nat.
Proof. unfold countNotify. rewrite List.filter_app, List.length_app. reflexivity. Qed.

Lemma afterReset_notified (st : EngineState) (c : Cand) :
  notified5min (queued (afterReset st c)) = notified5min st /\
  forall key, countNotify key (calls (afterReset st c)) = 0%nat.
Proof.
  unfold afterReset.
  destruct (negb (String.eqb (targetKeyOf c) (lastTaskKey st))); split; reflexivity.
Qed.

(** One tick fires at most one notification for a key, only for a key that
    is not yet in the ref, and enters it there. *)
Lemma tick_notify_count (tz : Z) (inp : TickInput) (st : EngineState) (key : string) :
  (countNotify key (snd (tick tz inp st)) = 0%nat /\
   (key ∈ notified5min (fst (tick tz inp st)) <-> key ∈ notified5min st)) \/
  (countNotify key (snd (tick tz inp st)) = 1%nat /\
   (key ∉ notified5min st) /\ key ∈ notified5min (fst (tick tz inp st))).
Proof.
  destruct (tick_eq tz inp st) as [-> _]. unfold tickResult.
  destruct (selectTarget tz (now inp) (tasks inp)) as [| | |c];
    try (left; split; [reflexivity|cbn; tauto]).
  destruct (DateObj.getTime (due c)) as [dueMs|]; [|left; split; [reflexivity|cbn; tauto]].
  cbn [fst snd]. unfold afterTarget.
  destruct (afterReset_notified st c) as [Hn Hc].
  destruct (dueMs - now inp <=? 0).
  - left. cbn [afterDone queued calls notified5min]. rewrite countNotify_app, Hc, Hn.
    split; [reflexivity|tauto].
  - cbn [afterAlert queued calls notified5min]. rewrite !countNotify_app, Hc, Hn.
    assert (Hrest : forall b1 b2 b3 : bool,
               (countNotify key (if b1 then [AlarmPlay] else [])
                + (countNotify key (if b2 then [AlarmPause] else [])
                   + countNotify key (if b3 then [ChimePlay] else [])))%nat = 0%nat)
      by (intros [] [] []; reflexivity).
    rewrite Hrest. unfold firesNotification.
    destruct ((dueMs - now inp <=? 5 * 60 * 1000) && canNotify inp); cbn [andb].
    + destruct (bool_decide (notifyKeyOf tz (task c) ∈ notified5min st)) eqn:Hseen;
        cbn [negb].
      * left. split; [reflexivity|tauto].
      * apply bool_decide_eq_false in Hseen.
        unfold countNotify. cbn [List.filter isNotifyFor].
        destruct (String.eqb (notifyKeyOf tz (task c)) key) eqn:Hk.
        -- apply String.eqb_eq in Hk. subst key. right.
           split; [reflexivity|]. split; [assumption|].
           apply elem_of_union. left. apply elem_of_singleton. reflexivity.
        -- apply String.eqb_neq in Hk. left.
           split; [reflexivity|]. rewrite elem_of_union, elem_of_singleton.
           intuition congruence.
    + left. split; [reflexivity|tauto].
Qed.

Lemma runTicks_notify_count (tz : Z) (key : string) (inps : list TickInput) :
  forall st,
    (countNotify key (snd (runTicks tz inps st)) <= 1)%nat /\
    (key ∈ notified5min st -> countNotify key (snd (runTicks tz inps st)) = 0%nat).
Proof.
  induction inps as [|inp rest IH]; intros st.
  - cbn. split; [lia|reflexivity].
  - cbn [runTicks].
    pose proof (tick_notify_count tz inp st key) as Ht.
    destruct (tick tz inp st) as [st1 es1]. cbn [fst snd] in Ht.
    specialize (IH st1). destruct (runTicks tz rest st1) as [st2 es2].
    cbn [fst snd] in *. rewrite countNotify_app.
    destruct IH as [IH1 IH2].
    destruct Ht as [[H0 Hiff] | (H1 & Hnot & Hin)].
    + rewrite H0. split; [lia|]. intros Hk. apply IH2. apply Hiff. exact Hk.
    + rewrite H1, (IH2 Hin). split; [lia|]. intros Hk. contradiction.
Qed.

(** C4. Over a whole session, whatever the ticks find, at most one
    notification is fired under any one key (task id and due instant); and
    on every tick whose target has [0 < remaining <= 300 s] the handler makes
    the attempt: the ref and the notifications after the tick are those of
    [show5minNotification] run on the target, so that, where notifications
    are available and granted, the key is in the ref afterwards and a
    notification is fired exactly when the key was not there before. *)
Theorem notification_once_per_key :
  (forall tz inps st key,
     (countNotify key (snd (runTicks tz inps st)) <= 1)%nat) /\
  (forall tz inp st c dueMs,
     selectTarget tz (now inp) (tasks inp) = Selected c ->
     DateObj.getTime (due c) = Some dueMs ->
     0 < dueMs - now inp <= 300 * 1000 ->
     let attempt :=
       snd (show5minNotification tz inp (task c) (dueMs - now inp)
                                 {| queued := st; calls := [] |}) in
     notified5min (fst (tick tz inp st)) = notified5min (queued attempt) /\
     List.filter isNotify (snd (tick tz inp st)) = calls attempt /\
     (canNotify inp = true ->
      notifyKeyOf tz (task c) ∈ notified5min (fst (tick tz inp st)) /\
      countNotify (notifyKeyOf tz (task c)) (snd (tick tz inp st)) =
      if bool_decide (notifyKeyOf tz (task c) ∈ notified5min st) then 0%nat else 1%nat)).
Proof.
  split.
  - intros tz inps st key. apply runTicks_notify_count.
  - intros tz inp st c dueMs Hsel Hdue Hrange attempt.
    destruct (selected_shape tz inp c Hsel) as (dueMs' & Hd' & Hvalid & _).
    assert (dueMs' = dueMs) by (rewrite Hd' in Hdue; cbn in Hdue; congruence). subst dueMs'.
    subst attempt.
    rewrite (show5minNotification_eq tz inp (task c) (dueMs - now inp) _ Hvalid).
    destruct (tick_eq tz inp st) as [-> _]. unfold tickResult. rewrite Hsel, Hdue.
    cbn [fst snd queued calls]. unfold afterTarget.
    assert (H0 : (dueMs - now inp <=? 0) = false) by (apply Z.leb_gt; lia).
    assert (H5 : (dueMs - now inp <=? 5 * 60 * 1000) = true) by (apply Z.leb_le; lia).
    rewrite H0. cbn [afterAlert queued calls notified5min].
    unfold firesNotification. rewrite H5. cbn [andb].
    destruct (afterReset_notified st c) as [Hn _]. rewrite Hn.
    assert (Hcalls : forall (b1 b2 b3 : bool) (l : list Effect),
               List.filter isNotify
                 (calls (afterReset st c) ++ l ++ (if b1 then [AlarmPlay] else [])
                  ++ (if b2 then [AlarmPause] else [])
                  ++ (if b3 then [ChimePlay] else []))
               = List.filter isNotify l).
    { intros b1 b2 b3 l. unfold afterReset.
      destruct (negb (String.eqb (targetKeyOf c) (lastTaskKey st)));
        cbn [calls]; rewrite !List.filter_app; destruct b1, b2, b3;
        cbn [List.filter isNotify app]; rewrite ?app_nil_r; reflexivity. }
    rewrite Hcalls.
    assert (Hcount : forall (b1 b2 b3 : bool) (l : list Effect) key,
               countNotify key
                 (calls (afterReset st c) ++ l ++ (if b1 then [AlarmPlay] else [])
                  ++ (if b2 then [AlarmPause] else [])
                  ++ (if b3 then [ChimePlay] else []))
               = countNotify key l).
    { intros b1 b2 b3 l key. unfold afterReset.
      destruct (negb (String.eqb (targetKeyOf c) (lastTaskKey st)));
        cbn [calls]; rewrite !countNotify_app; destruct b1, b2, b3;
        unfold countNotify; cbn [List.filter isNotifyFor List.length]; lia. }
    rewrite Hcount.
    destruct (canNotify inp); cbn [andb].
    + destruct (bool_decide (notifyKeyOf tz (task c) ∈ notified5min st)) eqn:Hseen;
        cbn [negb queued calls notified5min withNotified app List.filter isNotify].
      * apply bool_decide_eq_true in Hseen. repeat split; auto.
      * repeat split.
        -- apply elem_of_union. left. apply elem_of_singleton. reflexivity.
        -- unfold countNotify. cbn [List.filter isNotifyFor].
           rewrite String.eqb_refl. reflexivity.
    + cbn [queued calls List.filter]. repeat split; discriminate.
Qed.

Lemma notification_once_per_key_witness :
  let attempt :=
    snd (show5minNotification 0 notifyWitnessInput (task (toCand 0 exampleA))
           (1714564810000 - now notifyWitnessInput)
           {| queued := initialState; calls := [] |}) in
  notified5min (fst (tick 0 notifyWitnessInput initialState))
  = notified5min (queued attempt) /\
  List.filter isNotify (snd (tick 0 notifyWitnessInput initialState)) = calls attempt /\
  (canNotify notifyWitnessInput = true ->
   notifyKeyOf 0 (task (toCand 0 exampleA))
     ∈ notified5min (fst (tick 0 notifyWitnessInput initialState)) /\
   countNotify (notifyKeyOf 0 (task (toCand 0 exampleA)))
               (snd (tick 0 notifyWitnessInput initialState)) =
   if bool_decide (notifyKeyOf 0 (task (toCand 0 exampleA)) ∈ notified5min initialState)
   then 0%nat else 1%nat).
Proof.
  apply (proj2 notification_once_per_key 0 notifyWitnessInput initialState
               (toCand 0 exampleA) 1714564810000).
  - vm_compute. reflexivity.
  - vm_compute. reflexivity.
  - cbn. lia.
Defined.

(** ** Chime and alarm calls of one tick *)

Lemma countCalls_app (e : Effect) (l1 l2 : list Effect) :
  countCalls e (l1 ++ l2) = (countCalls e l1 + countCalls e l2)%nat.
Proof. unfold countCalls. rewrite List.filter_app, List.length_app. reflexivity. Qed.

Lemma afterReset_calls (st : EngineState) (c : Cand) :
  countCalls ChimePlay (calls (afterReset st c)) = 0%nat /\
  countCalls AlarmPlay (calls (afterReset st c)) = 0%nat.
Proof.
  unfold afterReset.
  destruct (negb (String.eqb (targetKeyOf c) (lastTaskKey st))); split; reflexivity.
Qed.

Lemma afterAlert_chimes (tz : Z) (inp : TickInput) (st : EngineState) (c : Cand)
    (dueMs : Z) :
  countCalls ChimePlay (calls (afterAlert tz inp st c dueMs (afterReset st c)))
  = if playsChime inp st c dueMs then 1%nat else 0%nat.
Proof.
  cbn [afterAlert calls]. rewrite !countCalls_app.
  rewrite (proj1 (afterReset_calls st c)).
  destruct (firesNotification tz inp c dueMs (notified5min (queued (afterReset st c))));
    destruct (startsAlarm inp st dueMs); destruct (stopsAlarm inp st dueMs);
    destruct (playsChime inp st c dueMs); reflexivity.
Qed.

Lemma afterAlert_alarm_plays (tz : Z) (inp : TickInput) (st : EngineState) (c : Cand)
    (dueMs : Z) :
  countCalls AlarmPlay (calls (afterAlert tz inp st c dueMs (afterReset st c)))
  = if startsAlarm inp st dueMs then 1%nat else 0%nat.
Proof.
  cbn [afterAlert calls]. rewrite !countCalls_app.
  rewrite (proj2 (afterReset_calls st c)).
  destruct (firesNotification tz inp c dueMs (notified5min (queued (afterReset st c))));
    destruct (startsAlarm inp st dueMs); destruct (stopsAlarm inp st dueMs);
    destruct (playsChime inp st c dueMs); reflexivity.
Qed.

Lemma playsChime_iff (inp : TickInput) (st : EngineState) (c : Cand) (dueMs : Z) :
  playsChime inp st c dueMs = true <->
  lastColor st <> "" /\
  zoneColor (start c) dueMs (now inp) <> lastColor st /\
  60 * 1000 < dueMs - now inp.
Proof.
  unfold playsChime.
  rewrite !andb_true_iff, !negb_true_iff, Z.ltb_lt.
  rewrite <- !not_true_iff_false, !String.eqb_eq. tauto.
Qed.

(** C9, as stated, fails on a tick whose zone is Done: the tick publishes
    the blue Done banner and leaves [lastColor] at the pulsing red of the
    tick before. *)
Lemma lastZone_not_updated_when_done :
  selectTarget 0 (now doneInput) (tasks doneInput) = Selected (toCand 0 exampleA) /\
  countdown (fst (tick 0 doneInput criticalState))
  = Some {| cd_title := "A"; cd_time := "Done"; cd_color := COLOR.blue |} /\
  lastColor criticalState = COLOR.redPulse /\
  lastColor (fst (tick 0 doneInput criticalState)) = COLOR.redPulse /\
  ~ recordsPublishedZone 0 doneInput criticalState.
Proof.
  assert (Hsel : selectTarget 0 (now doneInput) (tasks doneInput)
                 = Selected (toCand 0 exampleA)) by (vm_compute; reflexivity).
  assert (Hcd : countdown (fst (tick 0 doneInput criticalState))
                = Some {| cd_title := "A"; cd_time := "Done"; cd_color := COLOR.blue |})
    by (vm_compute; reflexivity).
  assert (Hlc : lastColor (fst (tick 0 doneInput criticalState)) = COLOR.redPulse)
    by (vm_compute; reflexivity).
  repeat split; auto; try (vm_compute; reflexivity).
  intros H. specialize (H _ Hsel). rewrite Hcd, Hlc in H. cbn in H. discriminate.
Qed.

(** On the tick on which the target changes, the handler clears the
    recorded class with [setLastColor("")] but tests the class it closed
    over: after a tick in the last minute of task A, a tick that finds A
    completed and tracks task E, due in an hour, plays the chime. *)
Lemma chime_on_target_change :
  lastTaskKey criticalState <> targetKeyOf (toCand 0 laterTask) /\
  selectTarget 0 (now switchInput) (tasks switchInput) = Selected (toCand 0 laterTask) /\
  countCalls ChimePlay (snd (tick 0 switchInput criticalState)) = 1%nat.
Proof.
  split; [vm_compute; discriminate|]. split; vm_compute; reflexivity.
Qed.

(** C9, amended. On every tick that tracks a target with time remaining:
    when the target is the one the tick before tracked, exactly one chime is
    played if the recorded class is non-empty, differs from the new class,
    and more than 60 s remain, and none otherwise; and on every such tick,
    whether the target changed or not and whether a chime was played or not,
    the new class is recorded and is the one published. On a tick whose zone
    is Done no chime is played and the recorded class is not updated: it
    stays, or is cleared when the target changed. Whether a chime is played
    on the tick on which the target changes is not stated here. *)
Theorem chime_on_zone_change (tz : Z) (inp : TickInput) (st : EngineState) (c : Cand)
    (dueMs : Z) :
  selectTarget tz (now inp) (tasks inp) = Selected c ->
  DateObj.getTime (due c) = Some dueMs ->
  (0 < dueMs - now inp ->
   (targetKeyOf c = lastTaskKey st ->
    (lastColor st <> "" /\ zoneColor (start c) dueMs (now inp) <> lastColor st /\
     60 * 1000 < dueMs - now inp ->
     countCalls ChimePlay (snd (tick tz inp st)) = 1%nat) /\
    (~ (lastColor st <> "" /\ zoneColor (start c) dueMs (now inp) <> lastColor st /\
        60 * 1000 < dueMs - now inp) ->
     countCalls ChimePlay (snd (tick tz inp st)) = 0%nat)) /\
   lastColor (fst (tick tz inp st)) = zoneColor (start c) dueMs (now inp) /\
   countdown (fst (tick tz inp st))
   = Some {| cd_title := title (task c); cd_time := timeText (dueMs - now inp);
             cd_color := zoneColor (start c) dueMs (now inp) |}) /\
  (dueMs - now inp <= 0 ->
   countCalls ChimePlay (snd (tick tz inp st)) = 0%nat /\
   lastColor (fst (tick tz inp st))
   = if String.eqb (targetKeyOf c) (lastTaskKey st) then lastColor st else "").
Proof.
  intros Hsel Hdue.
  destruct (tick_eq tz inp st) as [-> _]. unfold tickResult. rewrite Hsel, Hdue.
  cbn [fst snd]. unfold afterTarget. split.
  - intros Hpos.
    assert (H0 : (dueMs - now inp <=? 0) = false) by (apply Z.leb_gt; lia).
    rewrite H0, afterAlert_chimes.
    pose proof (playsChime_iff inp st c dueMs) as Hiff.
    destruct (playsChime inp st c dueMs).
    + repeat split; auto. intros Hn. exfalso. apply Hn. apply Hiff. reflexivity.
    + repeat split; auto. intros Hc. apply Hiff in Hc. discriminate.
  - intros Hneg.
    assert (H0 : (dueMs - now inp <=? 0) = true) by (apply Z.leb_le; lia).
    rewrite H0. cbn [afterDone queued calls lastColor]. rewrite countCalls_app.
    rewrite (proj1 (afterReset_calls st c)). split; [reflexivity|].
    unfold afterReset. destruct (String.eqb (targetKeyOf c) (lastTaskKey st)); reflexivity.
Qed.

Lemma chime_on_zone_change_witness :
  countCalls ChimePlay (snd (tick 0 warningInput criticalState)) = 1%nat /\
  lastColor (fst (tick 0 warningInput criticalState)) = COLOR.yellow.
Proof.
  assert (Hsel : selectTarget 0 (now warningInput) (tasks warningInput)
                 = Selected (toCand 0 exampleA)) by (vm_compute; reflexivity).
  assert (Hdue : DateObj.getTime (due (toCand 0 exampleA)) = Some 1714564810000)
    by (vm_compute; reflexivity).
  assert (Hpos : 0 < 1714564810000 - now warningInput) by (cbn; lia).
  assert (Hkey : targetKeyOf (toCand 0 exampleA) = lastTaskKey criticalState)
    by (vm_compute; reflexivity).
  destruct (chime_on_zone_change 0 warningInput criticalState (toCand 0 exampleA)
                                 1714564810000 Hsel Hdue) as [H _].
  destruct (H Hpos) as (H1 & H3 & _).
  split.
  - apply (proj1 (H1 Hkey)).
    split; [|split]; [vm_compute; discriminate | vm_compute; discriminate | cbn; lia].
  - rewrite H3. vm_compute. reflexivity.
Defined.

(** ** The alarm *)

(** Within one tick the alarm is started at most once, and exactly when the
    target is within its last minute and the closed-over flag is down. *)
Lemma alarm_started_once_per_tick (tz : Z) (inp : TickInput) (st : EngineState) :
  countCalls AlarmPlay (snd (tick tz inp st)) =
  match selectTarget tz (now inp) (tasks inp) with
  | Selected c =>
      match DateObj.getTime (due c) with
      | Some dueMs =>
          if (0 <? dueMs - now inp) && (dueMs - now inp <=? 60 * 1000)
             && negb (alarmStarted st)
          then 1%nat else 0%nat
      | None => 0%nat
      end
  | _ => 0%nat
  end.
Proof.
  destruct (tick_eq tz inp st) as [-> _]. unfold tickResult.
  destruct (selectTarget tz (now inp) (tasks inp)) as [| | |c]; try reflexivity.
  destruct (DateObj.getTime (due c)) as [dueMs|]; [|reflexivity].
  cbn [snd]. unfold afterTarget.
  destruct (dueMs - now inp <=? 0) eqn:H0.
  - cbn [afterDone calls]. rewrite countCalls_app, (proj2 (afterReset_calls st c)).
    replace (0 <? dueMs - now inp) with false
      by (symmetry; apply Z.ltb_ge; apply Z.leb_le in H0; lia).
    reflexivity.
  - rewrite afterAlert_alarm_plays. unfold startsAlarm.
    replace (0 <? dueMs - now inp) with true
      by (symmetry; apply Z.ltb_lt; apply Z.leb_gt in H0; lia).
    reflexivity.
Qed.

(** While the flag is up, consecutive ticks do not start the alarm again. *)
Lemma alarm_not_restarted (tz : Z) (inp : TickInput) (st : EngineState) :
  alarmStarted st = true -> countCalls AlarmPlay (snd (tick tz inp st)) = 0%nat.
Proof.
  intros Ha. rewrite alarm_started_once_per_tick, Ha.
  destruct (selectTarget tz (now inp) (tasks inp)) as [| | |c]; try reflexivity.
  destruct (DateObj.getTime (due c)); [|reflexivity].
  rewrite andb_false_r. reflexivity.
Qed.

(** On every tick whose outcome is neither Critical nor the banner that asks
    for an end date, the flag is down afterwards, and a pause was issued if
    it was up. *)
Lemma alarm_off_outside_critical (tz : Z) (inp : TickInput) (st : EngineState) :
  match selectTarget tz (now inp) (tasks inp) with
  | NoDeadlineSet => True
  | Selected c =>
      match DateObj.getTime (due c) with
      | Some dueMs =>
          dueMs - now inp <= 0 \/ 60 * 1000 < dueMs - now inp ->
          alarmStarted (fst (tick tz inp st)) = false /\
          (alarmStarted st = true -> In AlarmPause (snd (tick tz inp st)))
      | None => True
      end
  | _ =>
      alarmStarted (fst (tick tz inp st)) = false /\ In AlarmPause (snd (tick tz inp st))
  end.
Proof.
  destruct (tick_eq tz inp st) as [-> _]. unfold tickResult.
  destruct (selectTarget tz (now inp) (tasks inp)) as [| | |c]; cbn; auto.
  destruct (DateObj.getTime (due c)) as [dueMs|]; [|exact I].
  cbn [fst snd]. unfold afterTarget. intros Hout.
  destruct (dueMs - now inp <=? 0) eqn:H0.
  - cbn [afterDone queued calls alarmStarted]. split; [reflexivity|].
    intros _. apply in_or_app. right. left. reflexivity.
  - apply Z.leb_gt in H0.
    assert (H1 : (dueMs - now inp <=? 60 * 1000) = false) by (apply Z.leb_gt; lia).
    cbn [afterAlert queued calls alarmStarted]. unfold startsAlarm, stopsAlarm.
    rewrite H1. cbn [andb negb]. split.
    + destruct (alarmStarted st) eqn:Ha; [reflexivity|].
      unfold afterReset.
      destruct (negb (String.eqb (targetKeyOf c) (lastTaskKey st)));
        cbn [queued alarmStarted]; [reflexivity|exact Ha].
    + intros ->. apply in_or_app. right. apply in_or_app. right.
      cbn. destruct (playsChime inp st c dueMs); left; reflexivity.
Qed.

(** C3, at the input on which the code departs from it: task A is in its
    last minute and the alarm has been started; A is then completed, and the
    only task left has no readable due date. The tick shows the banner that
    asks for an end date, issues no pause, and leaves the flag up. *)
Theorem alarm_survives_no_deadline :
  countCalls AlarmPlay (snd (tick 0 criticalInput initialState)) = 1%nat /\
  alarmStarted criticalState = true /\
  selectTarget 0 (now noDeadlineInput) (tasks noDeadlineInput) = NoDeadlineSet /\
  countdown (fst (tick 0 noDeadlineInput criticalState))
  = Some {| cd_title := "Set an end date/time to enable countdown"; cd_time := "";
            cd_color := COLOR.blue |} /\
  snd (tick 0 noDeadlineInput criticalState) = [] /\
  alarmStarted (fst (tick 0 noDeadlineInput criticalState)) = true.
Proof. repeat split; vm_compute; reflexivity. Qed.
(** When the target changes while the alarm is on and the new target is
    already within its last minute, the tick pauses the alarm and does not
    start it: the test reads the flag the callback closed over. The alarm
    starts on the tick after. *)
Lemma alarm_waits_a_tick_after_target_change :
  alarmStarted criticalState = true /\
  snd (tick 0 handoverInput criticalState) = [AlarmPause] /\
  alarmStarted (fst (tick 0 handoverInput criticalState)) = false /\
  countCalls AlarmPlay
    (snd (tick 0 handoverInput (fst (tick 0 handoverInput criticalState)))) = 1%nat.
Proof. repeat split; vm_compute; reflexivity. Qed.

(** ** Tasks without dates *)

(** A task with neither a start date nor an end date is ranked at the
    largest time value a [Date] can hold, which is a number: the filter on
    NaN keeps it. *)
Lemma undated_is_eligible (tz nowMs : Z) (t : Task) :
  completed t = false ->
  JS.truthy (startDate t) = false -> JS.truthy (endDate t) = false ->
  eligible tz nowMs t = true /\ due (toCand tz t) = DateAt 8640000000000000.
Proof.
  intros Hc Hs He.
  assert (Hstart : startDateTime tz t = None).
  { unfold startDateTime, toDateTime. unfold JS.truthy in Hs.
    destruct (startDate t) as [ds|]; [|reflexivity].
    destruct (String.eqb ds ""); [reflexivity|discriminate]. }
  assert (Hdue : dueDateTime tz t = None).
  { unfold dueDateTime, toDateTime, JS.or. rewrite He.
    unfold JS.truthy in Hs.
    destruct (startDate t) as [ds|]; [|reflexivity].
    destruct (String.eqb ds ""); [reflexivity|discriminate]. }
  unfold eligible, isStarted, dueIsNumber, toCand. cbn [due].
  rewrite Hc, Hstart, Hdue. split; reflexivity.
Qed.

(** So the banner that asks for an end date is never shown while an active
    task without dates is in the list. *)
Lemma undated_never_asks_for_deadline (tz nowMs : Z) (ts : list Task) (t : Task) :
  In t ts -> completed t = false ->
  JS.truthy (startDate t) = false -> JS.truthy (endDate t) = false ->
  exists c, selectTarget tz nowMs ts = Selected c.
Proof.
  intros Hin Hc Hs He.
  destruct (undated_is_eligible tz nowMs t Hc Hs He) as [El _].
  pose proof (selectTarget_first_least tz nowMs ts) as H.
  destruct (selectTarget tz nowMs ts) as [| | |c]; eauto;
    specialize (H t Hin); congruence.
Qed.

(** The banner is shown exactly when some active task has started and the
    due date of every such task is the Invalid Date. *)
Lemma NoDeadlineSet_iff (tz nowMs : Z) (ts : list Task) :
  selectTarget tz nowMs ts = NoDeadlineSet <->
  startedTasks tz nowMs (activeTasks ts) <> [] /\
  forall t, In t (startedTasks tz nowMs (activeTasks ts)) ->
            dueDateTime tz t = Some InvalidDate.
Proof.
  unfold selectTarget.
  destruct (activeTasks ts) as [|a l] eqn:Ha; cbn [isEmpty].
  { cbn. split; [discriminate|]. intros [H _]. congruence. }
  destruct (startedTasks tz nowMs (a :: l)) as [|b l'] eqn:Hb; cbn [isEmpty].
  { split; [discriminate|]. intros [H _]. congruence. }
  assert (Hall : candidatesOf tz (b :: l') = [] <->
                 forall t, In t (b :: l') -> dueDateTime tz t = Some InvalidDate).
  { generalize (b :: l'). intros l0. unfold candidatesOf.
    induction l0 as [|x l0 IH]; cbn [List.map List.filter].
    - split; [intros _ t []|reflexivity].
    - unfold dueIsNumber at 1, toCand at 1. cbn [due].
      destruct (dueDateTime tz x) as [[|tv]|] eqn:Hx; cbn [DateObj.getTime DateObj.ofNumber].
      + rewrite IH. split.
        * intros H t [<-|Hin]; auto.
        * intros H t Hin. apply H. right. exact Hin.
      + split; [discriminate|]. intros H. specialize (H x (or_introl eq_refl)). congruence.
      + split; [discriminate|]. intros H. specialize (H x (or_introl eq_refl)). congruence. }
  destruct (candidatesOf tz (b :: l')) as [|c l''] eqn:Hc; cbn [isEmpty].
  - split; [|reflexivity]. intros _. split; [discriminate|]. apply Hall. reflexivity.
  - destruct (sortBy compareDue (c :: l'')) eqn:Hs.
    + apply sortBy_nil in Hs. discriminate.
    + split; [discriminate|]. intros [_ H]. apply Hall in H. discriminate.
Qed.

(** C5, at the input on which the code departs from it: the list holds one
    active task with no dates at all. It has started and has no due date,
    yet the handler tracks it, with the largest time value as its due
    instant, and publishes a countdown under its title instead of the banner
    that asks for an end date. *)
Theorem undated_task_is_tracked :
  isStarted 0 (now undatedInput) undatedTask = true /\
  dueDateTime 0 undatedTask = None /\
  selectTarget 0 (now undatedInput) (tasks undatedInput)
  = Selected {| task := undatedTask; due := DateAt 8640000000000000; start := None |} /\
  countdown (fst (tick 0 undatedInput initialState))
  = Some {| cd_title := "N"; cd_time := "2399523732h 00m 00s left";
            cd_color := COLOR.blue |} /\
  lastTaskKey (fst (tick 0 undatedInput initialState)) = "n-+275760-09-13T00:00:00.000Z".
Proof. repeat split; vm_compute; reflexivity. Qed.

(** ** The calendar: a day number determines its date *)

Lemma isLeap_true (y : Z) : Calendar.isLeap y = true <-> (y mod 4 = 0 /\ y mod 100 <> 0) \/ y mod 400 = 0.
Proof.
  unfold Calendar.isLeap. rewrite orb_true_iff, andb_true_iff, negb_true_iff, !Z.eqb_eq, Z.eqb_neq. tauto.
Qed.

(** The year of the era is recovered from the day of the era. *)
Lemma doe_decompose (yoe doy : Z) :
  0 <= yoe <= 399 -> 0 <= doy ->
  (doy <= 364 \/ (doy = 365 /\ yoe mod 4 = 3 /\ (yoe mod 100 <> 99 \/ yoe = 399))) ->
  let doe := yoe * 365 + yoe / 4 - yoe / 100 + doy in
  0 <= doe <= 146096 /\
  (doe - doe / 1460 + doe / 36524 - doe / 146096) / 365 = yoe.
Proof.
  intros Hy Hd Hl doe. subst doe.
  Z.div_mod_to_equations. lia.
Qed.

Lemma civil_of_parts (era yoe doy : Z) :
  0 <= yoe <= 399 -> 0 <= doy ->
  (doy <= 364 \/ (doy = 365 /\ yoe mod 4 = 3 /\ (yoe mod 100 <> 99 \/ yoe = 399))) ->
  Calendar.civilFromDays (era * 146097 + (yoe * 365 + yoe / 4 - yoe / 100 + doy) - 719468) =
  let mp := (5 * doy + 2) / 153 in
  let d := doy - (153 * mp + 2) / 5 + 1 in
  let m := if mp <? 10 then mp + 3 else mp - 9 in
  (if m <=? 2 then yoe + era * 400 + 1 else yoe + era * 400, m, d).
Proof.
  intros Hy Hd Hl.
  destruct (doe_decompose yoe doy Hy Hd Hl) as [Hdoe Hyoe]. cbv zeta in Hdoe, Hyoe.
  unfold Calendar.civilFromDays.
  set (doe := yoe * 365 + yoe / 4 - yoe / 100 + doy) in *.
  replace (era * 146097 + doe - 719468 + 719468) with (doe + era * 146097) by lia.
  rewrite Z.div_add by lia. rewrite (Z.div_small doe 146097) by lia.
  replace (doe + era * 146097 - (0 + era) * 146097) with doe by lia.
  cbv zeta. rewrite Hyoe.
  replace (doe - (365 * yoe + yoe / 4 - yoe / 100)) with doy by (subst doe; lia).
  reflexivity.
Qed.

Lemma civil_roundtrip (y m d : Z) :
  1 <= m <= 12 -> 1 <= d <= Calendar.daysInMonth y m ->
  Calendar.civilFromDays (Calendar.daysFromCivil y m d) = (y, m, d).
Proof.
  intros Hm Hd.
  pose proof (isLeap_true y) as HL.
  unfold Calendar.daysFromCivil. cbv zeta.
  remember (if m <=? 2 then y - 1 else y) as y' eqn:Ey'.
  remember (if 2 <? m then m - 3 else m + 9) as mp eqn:Emp.
  assert (Hmp : 0 <= mp <= 11 /\ m = (if mp <? 10 then mp + 3 else mp - 9)).
  { subst mp. destruct (2 <? m) eqn:E; [apply Z.ltb_lt in E|apply Z.ltb_ge in E].
    - destruct (m - 3 <? 10) eqn:E'; [apply Z.ltb_lt in E'|apply Z.ltb_ge in E']; lia.
    - destruct (m + 9 <? 10) eqn:E'; [apply Z.ltb_lt in E'|apply Z.ltb_ge in E']; lia. }
  assert (Hy' : y = if m <=? 2 then y' + 1 else y').
  { subst y'. destruct (m <=? 2); lia. }
  assert (Hm2 : mp = 11 -> y = y' + 1).
  { intros H11. destruct Hmp as [_ Hmm]. rewrite H11 in Hmm. cbn in Hmm. subst m.
    exact Hy'. }
  assert (Hdim : 1 <= d <= (if mp =? 11 then (if Calendar.isLeap y then 29 else 28)
                            else if (mp =? 1) || (mp =? 3) || (mp =? 6) || (mp =? 8) then 30
                            else 31)).
  { unfold Calendar.daysInMonth in Hd. subst mp.
    assert (Hc : m = 1 \/ m = 2 \/ m = 3 \/ m = 4 \/ m = 5 \/ m = 6 \/ m = 7 \/ m = 8
                 \/ m = 9 \/ m = 10 \/ m = 11 \/ m = 12) by lia.
    repeat (destruct Hc as [Hc|Hc]; [rewrite Hc in *; exact Hd|]). rewrite Hc in *. exact Hd. }
  clear Ey' Emp Hd.
  remember (y' / 400) as era eqn:Eera.
  remember (y' - era * 400) as yoe eqn:Eyoe.
  assert (Hyoe : 0 <= yoe <= 399 /\ y' = yoe + era * 400).
  { subst yoe era. Z.div_mod_to_equations. lia. }
  clear Eera Eyoe.
  remember ((153 * mp + 2) / 5 + d - 1) as doy eqn:Edoy.
  assert (Hdoy : 0 <= doy /\ (5 * doy + 2) / 153 = mp /\ doy - (153 * mp + 2) / 5 + 1 = d /\
                 (doy <= 364 \/ (doy = 365 /\ mp = 11 /\ Calendar.isLeap y = true))).
  { subst doy.
    assert (Hc : mp = 0 \/ mp = 1 \/ mp = 2 \/ mp = 3 \/ mp = 4 \/ mp = 5 \/ mp = 6 \/ mp = 7
                 \/ mp = 8 \/ mp = 9 \/ mp = 10 \/ mp = 11) by lia.
    clear Hmp Hm2.
    repeat (destruct Hc as [Hc|Hc];
            [subst mp; cbn [Z.eqb Pos.eqb orb] in Hdim;
             split; [Z.div_mod_to_equations; lia|];
             split; [Z.div_mod_to_equations; lia|];
             split; [lia|left; Z.div_mod_to_equations; lia]|]).
    subst mp. cbn [Z.eqb Pos.eqb orb] in Hdim.
    split; [destruct (Calendar.isLeap y); Z.div_mod_to_equations; lia|].
    split; [destruct (Calendar.isLeap y); Z.div_mod_to_equations; lia|].
    split; [lia|].
    destruct (Calendar.isLeap y); [|left; Z.div_mod_to_equations; lia].
    destruct (Z.eq_dec d 29);
      [right; repeat split; Z.div_mod_to_equations; lia
      |left; Z.div_mod_to_equations; lia]. }
  destruct Hdoy as (Hd0 & Hmp' & Hd' & Hleap).
  assert (Hl : doy <= 364 \/ (doy = 365 /\ yoe mod 4 = 3 /\ (yoe mod 100 <> 99 \/ yoe = 399))).
  { destruct Hleap as [Hle | (He & Hm11 & Hlp)]; [left; exact Hle|right].
    split; [exact He|].
    apply HL in Hlp. specialize (Hm2 Hm11). destruct Hyoe as [Hb He'].
    clear - Hlp Hm2 Hb He'. Z.div_mod_to_equations. lia. }
  rewrite (civil_of_parts era yoe doy (proj1 Hyoe) Hd0 Hl). cbv zeta.
  rewrite Hmp', Hd'. destruct Hmp as [_ Hmm]. rewrite <- Hmm.
  destruct Hyoe as [_ He]. rewrite <- He.
  rewrite <- Hy'. reflexivity.
Qed.

(** ** Dates as text *)

Lemma digitOf_digitChar (x : Z) :
  0 <= x <= 9 -> JS.digitOf (JS.digitChar x) = Some x.
Proof.
  intros H.
  assert (Hc : x = 0 \/ x = 1 \/ x = 2 \/ x = 3 \/ x = 4 \/ x = 5 \/ x = 6 \/ x = 7
               \/ x = 8 \/ x = 9) by lia.
  repeat (destruct Hc as [->|Hc]; [reflexivity|]). subst x. reflexivity.
Qed.

Lemma digit_bounds (v : Z) : 0 <= v mod 10 <= 9.
Proof. pose proof (Z.mod_pos_bound v 10). lia. Qed.

Lemma digits_fixed4 (v : Z) :
  0 <= v <= 9999 -> JS.digits (JS.fixedDigits 4 v) = Some v.
Proof.
  intros H. cbv [JS.fixedDigits String.append]. cbn [JS.digits JS.digitsFrom].
  rewrite !digitOf_digitChar by apply digit_bounds.
  f_equal. Z.div_mod_to_equations. lia.
Qed.

Lemma digits_fixed2 (v : Z) :
  0 <= v <= 99 -> JS.digits (JS.fixedDigits 2 v) = Some v.
Proof.
  intros H. cbv [JS.fixedDigits String.append]. cbn [JS.digits JS.digitsFrom].
  rewrite !digitOf_digitChar by apply digit_bounds.
  f_equal. Z.div_mod_to_equations. lia.
Qed.

Lemma fields_ymd (y m d : Z) :
  0 <= y <= 9999 -> 0 <= m <= 99 -> 0 <= d <= 99 ->
  DateObj.fields (ymdString y m d +:+ "T00:00") = Some (y, m, d, 0, 0, 0).
Proof.
  intros Hy Hm Hd.
  pose proof (digits_fixed4 y Hy) as Dy.
  pose proof (digits_fixed2 m Hm) as Dm.
  pose proof (digits_fixed2 d Hd) as Dd.
  unfold DateObj.fields, ymdString.
  cbv [JS.fixedDigits String.append] in *.
  cbn [DateObj.charAt String.get String.length substring Nat.eqb Ascii.eqb Bool.eqb andb].
  rewrite Dy, Dm, Dd. reflexivity.
Qed.

Lemma daysFromCivil_bounds (y m d : Z) :
  0 <= y <= 9999 -> 1 <= m <= 12 -> 1 <= d <= 31 ->
  -719528 <= Calendar.daysFromCivil y m d <= 2932896.
Proof.
  intros Hy Hm Hd. unfold Calendar.daysFromCivil. cbv zeta.
  destruct (m <=? 2) eqn:E1; destruct (2 <? m) eqn:E2;
    [apply Z.leb_le in E1|apply Z.leb_le in E1|apply Z.leb_gt in E1|apply Z.leb_gt in E1];
    [apply Z.ltb_lt in E2|apply Z.ltb_ge in E2|apply Z.ltb_lt in E2|apply Z.ltb_ge in E2];
    try lia; Z.div_mod_to_equations; lia.
Qed.

Lemma daysInMonth_le (y m : Z) : Calendar.daysInMonth y m <= 31.
Proof.
  unfold Calendar.daysInMonth.
  destruct (m =? 2); [destruct (Calendar.isLeap y); lia|].
  destruct ((m =? 4) || (m =? 6) || (m =? 9) || (m =? 11)); lia.
Qed.

Lemma MakeDay_civil (y m d : Z) :
  1 <= m <= 12 -> Calendar.MakeDay y (m - 1) d = Calendar.daysFromCivil y m d.
Proof.
  intros Hm. unfold Calendar.MakeDay.
  rewrite (Z.div_small (m - 1) 12), (Z.mod_small (m - 1) 12) by lia.
  replace (y + 0) with y by lia. replace (m - 1 + 1) with m by lia.
  unfold Calendar.daysFromCivil. cbv zeta. lia.
Qed.

(** The value of a date field at local midnight. *)
Lemma parse_ymd (tz y m d : Z) :
  0 <= y <= 9999 -> 1 <= m <= 12 -> 1 <= d <= Calendar.daysInMonth y m ->
  -1440 <= tz <= 1440 ->
  DateObj.parse tz (ymdString y m d +:+ "T00:00")
  = DateAt (Calendar.daysFromCivil y m d * Calendar.msPerDay - tz * Calendar.msPerMinute).
Proof.
  intros Hy Hm Hd Htz. pose proof (daysInMonth_le y m) as Hle.
  unfold DateObj.parse. rewrite fields_ymd by lia.
  replace (1 <=? m) with true by (symmetry; apply Z.leb_le; lia).
  replace (m <=? 12) with true by (symmetry; apply Z.leb_le; lia).
  replace (1 <=? d) with true by (symmetry; apply Z.leb_le; lia).
  replace (d <=? Calendar.daysInMonth y m) with true by (symmetry; apply Z.leb_le; lia).
  cbn [andb Z.leb Z.compare].
  rewrite MakeDay_civil by lia.
  pose proof (daysFromCivil_bounds y m d Hy Hm ltac:(lia)) as Hb.
  unfold DateObj.TimeClip, DateObj.UTC, Calendar.MakeDate, DateObj.maxTime,
    Calendar.msPerDay, Calendar.msPerHour, Calendar.msPerMinute in *.
  replace (Z.abs _ <=? 8640000000000000) with true by (symmetry; apply Z.leb_le; lia).
  f_equal. lia.
Qed.

(** The first ten characters of an ISO string are its UTC date. *)
Lemma isoString_date (tv y m d : Z) :
  Calendar.civilFromDays (Calendar.Day tv) = (y, m, d) -> 0 <= y <= 9999 ->
  substring 0 10 (DateObj.isoString tv) = ymdString y m d.
Proof.
  intros Hc Hy. unfold DateObj.isoString, DateObj.isoYear, ymdString. rewrite Hc.
  replace ((0 <=? y) && (y <=? 9999)) with true
    by (symmetry; apply andb_true_iff; split; apply Z.leb_le; lia).
  cbv [JS.fixedDigits String.append]. cbn [substring]. reflexivity.
Qed.

(** [addToYMD] with a number of days: the date is advanced by that number
    of days on a host at or west of Greenwich, and by one day less on a host
    east of it. *)
Lemma addToYMD_days (tz y m d k y2 m2 d2 : Z) :
  0 <= y <= 9999 -> 1 <= m <= 12 -> 1 <= d <= Calendar.daysInMonth y m ->
  -1440 < tz < 1440 -> 1 <= k <= 7 ->
  Calendar.civilFromDays (Calendar.daysFromCivil y m d + (if 0 <? tz then k - 1 else k))
  = (y2, m2, d2) ->
  0 <= y2 <= 9999 ->
  addToYMD tz (ymdString y m d) k 0 = Some (ymdString y2 m2 d2).
Proof.
  intros Hy Hm Hd Htz Hk Hc Hy2. pose proof (daysInMonth_le y m) as Hle.
  pose proof (daysFromCivil_bounds y m d Hy Hm ltac:(lia)) as Hb.
  pose proof (civil_roundtrip y m d Hm Hd) as Hrt.
  unfold addToYMD. rewrite parse_ymd by lia.
  replace (0 =? 0) with true by reflexivity.
  replace (k =? 0) with false by (symmetry; apply Z.eqb_neq; lia).
  cbn [DateObj.getDate option_map DateObj.setDate].
  assert (Hlocal : DateObj.LocalTime tz
                     (Calendar.daysFromCivil y m d * Calendar.msPerDay
                      - tz * Calendar.msPerMinute)
                   = Calendar.daysFromCivil y m d * Calendar.msPerDay)
    by (unfold DateObj.LocalTime; lia).
  rewrite Hlocal.
  assert (Hday : Calendar.Day (Calendar.daysFromCivil y m d * Calendar.msPerDay)
                 = Calendar.daysFromCivil y m d)
    by (unfold Calendar.Day, Calendar.msPerDay; apply Z.div_mul; lia).
  assert (Htime : Calendar.TimeWithinDay (Calendar.daysFromCivil y m d * Calendar.msPerDay) = 0)
    by (unfold Calendar.TimeWithinDay, Calendar.msPerDay; apply Z.mod_mul; lia).
  unfold Calendar.YearFromTime, Calendar.MonthFromTime, Calendar.DateFromTime.
  rewrite Hday, Hrt, Htime. cbn [fst snd].
  rewrite MakeDay_civil by lia.
  replace (Calendar.daysFromCivil y m (d + k))
    with (Calendar.daysFromCivil y m d + k)
    by (unfold Calendar.daysFromCivil; cbv zeta; lia).
  unfold DateObj.TimeClip, DateObj.UTC, Calendar.MakeDate, DateObj.maxTime.
  replace (Z.abs _ <=? 8640000000000000) with true
    by (symmetry; apply Z.leb_le;
        unfold Calendar.msPerDay, Calendar.msPerMinute in *; lia).
  cbn [DateObj.toISOString option_map]. f_equal.
  apply isoString_date; [|exact Hy2].
  rewrite <- Hc. f_equal. unfold Calendar.Day, Calendar.msPerDay, Calendar.msPerMinute.
  destruct (0 <? tz) eqn:E; [apply Z.ltb_lt in E|apply Z.ltb_ge in E];
    Z.div_mod_to_equations; lia.
Qed.

(** On every host east of Greenwich, the daily rule returns the date it
    was given, whatever the date. *)
Lemma daily_is_the_same_day_east (tz y m d : Z) :
  0 <= y <= 9999 -> 1 <= m <= 12 -> 1 <= d <= Calendar.daysInMonth y m ->
  0 < tz < 1440 ->
  nextByRecurrence tz (Some (ymdString y m d)) daily = Some (Some (ymdString y m d)).
Proof.
  intros Hy Hm Hd Htz.
  unfold nextByRecurrence.
  assert (Hne : String.eqb (ymdString y m d) "" = false).
  { unfold ymdString. cbv [JS.fixedDigits String.append]. reflexivity. }
  rewrite Hne.
  rewrite (addToYMD_days tz y m d 1 y m d); try lia; [reflexivity|].
  replace (0 <? tz) with true by (symmetry; apply Z.ltb_lt; lia).
  replace (Calendar.daysFromCivil y m d + (1 - 1)) with (Calendar.daysFromCivil y m d) by lia.
  apply civil_roundtrip; assumption.
Qed.

(** On a host at or west of Greenwich both rules advance the date by the
    days they name. *)
Lemma daily_weekly_advance_west (tz y m d k y2 m2 d2 : Z) (rule : Recurrence) :
  0 <= y <= 9999 -> 1 <= m <= 12 -> 1 <= d <= Calendar.daysInMonth y m ->
  -1440 < tz <= 0 ->
  (rule = daily /\ k = 1 \/ rule = weekly /\ k = 7) ->
  Calendar.civilFromDays (Calendar.daysFromCivil y m d + k) = (y2, m2, d2) ->
  0 <= y2 <= 9999 ->
  nextByRecurrence tz (Some (ymdString y m d)) rule = Some (Some (ymdString y2 m2 d2)).
Proof.
  intros Hy Hm Hd Htz Hr Hc Hy2.
  unfold nextByRecurrence.
  assert (Hne : String.eqb (ymdString y m d) "" = false).
  { unfold ymdString. cbv [JS.fixedDigits String.append]. reflexivity. }
  rewrite Hne.
  assert (Hadd : addToYMD tz (ymdString y m d) k 0 = Some (ymdString y2 m2 d2)).
  { apply addToYMD_days; try lia.
    replace (0 <? tz) with false by (symmetry; apply Z.ltb_ge; lia). exact Hc. }
  destruct Hr as [[-> ->] | [-> ->]]; rewrite Hadd; reflexivity.
Qed.

(** ** Recurrence on a given host *)

(** C8, at the input on which the code departs from it: on a host nine
    hours east of Greenwich the day after 2024-01-31 is computed as
    2024-01-31 and the week after as 2024-02-06, and completing a daily task
    that starts on 2024-01-31 adds a task that starts on 2024-01-31. The
    date is read as local midnight and written back as a UTC date. On a host
    at UTC the results are 2024-02-01 and 2024-02-07. *)
Theorem daily_recurrence_east_of_greenwich :
  nextByRecurrence 540 (Some "2024-01-31") daily = Some (Some "2024-01-31") /\
  nextByRecurrence 540 (Some "2024-01-31") weekly = Some (Some "2024-02-06") /\
  toggleTask 540 "new" "2024-01-31T03:00:00.000Z" "r"
    [mkTask "r" "R" false (Some "2024-01-31") None (Some "2024-01-31") None
            (Some daily) None]
  = Some [mkTask "r" "R" true (Some "2024-01-31") None (Some "2024-01-31") None
                 (Some daily) None;
          mkTask "new" "R" false (Some "2024-01-31") None (Some "2024-01-31") None
                 (Some daily) (Some "2024-01-31T03:00:00.000Z")] /\
  nextByRecurrence 0 (Some "2024-01-31") daily = Some (Some "2024-02-01") /\
  nextByRecurrence 0 (Some "2024-01-31") weekly = Some (Some "2024-02-07") /\
  nextByRecurrence 0 (Some "2024-01-31") monthly = Some (Some "2024-03-02").
Proof. repeat split; vm_compute; reflexivity. Qed.

(** ** Validation of the forms *)

Lemma endsBeforeStart_iff (s e : Z) :
  endsBeforeStart (Some (DateAt s)) (Some (DateAt e)) = true <-> e < s.
Proof. cbn. apply Z.ltb_lt. Qed.

Lemma fieldInstant_toDateTime (tz : Z) (date time fallback : string) :
  fieldInstant tz date time fallback = toDateTime tz (Some date) (Some time) fallback.
Proof. reflexivity. Qed.

Lemma createdEnd_with_end_date (tz : Z) (f : AddForm.t) :
  AddForm.endDate f <> "" -> createdEnd tz f = createEnd tz f.
Proof.
  intros H. apply String.eqb_neq in H.
  unfold createdEnd, createEnd, describedEndDate. rewrite H. reflexivity.
Qed.

Lemma editedEnd_editEnd (tz : Z) (f : EditForm.t) : editedEnd tz f = editEnd tz f.
Proof.
  unfold editedEnd, editEnd, describedEndDate, fieldInstant, toDateTime, JS.or, JS.truthy,
    JS.orStr.
  destruct (String.eqb (EditForm.editEndDate f) "") eqn:Ed; cbn [negb];
    destruct (String.eqb (EditForm.editEndTime f) "") eqn:Et; cbn [negb];
    rewrite ?Ed, ?Et;
    destruct (String.eqb (EditForm.editStartDate f) "") eqn:Es;
    destruct (String.eqb (EditForm.editStartTime f) "") eqn:Est; cbn [negb];
    rewrite ?Est, ?Et; try reflexivity.
Qed.

(** C6, as stated, fails on creation in two ways. A submission with a blank
    title is ignored before its dates are read: no message is shown although
    its end precedes its start. And a submission with a title, a blank end
    date and an end time before the start time is accepted without a
    message, although the task it describes ends before it starts; this
    second one is the defect of C7. *)
Lemma validation_skipped_on_create :
  (createdStart 0 blankTitleForm = Some (DateAt 1714608000000) /\
   createdEnd 0 blankTitleForm = Some (DateAt 1714607940000) /\
   out_alert (addTask 0 "id" "2024-04-01T00:00:00.000Z" blankTitleForm []) = None /\
   ~ createFailsIffEndBeforeStart 0 "id" "2024-04-01T00:00:00.000Z" blankTitleForm []) /\
  (createdStart 0 earlyEndForm = Some (DateAt 1704103200000) /\
   createdEnd 0 earlyEndForm = Some (DateAt 1704099600000) /\
   out_alert (addTask 0 "id" "2023-12-31T00:00:00.000Z" earlyEndForm []) = None /\
   ~ createFailsIffEndBeforeStart 0 "id" "2023-12-31T00:00:00.000Z" earlyEndForm []).
Proof.
  split.
  - assert (Hs : createdStart 0 blankTitleForm = Some (DateAt 1714608000000))
      by (vm_compute; reflexivity).
    assert (He : createdEnd 0 blankTitleForm = Some (DateAt 1714607940000))
      by (vm_compute; reflexivity).
    repeat split; auto.
    intros H. specialize (H _ _ Hs He).
    assert (Hlt : 1714607940000 < 1714608000000) by lia.
    apply H in Hlt. vm_compute in Hlt. discriminate.
  - assert (Hs : createdStart 0 earlyEndForm = Some (DateAt 1704103200000))
      by (vm_compute; reflexivity).
    assert (He : createdEnd 0 earlyEndForm = Some (DateAt 1704099600000))
      by (vm_compute; reflexivity).
    repeat split; auto.
    intros H. specialize (H _ _ Hs He).
    assert (Hlt : 1704099600000 < 1704103200000) by lia.
    apply H in Hlt. vm_compute in Hlt. discriminate.
Qed.

(** C6, amended. For every create submission with a non-blank title and a
    filled-in end date, and every edit submission made while a task is being
    edited, in which both instants are set: the handler shows the message
    exactly when the end precedes the start; when it does, the task list and
    the form are left as they were; when it does not, no message is shown
    and the task is added (or the edit applied). A create submission with a
    blank title is ignored: no message, list and form as they were. What
    creation does with a blank end date is not stated here. *)
Theorem validation_iff_end_before_start :
  (forall tz newId nowIso f prev s e,
     JS.trim (AddForm.input f) <> "" -> AddForm.endDate f <> "" ->
     createdStart tz f = Some (DateAt s) -> createdEnd tz f = Some (DateAt e) ->
     (out_alert (addTask tz newId nowIso f prev) = Some endBeforeStartMessage <-> e < s) /\
     (e < s -> out_tasks (addTask tz newId nowIso f prev) = prev /\
               out_form (addTask tz newId nowIso f prev) = f) /\
     (~ e < s -> out_alert (addTask tz newId nowIso f prev) = None /\
                 exists t, out_tasks (addTask tz newId nowIso f prev) = (prev ++ [t])%list)) /\
  (forall tz newId nowIso f prev,
     JS.trim (AddForm.input f) = "" ->
     out_alert (addTask tz newId nowIso f prev) = None /\
     out_tasks (addTask tz newId nowIso f prev) = prev /\
     out_form (addTask tz newId nowIso f prev) = f) /\
  (forall tz f prev eid s e,
     EditForm.editingId f = Some eid -> eid <> "" ->
     editedStart tz f = Some (DateAt s) -> editedEnd tz f = Some (DateAt e) ->
     (out_alert (saveEdit tz f prev) = Some endBeforeStartMessage <-> e < s) /\
     (e < s -> out_tasks (saveEdit tz f prev) = prev /\ out_form (saveEdit tz f prev) = f) /\
     (~ e < s -> out_alert (saveEdit tz f prev) = None /\
                 out_form (saveEdit tz f prev) = EditForm.empty)).
Proof.
  split; [|split].
  - intros tz newId nowIso f prev s e Ht Hend Hs He.
    rewrite (createdEnd_with_end_date tz f Hend) in He.
    unfold createdStart in Hs. rewrite fieldInstant_toDateTime in Hs.
    unfold createEnd in He. unfold addTask.
    apply String.eqb_neq in Ht. rewrite Ht, Hs, He.
    pose proof (endsBeforeStart_iff s e) as Hiff.
    destruct (endsBeforeStart (Some (DateAt s)) (Some (DateAt e))); cbn [out_alert out_tasks out_form].
    + assert (Hlt : e < s) by (apply Hiff; reflexivity).
      split; [split; auto|]. split; [auto|]. intros Hn. contradiction.
    + assert (Hge : ~ e < s) by (intros Hlt; apply Hiff in Hlt; discriminate).
      split; [split; [discriminate|contradiction]|].
      split; [contradiction|]. intros _. split; eauto.
  - intros tz newId nowIso f prev Ht. unfold addTask.
    apply String.eqb_eq in Ht. rewrite Ht. auto.
  - intros tz f prev eid s e Hid Hne Hs He.
    rewrite editedEnd_editEnd in He.
    unfold editedStart in Hs. rewrite fieldInstant_toDateTime in Hs.
    unfold editEnd in He. unfold saveEdit.
    apply String.eqb_neq in Hne. rewrite Hid, Hne, Hs, He.
    pose proof (endsBeforeStart_iff s e) as Hiff.
    destruct (endsBeforeStart (Some (DateAt s)) (Some (DateAt e))); cbn [out_alert out_tasks out_form].
    + assert (Hlt : e < s) by (apply Hiff; reflexivity).
      split; [split; auto|]. split; [auto|]. intros Hn. contradiction.
    + assert (Hge : ~ e < s) by (intros Hlt; apply Hiff in Hlt; discriminate).
      split; [split; [discriminate|contradiction]|].
      split; [contradiction|]. intros _. split; eauto.
Qed.

Lemma validation_iff_end_before_start_witness :
  out_alert (addTask 0 "id" "2024-04-01T00:00:00.000Z" lateStartForm [])
  = Some endBeforeStartMessage /\
  out_tasks (addTask 0 "id" "2024-04-01T00:00:00.000Z" lateStartForm []) = [].
Proof.
  assert (Ht : JS.trim (AddForm.input lateStartForm) <> "") by (vm_compute; discriminate).
  assert (Hd : AddForm.endDate lateStartForm <> "") by (vm_compute; discriminate).
  assert (Hs : createdStart 0 lateStartForm = Some (DateAt 1714640400000))
    by (vm_compute; reflexivity).
  assert (He : createdEnd 0 lateStartForm = Some (DateAt 1714582800000))
    by (vm_compute; reflexivity).
  destruct (proj1 validation_iff_end_before_start 0 "id" "2024-04-01T00:00:00.000Z"
                  lateStartForm [] _ _ Ht Hd Hs He) as (Hiff & Hfail & _).
  split.
  - apply Hiff. lia.
  - apply Hfail. lia.
Defined.

(** ** The order of start and end in stored tasks *)

Lemma orUndefined_truthy (x : string) : JS.truthy (JS.orUndefined x) = negb (String.eqb x "").
Proof. unfold JS.orUndefined, JS.truthy. destruct (String.eqb x "") eqn:E; [reflexivity|]. rewrite E. reflexivity. Qed.

Lemma toDateTime_orUndefined (tz : Z) (d t : string) (fb : string) :
  toDateTime tz (JS.orUndefined d) (JS.orUndefined t) fb
  = toDateTime tz (Some d) (Some t) fb.
Proof.
  unfold toDateTime, JS.orUndefined, JS.orStr.
  destruct (String.eqb d "") eqn:Ed; [reflexivity|]. rewrite Ed.
  destruct (String.eqb t "") eqn:Et; [reflexivity|]. rewrite Et. reflexivity.
Qed.

(** The task [saveEdit] writes has the instants it validated. *)
Lemma saveEdit_instants (tz : Z) (f : EditForm.t) (t : Task) :
  let t' := {| id := id t;
               title := JS.orStr (Some (JS.trim (EditForm.editInput f))) (title t);
               completed := completed t;
               startDate := JS.orUndefined (EditForm.editStartDate f);
               startTime := JS.orUndefined (EditForm.editStartTime f);
               endDate := JS.or (Some (EditForm.editEndDate f))
                                (JS.orUndefined (EditForm.editStartDate f));
               endTime := JS.orUndefined (EditForm.editEndTime f);
               recurrence := Some (EditForm.editRecurrence f);
               createdAt := createdAt t |} in
  startDateTime tz t' = editStart tz f /\ dueDateTime tz t' = editEnd tz f.
Proof.
  destruct f as [eid inp sd st ed et rc]. cbn [EditForm.editStartDate EditForm.editStartTime
    EditForm.editEndDate EditForm.editEndTime EditForm.editInput EditForm.editRecurrence].
  unfold startDateTime, dueDateTime, editStart, editEnd.
  cbn [startDate startTime endDate endTime EditForm.editStartDate EditForm.editStartTime
       EditForm.editEndDate EditForm.editEndTime].
  split; [apply toDateTime_orUndefined|].
  unfold toDateTime, JS.or, JS.orStr, JS.orUndefined, JS.truthy.
  destruct (String.eqb ed "") eqn:Eed; destruct (String.eqb sd "") eqn:Esd;
    destruct (String.eqb et "") eqn:Eet; destruct (String.eqb st "") eqn:Est;
    cbn [negb]; rewrite ?Eed, ?Esd, ?Eet, ?Est; cbn [negb]; rewrite ?Eed, ?Esd, ?Eet, ?Est;
    reflexivity.
Qed.

(** [saveEdit] stores no task whose due instant precedes its start. *)
Lemma saveEdit_keeps_order (tz : Z) (f : EditForm.t) (prev : list Task) (t' : Task) :
  In t' (out_tasks (saveEdit tz f prev)) ->
  In t' prev \/
  forall s e, startDateTime tz t' = Some (DateAt s) ->
              dueDateTime tz t' = Some (DateAt e) -> s <= e.
Proof.
  unfold saveEdit.
  destruct (EditForm.editingId f) as [eid|]; [|cbn; auto].
  destruct (String.eqb eid ""); [cbn; auto|].
  fold (editStart tz f). fold (editEnd tz f).
  destruct (endsBeforeStart (editStart tz f) (editEnd tz f)) eqn:Hv; [cbn; auto|].
  cbn [out_tasks]. intros Hin. apply List.in_map_iff in Hin.
  destruct Hin as (t & <- & Hin).
  destruct (String.eqb (id t) eid); [|left; exact Hin].
  right. intros s e Hs He.
  destruct (saveEdit_instants tz f t) as [Es Ee]. cbv zeta in Es, Ee.
  rewrite Es in Hs. rewrite Ee in He. rewrite Hs, He in Hv.
  cbn in Hv. apply Z.ltb_ge in Hv. exact Hv.
Qed.

(** [addTask] stores no task whose end precedes its start when the end
    date is filled in. *)
Lemma addTask_keeps_order_with_end_date (tz : Z) (newId nowIso : string)
    (f : AddForm.t) (prev : list Task) (t' : Task) :
  AddForm.endDate f <> "" ->
  In t' (out_tasks (addTask tz newId nowIso f prev)) ->
  In t' prev \/
  forall s e, startDateTime tz t' = Some (DateAt s) ->
              endDateTime tz t' = Some (DateAt e) -> s <= e.
Proof.
  intros Hed. unfold addTask.
  destruct (String.eqb (JS.trim (AddForm.input f)) ""); [cbn; auto|].
  fold (createStart tz f). fold (createEnd tz f).
  destruct (endsBeforeStart (createStart tz f) (createEnd tz f)) eqn:Hv; [cbn; auto|].
  cbn [out_tasks]. intros Hin. apply in_app_or in Hin.
  destruct Hin as [Hin|[<-|[]]]; [left; exact Hin|].
  right. intros s e. unfold startDateTime, endDateTime.
  cbn [startDate startTime endDate endTime].
  rewrite toDateTime_orUndefined. fold (createStart tz f).
  apply String.eqb_neq in Hed.
  replace (JS.or (Some (AddForm.endDate f)) (JS.orUndefined (AddForm.startDate f)))
    with (JS.orUndefined (AddForm.endDate f))
    by (unfold JS.or, JS.orUndefined, JS.truthy; rewrite Hed; reflexivity).
  rewrite toDateTime_orUndefined. fold (createEnd tz f).
  intros Hs He. rewrite Hs, He in Hv. cbn in Hv. apply Z.ltb_ge in Hv. exact Hv.
Qed.

(** C7, at the input on which the code departs from it: the add form holds
    a start date, a start time of 10:00, no end date and an end time of
    09:00. [addTask] reads no end instant from the blank end date, shows no
    message, and stores a task whose end date is the start date: its end
    instant, 09:00, precedes its start. [saveEdit], given the same fields,
    shows the message and stores nothing. *)
Theorem create_stores_end_before_start :
  out_alert (addTask 0 "id" "2023-12-31T00:00:00.000Z" earlyEndForm []) = None /\
  out_tasks (addTask 0 "id" "2023-12-31T00:00:00.000Z" earlyEndForm []) = [earlyEndTask] /\
  startDateTime 0 earlyEndTask = Some (DateAt 1704103200000) /\
  endDateTime 0 earlyEndTask = Some (DateAt 1704099600000) /\
  dueDateTime 0 earlyEndTask = Some (DateAt 1704099600000) /\
  1704099600000 < 1704103200000 /\
  out_alert (saveEdit 0 (EditForm.mk (Some "id") "Call" "2024-01-01" "10:00" "" "09:00" none)
                      [earlyEndTask])
  = Some endBeforeStartMessage.
Proof. repeat split; vm_compute; reflexivity. Qed.

(** ** The end date of stored tasks *)

Lemma or_orUndefined_default (e s : string) :
  (JS.truthy (JS.orUndefined s) = true ->
   JS.truthy (JS.or (Some e) (JS.orUndefined s)) = true) /\
  (e = "" -> JS.or (Some e) (JS.orUndefined s) = JS.orUndefined s).
Proof.
  unfold JS.or, JS.orUndefined, JS.truthy. split.
  - destruct (String.eqb e "") eqn:Ee; cbn [negb]; [tauto|]. rewrite Ee. reflexivity.
  - intros ->. reflexivity.
Qed.

(** C10. [addTask] either leaves the list as it is or appends one task, and
    [saveEdit] either leaves a task as it is or rewrites it keeping its id;
    every task so written has an end date whenever it has a start date, and
    when the end-date field was blank its end date is its start date. *)
Theorem end_date_defaults_to_start_date :
  (forall tz newId nowIso f prev,
     out_tasks (addTask tz newId nowIso f prev) = prev \/
     exists t, out_tasks (addTask tz newId nowIso f prev) = (prev ++ [t])%list /\
               startDate t = JS.orUndefined (AddForm.startDate f) /\
               hasEndDateIfStartDate t /\
               (AddForm.endDate f = "" -> endDate t = startDate t)) /\
  (forall tz f prev,
     Forall2 (fun old new =>
                new = old \/
                (id new = id old /\
                 startDate new = JS.orUndefined (EditForm.editStartDate f) /\
                 hasEndDateIfStartDate new /\
                 (EditForm.editEndDate f = "" -> endDate new = startDate new)))
             prev (out_tasks (saveEdit tz f prev))).
Proof.
  split.
  - intros tz newId nowIso f prev. unfold addTask.
    destruct (String.eqb (JS.trim (AddForm.input f)) ""); [left; reflexivity|].
    destruct (endsBeforeStart _ _); [left; reflexivity|].
    right. eexists. split; [reflexivity|]. unfold hasEndDateIfStartDate.
    cbn [startDate endDate].
    destruct (or_orUndefined_default (AddForm.endDate f) (AddForm.startDate f)) as [H1 H2].
    auto.
  - intros tz f prev.
    assert (Hsame : Forall2 (fun old new : Task =>
                new = old \/
                (id new = id old /\
                 startDate new = JS.orUndefined (EditForm.editStartDate f) /\
                 hasEndDateIfStartDate new /\
                 (EditForm.editEndDate f = "" -> endDate new = startDate new)))
             prev prev).
    { induction prev as [|x l IH]; constructor; auto. }
    unfold saveEdit.
    destruct (EditForm.editingId f) as [eid|]; [|exact Hsame].
    destruct (String.eqb eid ""); [exact Hsame|].
    destruct (endsBeforeStart _ _); [exact Hsame|].
    cbn [out_tasks]. clear Hsame.
    induction prev as [|x l IH]; cbn [List.map]; constructor; [|exact IH].
    destruct (String.eqb (id x) eid); [right|left; reflexivity].
    unfold hasEndDateIfStartDate. cbn [id startDate endDate].
    destruct (or_orUndefined_default (EditForm.editEndDate f) (EditForm.editStartDate f))
      as [H1 H2].
    auto.
Qed.

Lemma end_date_defaults_to_start_date_witness :
  exists t,
    out_tasks (addTask 0 "id" "2023-12-31T00:00:00.000Z" startOnlyForm []) = [t] /\
    endDate t = Some "2024-01-01".
Proof.
  destruct (proj1 end_date_defaults_to_start_date 0 "id" "2023-12-31T00:00:00.000Z"
                  startOnlyForm [])
    as [H | (t & Ht & Hs & _ & Hd)].
  - vm_compute in H. discriminate.
  - exists t. split; [exact Ht|]. rewrite (Hd eq_refl), Hs. reflexivity.
Defined.

(** * Further properties of the handler *)

(** ** What a tick never does *)

(** X1. No exception leaves the interval callback, whatever the task list,
    the clock and the state: [toISOString] is only reached for a due date
    that passed the filter on NaN. *)
Theorem tick_never_throws (tz : Z) (inp : TickInput) (st : EngineState) :
  tickThrows tz inp st = false.
Proof. exact (proj2 (tick_eq tz inp st)). Qed.

(** X2. A tick makes at most one of the two sounds: it never plays the
    chime and starts the alarm together, and never either of them twice. *)
Theorem chime_and_alarm_exclusive (tz : Z) (inp : TickInput) (st : EngineState) :
  (countCalls ChimePlay (snd (tick tz inp st))
   + countCalls AlarmPlay (snd (tick tz inp st)) <= 1)%nat.
Proof.
  destruct (tick_eq tz inp st) as [-> _]. unfold tickResult.
  destruct (selectTarget tz (now inp) (tasks inp)) as [| | |c]; try (cbn; lia).
  destruct (DateObj.getTime (due c)) as [dueMs|]; [|cbn; lia].
  cbn [snd]. unfold afterTarget.
  destruct (dueMs - now inp <=? 0).
  - cbn [afterDone calls]. rewrite !countCalls_app.
    destruct (afterReset_calls st c) as [-> ->]. cbn. lia.
  - rewrite afterAlert_chimes, afterAlert_alarm_plays.
    unfold playsChime, startsAlarm.
    destruct (dueMs - now inp <=? 60 * 1000) eqn:H1.
    + replace (60 * 1000 <? dueMs - now inp) with false
        by (symmetry; apply Z.ltb_ge; apply Z.leb_le in H1; exact H1).
      rewrite andb_false_r. destruct (true && negb (alarmStarted st)); lia.
    + cbn [andb]. destruct (_ && _ && _); lia.
Qed.

(** X3. Without the permission, or on a host without notifications, a
    tick fires no notification and leaves the ref of fired keys as it was. *)
Theorem no_notification_without_permission (tz : Z) (inp : TickInput) (st : EngineState) :
  canNotify inp = false ->
  List.filter isNotify (snd (tick tz inp st)) = [] /\
  notified5min (fst (tick tz inp st)) = notified5min st.
Proof.
  intros Hperm. destruct (tick_eq tz inp st) as [-> _]. unfold tickResult.
  destruct (selectTarget tz (now inp) (tasks inp)) as [| | |c]; try (split; reflexivity).
  destruct (DateObj.getTime (due c)) as [dueMs|]; [|split; reflexivity].
  cbn [fst snd]. unfold afterTarget.
  assert (Hr : List.filter isNotify (calls (afterReset st c)) = [] /\
               notified5min (queued (afterReset st c)) = notified5min st).
  { unfold afterReset. destruct (negb _); split; reflexivity. }
  destruct Hr as [Hc Hn].
  destruct (dueMs - now inp <=? 0).
  - cbn [afterDone queued calls notified5min]. rewrite List.filter_app, Hc. auto.
  - cbn [afterAlert queued calls notified5min]. unfold firesNotification.
    rewrite Hperm, andb_false_r. cbn [andb].
    rewrite !List.filter_app, Hc.
    destruct (startsAlarm inp st dueMs), (stopsAlarm inp st dueMs),
      (playsChime inp st c dueMs); auto.
Qed.

Lemma no_notification_without_permission_witness :
  List.filter isNotify (snd (tick 0 handoverInput criticalState)) = [] /\
  notified5min (fst (tick 0 handoverInput criticalState)) = notified5min criticalState.
Proof.
  apply (no_notification_without_permission 0 handoverInput criticalState).
  reflexivity.
Defined.

(** X4. The ref of fired keys only grows: a key entered in it stays
    through every later tick of the session. *)
Theorem notified_keys_only_grow (tz : Z) (inps : list TickInput) (st : EngineState)
    (key : string) :
  key ∈ notified5min st -> key ∈ notified5min (fst (runTicks tz inps st)).
Proof.
  revert st. induction inps as [|inp rest IH]; intros st Hin; [exact Hin|].
  cbn [runTicks].
  pose proof (tick_notify_count tz inp st key) as Ht.
  destruct (tick tz inp st) as [st1 es1]. cbn [fst snd] in Ht.
  specialize (IH st1). destruct (runTicks tz rest st1) as [st2 es2]. cbn [fst] in *.
  apply IH. destruct Ht as [[_ Hiff] | (_ & _ & H1)]; [apply Hiff; exact Hin|exact H1].
Qed.

Lemma notified_keys_only_grow_witness :
  "a-2024-05-01T12:00:10.000Z"
    ∈ notified5min (fst (runTicks 0 [doneInput; handoverInput] criticalState)).
Proof.
  apply (notified_keys_only_grow 0 [doneInput; handoverInput] criticalState).
  vm_compute. reflexivity.
Defined.

(** ** The alarm over consecutive ticks *)

Lemma critical_tick_starts (tz : Z) (k : string) (inp : TickInput) (st : EngineState) :
  criticalOn tz k inp -> alarmStarted st = false ->
  countCalls AlarmPlay (snd (tick tz inp st)) = 1%nat /\
  alarmStarted (fst (tick tz inp st)) = true /\
  lastTaskKey (fst (tick tz inp st)) = k.
Proof.
  intros (c & dueMs & Hsel & Hk & Hdue & Hr) Ha.
  destruct (tick_eq tz inp st) as [-> _]. unfold tickResult. rewrite Hsel, Hdue.
  cbn [fst snd]. unfold afterTarget.
  replace (dueMs - now inp <=? 0) with false by (symmetry; apply Z.leb_gt; lia).
  rewrite afterAlert_alarm_plays. cbn [afterAlert queued alarmStarted lastTaskKey].
  unfold startsAlarm. rewrite Ha.
  replace (dueMs - now inp <=? 60 * 1000) with true by (symmetry; apply Z.leb_le; lia).
  cbn [andb negb]. repeat split.
  unfold afterReset. destruct (String.eqb (targetKeyOf c) (lastTaskKey st)) eqn:E;
    cbn [negb queued lastTaskKey]; [|exact Hk].
  apply String.eqb_eq in E. congruence.
Qed.

Lemma critical_tick_continues (tz : Z) (k : string) (inp : TickInput) (st : EngineState) :
  criticalOn tz k inp -> alarmStarted st = true -> lastTaskKey st = k ->
  countCalls AlarmPlay (snd (tick tz inp st)) = 0%nat /\
  countCalls AlarmPause (snd (tick tz inp st)) = 0%nat /\
  alarmStarted (fst (tick tz inp st)) = true /\
  lastTaskKey (fst (tick tz inp st)) = k.
Proof.
  intros (c & dueMs & Hsel & Hk & Hdue & Hr) Ha Hl.
  destruct (tick_eq tz inp st) as [-> _]. unfold tickResult. rewrite Hsel, Hdue.
  cbn [fst snd]. unfold afterTarget.
  replace (dueMs - now inp <=? 0) with false by (symmetry; apply Z.leb_gt; lia).
  rewrite afterAlert_alarm_plays. cbn [afterAlert queued calls alarmStarted lastTaskKey].
  unfold startsAlarm, stopsAlarm, afterReset. rewrite Ha, Hk, Hl, String.eqb_refl.
  replace (dueMs - now inp <=? 60 * 1000) with true by (symmetry; apply Z.leb_le; lia).
  cbn [andb negb queued calls alarmStarted lastTaskKey app].
  repeat split; auto.
  rewrite !countCalls_app.
  destruct (firesNotification _ _ _ _ _), (playsChime inp st c dueMs); reflexivity.
Qed.

Lemma critical_run_continues (tz : Z) (k : string) (inps : list TickInput) :
  forall st,
    Forall (criticalOn tz k) inps -> alarmStarted st = true -> lastTaskKey st = k ->
    countCalls AlarmPlay (snd (runTicks tz inps st)) = 0%nat /\
    countCalls AlarmPause (snd (runTicks tz inps st)) = 0%nat /\
    alarmStarted (fst (runTicks tz inps st)) = true.
Proof.
  induction inps as [|inp rest IH]; intros st Hall Ha Hl; [cbn; auto|].
  apply Forall_cons_iff in Hall. destruct Hall as [Hc Hrest].
  cbn [runTicks].
  destruct (critical_tick_continues tz k inp st Hc Ha Hl) as (H1 & H2 & H3 & H4).
  destruct (tick tz inp st) as [st1 es1]. cbn [fst snd] in *.
  destruct (IH st1 Hrest H3 H4) as (I1 & I2 & I3).
  destruct (runTicks tz rest st1) as [st2 es2]. cbn [fst snd] in *.
  rewrite !countCalls_app, H1, H2, I1, I2. auto.
Qed.

(** X5. Over any number of consecutive ticks that track the same target
    within its last minute, beginning with the alarm off, the alarm is
    started exactly once, on the first of them; the later ticks neither
    start it again nor pause it, and the flag is up at the end. *)
Theorem alarm_started_once_in_last_minute (tz : Z) (k : string) (inp : TickInput)
    (rest : list TickInput) (st : EngineState) :
  Forall (criticalOn tz k) (inp :: rest) -> alarmStarted st = false ->
  countCalls AlarmPlay (snd (runTicks tz (inp :: rest) st)) = 1%nat /\
  countCalls AlarmPlay (snd (tick tz inp st)) = 1%nat /\
  countCalls AlarmPause (snd (runTicks tz rest (fst (tick tz inp st)))) = 0%nat /\
  alarmStarted (fst (runTicks tz (inp :: rest) st)) = true.
Proof.
  intros Hall Ha. apply Forall_cons_iff in Hall. destruct Hall as [Hc Hrest].
  cbn [runTicks].
  destruct (critical_tick_starts tz k inp st Hc Ha) as (H1 & H2 & H3).
  destruct (tick tz inp st) as [st1 es1]. cbn [fst snd] in *.
  destruct (critical_run_continues tz k rest st1 Hrest H2 H3) as (I1 & I2 & I3).
  destruct (runTicks tz rest st1) as [st2 es2]. cbn [fst snd] in *.
  rewrite countCalls_app, H1, I1. auto.
Qed.

Lemma criticalOn_exampleA (nowMs : Z) :
  1714564750000 <= nowMs < 1714564810000 ->
  criticalOn 0 "a-2024-05-01T12:00:10.000Z"
             (mkInput nowMs [exampleA] true (Some granted) false).
Proof.
  intros H. exists (toCand 0 exampleA), 1714564810000.
  split; [reflexivity|]. split; [vm_compute; reflexivity|].
  split; [vm_compute; reflexivity|]. cbn [now]. lia.
Qed.

Lemma alarm_started_once_in_last_minute_witness :
  countCalls AlarmPlay
    (snd (runTicks 0 [criticalInput; criticalInput2; criticalInput3] initialState)) = 1%nat /\
  countCalls AlarmPlay (snd (tick 0 criticalInput initialState)) = 1%nat /\
  countCalls AlarmPause
    (snd (runTicks 0 [criticalInput2; criticalInput3]
                   (fst (tick 0 criticalInput initialState)))) = 0%nat /\
  alarmStarted
    (fst (runTicks 0 [criticalInput; criticalInput2; criticalInput3] initialState)) = true.
Proof.
  apply (alarm_started_once_in_last_minute 0 "a-2024-05-01T12:00:10.000Z").
  - repeat constructor; apply criticalOn_exampleA; lia.
  - reflexivity.
Defined.

(** ** The informational outcomes *)

Lemma filter_nil_iff {A} (f : A -> bool) (l : list A) :
  List.filter f l = [] <-> forall x, In x l -> f x = false.
Proof.
  induction l as [|a l IH]; cbn [List.filter].
  - split; [intros _ x []|reflexivity].
  - destruct (f a) eqn:E.
    + split; [discriminate|]. intros H. specialize (H a (or_introl eq_refl)). congruence.
    + rewrite IH. split.
      * intros H x [<-|Hin]; auto.
      * intros H x Hin. apply H. right. exact Hin.
Qed.

(** X6. Which banner a task list gets: the empty banner exactly when every
    task is completed; "No tasks started yet" exactly when some task is not
    completed and none of those has started; and the request for an end date
    exactly when some uncompleted task has started and the due date of every
    such task is the Invalid Date. *)
Theorem informational_outcomes (tz nowMs : Z) (ts : list Task) :
  (selectTarget tz nowMs ts = NoActiveTasks <->
   forall t, In t ts -> completed t = true) /\
  (selectTarget tz nowMs ts = NoneStartedYet <->
   (exists t, In t ts /\ completed t = false) /\
   forall t, In t ts -> completed t = false -> isStarted tz nowMs t = false) /\
  (selectTarget tz nowMs ts = NoDeadlineSet <->
   (exists t, In t ts /\ completed t = false /\ isStarted tz nowMs t = true) /\
   forall t, In t ts -> completed t = false -> isStarted tz nowMs t = true ->
             dueDateTime tz t = Some InvalidDate).
Proof.
  assert (Hact : forall t, In t (activeTasks ts) <-> In t ts /\ completed t = false).
  { intros t. unfold activeTasks. rewrite List.filter_In, negb_true_iff. tauto. }
  assert (Hst : forall t, In t (startedTasks tz nowMs (activeTasks ts)) <->
                          In t ts /\ completed t = false /\ isStarted tz nowMs t = true).
  { intros t. unfold startedTasks. rewrite List.filter_In, Hact. tauto. }
  split; [|split].
  - unfold selectTarget.
    destruct (activeTasks ts) as [|a l] eqn:Ha; cbn [isEmpty].
    + split; [|reflexivity]. intros _ t Hin.
      destruct (completed t) eqn:E; [reflexivity|].
      assert (In t []) by (apply Hact; auto). contradiction.
    + assert (Ht : In a ts /\ completed a = false) by (apply Hact; left; reflexivity).
      split.
      * destruct (startedTasks tz nowMs (a :: l)); cbn [isEmpty]; [discriminate|].
        destruct (candidatesOf tz _); cbn [isEmpty]; [discriminate|].
        destruct (sortBy compareDue _); discriminate.
      * intros H. destruct Ht as [Hin Hc]. rewrite (H a Hin) in Hc. discriminate.
  - unfold selectTarget.
    destruct (activeTasks ts) as [|a l] eqn:Ha; cbn [isEmpty].
    + split; [discriminate|]. intros [(t & Hin & Hc) _].
      assert (In t []) by (apply Hact; auto). contradiction.
    + destruct (startedTasks tz nowMs (a :: l)) as [|b l'] eqn:Hb; cbn [isEmpty].
      * split; [|reflexivity]. intros _. split.
        -- exists a. apply Hact. left. reflexivity.
        -- intros t Hin Hc. destruct (isStarted tz nowMs t) eqn:E; [|reflexivity].
           assert (In t []) by (apply Hst; auto). contradiction.
      * split.
        -- destruct (candidatesOf tz _); cbn [isEmpty]; [discriminate|].
           destruct (sortBy compareDue _); discriminate.
        -- intros [_ H].
           assert (Hin : In b ts /\ completed b = false /\ isStarted tz nowMs b = true)
             by (apply Hst; left; reflexivity).
           destruct Hin as (Hin & Hc & Hs). rewrite (H b Hin Hc) in Hs. discriminate.
  - rewrite NoDeadlineSet_iff. split.
    + intros [Hne Hall]. split.
      * destruct (startedTasks tz nowMs (activeTasks ts)) as [|b l'] eqn:Hb; [congruence|].
        exists b. apply Hst. left. reflexivity.
      * intros t Hin Hc Hs. apply Hall. apply Hst. auto.
    + intros [(t & Hin & Hc & Hs) Hall]. split.
      * intros Hnil. assert (In t []) by (rewrite <- Hnil; apply Hst; auto). contradiction.
      * intros t' Hin'. apply Hst in Hin'. destruct Hin' as (H1 & H2 & H3). auto.
Qed.

(** ** Deleting, completing and editing *)

Lemma deleteTask_fresh (tid : string) (l : list Task) :
  (forall t, In t l -> id t <> tid) -> deleteTask tid l = l.
Proof.
  unfold deleteTask. induction l as [|x l IH]; intros H; cbn [List.filter]; [reflexivity|].
  replace (String.eqb (id x) tid) with false
    by (symmetry; apply String.eqb_neq; apply H; left; reflexivity).
  cbn [negb]. f_equal. apply IH. intros t Hin. apply H. right. exact Hin.
Qed.

(** X7. Deleting the id that [addTask] was given restores the list as it
    was before the submission, whether the task was added, rejected or
    ignored, provided no earlier task had that id. *)
Theorem delete_undoes_add (tz : Z) (newId nowIso : string) (f : AddForm.t)
    (prev : list Task) :
  (forall t, In t prev -> id t <> newId) ->
  deleteTask newId (out_tasks (addTask tz newId nowIso f prev)) = prev.
Proof.
  intros Hfresh. unfold addTask.
  destruct (String.eqb (JS.trim (AddForm.input f)) "");
    [apply deleteTask_fresh; exact Hfresh|].
  destruct (endsBeforeStart _ _); [apply deleteTask_fresh; exact Hfresh|].
  cbn [out_tasks]. unfold deleteTask. rewrite List.filter_app.
  cbn [List.filter id]. rewrite String.eqb_refl. cbn [negb].
  rewrite app_nil_r. apply deleteTask_fresh. exact Hfresh.
Qed.

Lemma delete_undoes_add_witness :
  deleteTask "id" (out_tasks (addTask 0 "id" "2023-12-31T00:00:00.000Z" startOnlyForm
                                      [dailyTask]))
  = [dailyTask].
Proof.
  apply (delete_undoes_add 0 "id" "2023-12-31T00:00:00.000Z" startOnlyForm [dailyTask]).
  intros t [<-|[]]. vm_compute. discriminate.
Defined.

Lemma flipCompleted_involutive (t : Task) : flipCompleted (flipCompleted t) = t.
Proof. destruct t as [i ti c sd st ed et r ca]. unfold flipCompleted. cbn. rewrite negb_involutive. reflexivity. Qed.

Lemma toggle_map_flip (tid : string) (l : list Task) :
  List.map (fun t => if String.eqb (id t) tid
                     then {| id := id t; title := title t;
                             completed := negb (completed t);
                             startDate := startDate t; startTime := startTime t;
                             endDate := endDate t; endTime := endTime t;
                             recurrence := recurrence t; createdAt := createdAt t |}
                     else t) l
  = List.map (fun t => if String.eqb (id t) tid then flipCompleted t else t) l.
Proof. reflexivity. Qed.

Lemma find_map_flip (tid : string) (l : list Task) :
  List.find (fun tt => String.eqb (id tt) tid)
            (List.map (fun t => if String.eqb (id t) tid then flipCompleted t else t) l)
  = option_map flipCompleted (List.find (fun tt => String.eqb (id tt) tid) l).
Proof.
  induction l as [|x l IH]; cbn [List.map List.find option_map]; [reflexivity|].
  destruct (String.eqb (id x) tid) eqn:E.
  - cbn [flipCompleted id]. rewrite E. reflexivity.
  - rewrite E. exact IH.
Qed.

Lemma map_flip_twice (tid : string) (l : list Task) :
  List.map (fun t => if String.eqb (id t) tid then flipCompleted t else t)
           (List.map (fun t => if String.eqb (id t) tid then flipCompleted t else t) l)
  = l.
Proof.
  induction l as [|x l IH]; cbn [List.map]; [reflexivity|].
  rewrite IH. f_equal.
  destruct (String.eqb (id x) tid) eqn:E.
  - cbn [flipCompleted id]. rewrite E. apply flipCompleted_involutive.
  - rewrite E. reflexivity.
Qed.

(** X8. Toggling an id that no task has leaves the list as it is, and
    toggling a completed task back never adds a task nor throws: the list
    keeps its length and only completion flags change. *)
Theorem toggle_without_successor (tz : Z) (newId nowIso tid : string) (prev : list Task) :
  (List.find (fun tt => String.eqb (id tt) tid) prev = None ->
   toggleTask tz newId nowIso tid prev = Some prev) /\
  (forall t, List.find (fun tt => String.eqb (id tt) tid) prev = Some t ->
             completed t = true ->
             toggleTask tz newId nowIso tid prev
             = Some (List.map (fun t => if String.eqb (id t) tid
                                        then flipCompleted t else t) prev)).
Proof.
  unfold toggleTask. rewrite toggle_map_flip, find_map_flip. split.
  - intros Hnone. rewrite Hnone. cbn [option_map]. f_equal.
    induction prev as [|x l IH]; cbn [List.map]; [reflexivity|].
    cbn [List.find] in Hnone. destruct (String.eqb (id x) tid); [discriminate|].
    f_equal. apply IH. exact Hnone.
  - intros t Hfind Hc. rewrite Hfind. cbn [option_map flipCompleted completed].
    rewrite Hc. reflexivity.
Qed.

(** X9. Completing a task and then toggling it back restores every task
    that was in the list; what stays is at most one task, the successor the
    completion appended. The second toggle never throws. *)
Theorem complete_then_undo (tz : Z) (newId nowIso newId2 nowIso2 tid : string)
    (prev l1 : list Task) (t : Task) :
  List.find (fun tt => String.eqb (id tt) tid) prev = Some t ->
  completed t = false ->
  newId <> tid ->
  toggleTask tz newId nowIso tid prev = Some l1 ->
  exists successor : list Task,
    (List.length successor <= 1)%nat /\
    Forall (fun s => id s = newId /\ completed s = false /\ title s = title t) successor /\
    toggleTask tz newId2 nowIso2 tid l1 = Some (prev ++ successor)%list.
Proof.
  intros Hfind Hc Hne Ht.
  set (flip := fun t => if String.eqb (id t) tid then flipCompleted t else t) in *.
  assert (Hsecond : forall extra : list Task,
             Forall (fun s => id s = newId) extra ->
             toggleTask tz newId2 nowIso2 tid (List.map flip prev ++ extra)
             = Some (prev ++ extra)%list).
  { intros extra Hex. unfold toggleTask. rewrite toggle_map_flip. fold flip.
    assert (Hmap : List.map flip (List.map flip prev ++ extra) = (prev ++ extra)%list).
    { rewrite List.map_app. unfold flip at 1 2. rewrite map_flip_twice. f_equal.
      induction Hex as [|s l Hs _ IH]; cbn [List.map]; [reflexivity|].
      rewrite IH. f_equal. unfold flip. rewrite Hs.
      replace (String.eqb newId tid) with false
        by (symmetry; apply String.eqb_neq; exact Hne).
      reflexivity. }
    rewrite Hmap.
    assert (Hf : List.find (fun tt => String.eqb (id tt) tid) (prev ++ extra) = Some t).
    { clear - Hfind. induction prev as [|x l IH]; cbn [List.find app] in *; [discriminate|].
      destruct (String.eqb (id x) tid); [exact Hfind|apply IH; exact Hfind]. }
    rewrite Hf, Hc. reflexivity. }
  unfold toggleTask in Ht. rewrite toggle_map_flip in Ht. fold flip in Ht.
  unfold flip in Ht at 1. rewrite find_map_flip, Hfind in Ht. fold flip in Ht.
  cbn [option_map flipCompleted completed recurrence startDate endDate startTime
       endTime title] in Ht.
  rewrite Hc in Ht. cbn [negb] in Ht.
  destruct (isRecurring (recurrence t)) as [rule|].
  - destruct (nextByRecurrence tz (startDate t) rule) as [ns|]; [|discriminate].
    destruct (nextByRecurrence tz (JS.or (endDate t) (startDate t)) rule) as [ne|];
      [|discriminate].
    destruct (JS.truthy ns || JS.truthy ne); injection Ht as <-.
    + eexists [_]. split; [cbn; lia|]. split; [|apply Hsecond; repeat constructor].
      repeat constructor.
    + exists []. split; [cbn; lia|]. split; [constructor|].
      rewrite <- (app_nil_r (List.map flip prev)). apply Hsecond. constructor.
  - injection Ht as <-. exists []. split; [cbn; lia|]. split; [constructor|].
    rewrite <- (app_nil_r (List.map flip prev)). apply Hsecond. constructor.
Qed.

Lemma complete_then_undo_witness :
  exists successor : list Task,
    (List.length successor <= 1)%nat /\
    Forall (fun s => id s = "n1" /\ completed s = false /\ title s = title dailyTask)
           successor /\
    toggleTask 0 "n2" "2024-02-01T00:00:00.000Z" "r"
      [flipCompleted dailyTask;
       mkTask "n1" "Run" false (Some "2024-02-01") (Some "07:00") (Some "2024-02-01") None
              (Some daily) (Some "2024-01-31T08:00:00.000Z")]
    = Some ([dailyTask] ++ successor)%list.
Proof.
  apply (complete_then_undo 0 "n1" "2024-01-31T08:00:00.000Z" "n2"
           "2024-02-01T00:00:00.000Z" "r" [dailyTask] _ dailyTask).
  - reflexivity.
  - reflexivity.
  - discriminate.
  - vm_compute. reflexivity.
Defined.

(** X10. [saveEdit] never adds, removes or reorders tasks and never
    changes an id, a completion flag or a creation stamp; a task whose id is
    not the one being edited is left exactly as it was. *)
Theorem saveEdit_keeps_the_list (tz : Z) (f : EditForm.t) (prev : list Task) :
  Forall2 (fun old new =>
             id new = id old /\ completed new = completed old /\
             createdAt new = createdAt old /\
             (EditForm.editingId f <> Some (id old) -> new = old))
          prev (out_tasks (saveEdit tz f prev)).
Proof.
  assert (Hsame : Forall2 (fun old new : Task =>
             id new = id old /\ completed new = completed old /\
             createdAt new = createdAt old /\
             (EditForm.editingId f <> Some (id old) -> new = old)) prev prev).
  { induction prev as [|x l IH]; constructor; auto. }
  unfold saveEdit.
  destruct (EditForm.editingId f) as [eid|] eqn:He; [|exact Hsame].
  destruct (String.eqb eid ""); [exact Hsame|].
  destruct (endsBeforeStart _ _); [exact Hsame|].
  cbn [out_tasks]. clear Hsame.
  induction prev as [|x l IH]; cbn [List.map]; constructor; [|exact IH].
  destruct (String.eqb (id x) eid) eqn:E; [|auto].
  cbn [id completed createdAt]. repeat split.
  intros Hn. apply String.eqb_eq in E. congruence.
Qed.

(** ** Titles and the shape of stored tasks *)

Lemma trimStart_head_fuel (n : nat) (s : string) :
  (String.length s <= n)%nat -> headNotSpace (JS.trimStart s).
Proof.
  revert s. induction n as [|n IH]; intros s Hn.
  - destruct s; [exact I|cbn in Hn; lia].
  - destruct s as [|c1 s1]; [exact I|]. cbn [String.length] in Hn.
    cbn [JS.trimStart].
    destruct (JS.isSpace c1) eqn:E1; [apply IH; lia|].
    destruct s1 as [|c2 s2]; [cbn; auto|]. cbn [String.length] in Hn.
    destruct (JS.isSpace2 c1 c2) eqn:E2; [apply IH; lia|].
    destruct s2 as [|c3 s3]; [cbn; auto|]. cbn [String.length] in Hn.
    destruct (JS.isSpace3 c1 c2 c3) eqn:E3; [apply IH; lia|].
    cbn. auto.
Qed.

Lemma trimStart_head (s : string) : headNotSpace (JS.trimStart s).
Proof. apply (trimStart_head_fuel (String.length s)). lia. Qed.

Lemma trimStart_fixed (s : string) : headNotSpace s -> JS.trimStart s = s.
Proof.
  destruct s as [|c1 [|c2 [|c3 s3]]]; cbn [headNotSpace JS.trimStart].
  - reflexivity.
  - intros [-> _]. reflexivity.
  - intros [-> [-> _]]. reflexivity.
  - intros [-> [-> ->]]. reflexivity.
Qed.

Lemma trimEnd_cons (c : ascii) (s : string) :
  JS.trimEnd (String c s) = "" \/ JS.trimEnd (String c s) = String c (JS.trimEnd s).
Proof.
  cbn [JS.trimEnd]. destruct (String.eqb (JS.trimStart (String c s)) ""); auto.
Qed.

Lemma trimEnd_solid (c : ascii) (s : string) :
  JS.trimStart (String c s) <> "" -> JS.trimEnd (String c s) = String c (JS.trimEnd s).
Proof.
  intros H. cbn [JS.trimEnd]. apply String.eqb_neq in H. rewrite H. reflexivity.
Qed.

Lemma trimEnd_head (s : string) : headNotSpace s -> headNotSpace (JS.trimEnd s).
Proof.
  intros H. destruct s as [|c1 s1]; [exact I|].
  rewrite trimEnd_solid by (rewrite (trimStart_fixed _ H); discriminate).
  destruct H as [H1 H]. split; [exact H1|].
  destruct s1 as [|c2 s2]; [exact I|].
  destruct (trimEnd_cons c2 s2) as [->| ->]; [exact I|].
  destruct H as [H2 H]. split; [exact H2|].
  destruct s2 as [|c3 s3]; [exact I|].
  destruct (trimEnd_cons c3 s3) as [->| ->]; [exact I|exact H].
Qed.

Lemma cont_head (c : ascii) (s : string) : isCont c -> headNotSpace (String c s).
Proof.
  unfold isCont. intros H. cbn [headNotSpace].
  assert (H1 : JS.isSpace c = false).
  { unfold JS.isSpace. cbv zeta.
    repeat (apply orb_false_iff; split); apply N.eqb_neq; lia. }
  split; [exact H1|]. destruct s as [|c2 s2]; [exact I|].
  split.
  { unfold JS.isSpace2. apply andb_false_iff. left. apply N.eqb_neq. lia. }
  destruct s2 as [|c3 s3]; [exact I|].
  unfold JS.isSpace3. cbv zeta.
  replace (N.eqb (N_of_ascii c) 225) with false by (symmetry; apply N.eqb_neq; lia).
  replace (N.eqb (N_of_ascii c) 226) with false by (symmetry; apply N.eqb_neq; lia).
  replace (N.eqb (N_of_ascii c) 227) with false by (symmetry; apply N.eqb_neq; lia).
  replace (N.eqb (N_of_ascii c) 239) with false by (symmetry; apply N.eqb_neq; lia).
  reflexivity.
Qed.

Lemma isSpace2_cont (c1 c2 : ascii) : JS.isSpace2 c1 c2 = true -> isCont c2.
Proof.
  unfold JS.isSpace2, isCont. intros H. apply andb_true_iff in H. destruct H as [_ H].
  apply N.eqb_eq in H. lia.
Qed.

Lemma isSpace3_cont (c1 c2 c3 : ascii) :
  JS.isSpace3 c1 c2 c3 = true -> isCont c2 /\ isCont c3.
Proof.
  unfold JS.isSpace3, isCont. cbv zeta. intros H.
  repeat match type of H with
         | (_ || _)%bool = true => apply orb_true_iff in H; destruct H as [H|H]
         end;
    repeat match goal with
           | H : (_ && _)%bool = true |- _ => apply andb_true_iff in H; destruct H
           | H : (_ || _)%bool = true |- _ => apply orb_true_iff in H; destruct H
           end;
    repeat match goal with
           | H : N.eqb _ _ = true |- _ => apply N.eqb_eq in H
           | H : N.leb _ _ = true |- _ => apply N.leb_le in H
           end; lia.
Qed.

Lemma cont_solid (c : ascii) (s : string) : isCont c -> JS.trimStart (String c s) <> "".
Proof.
  intros H. rewrite (trimStart_fixed _ (cont_head c s H)). discriminate.
Qed.

(** A text that is not all white space is not so after [trimEnd]. *)
Lemma trimEnd_not_blank_fuel (n : nat) (s : string) :
  (String.length s <= n)%nat ->
  JS.trimStart s <> "" -> JS.trimStart (JS.trimEnd s) <> "".
Proof.
  revert s. induction n as [|n IH]; intros s Hn Hs.
  - destruct s; [exact Hs|cbn in Hn; lia].
  - destruct s as [|c1 s1]; [exact Hs|]. cbn [String.length] in Hn.
    rewrite (trimEnd_solid c1 s1 Hs).
    cbn [JS.trimStart] in Hs |- *.
    destruct (JS.isSpace c1) eqn:E1; [apply IH; [lia|exact Hs]|].
    destruct s1 as [|c2 s2]; [cbn; discriminate|].
    cbn [String.length] in Hn.
    destruct (JS.isSpace2 c1 c2) eqn:E2.
    { rewrite (trimEnd_solid c2 s2 (cont_solid c2 s2 (isSpace2_cont _ _ E2))).
      rewrite E2. apply IH; [lia|exact Hs]. }
    destruct (trimEnd_cons c2 s2) as [->| ->]; [discriminate|].
    rewrite E2.
    destruct s2 as [|c3 s3]; [cbn; discriminate|].
    cbn [String.length] in Hn.
    destruct (JS.isSpace3 c1 c2 c3) eqn:E3.
    { destruct (isSpace3_cont _ _ _ E3) as [_ H3].
      rewrite (trimEnd_solid c3 s3 (cont_solid c3 s3 H3)).
      rewrite E3. apply IH; [lia|exact Hs]. }
    destruct (trimEnd_cons c3 s3) as [->| ->]; [discriminate|].
    rewrite E3. discriminate.
Qed.

Lemma trimEnd_idempotent (s : string) : JS.trimEnd (JS.trimEnd s) = JS.trimEnd s.
Proof.
  induction s as [|c s IH]; [reflexivity|].
  destruct (String.eqb (JS.trimStart (String c s)) "") eqn:E.
  - cbn [JS.trimEnd]. rewrite E. reflexivity.
  - apply String.eqb_neq in E.
    pose proof (trimEnd_not_blank_fuel (String.length (String c s)) _ (le_n _) E) as H.
    rewrite (trimEnd_solid c s E) in H |- *.
    rewrite (trimEnd_solid _ _ H), IH. reflexivity.
Qed.

Lemma trim_idempotent (s : string) : JS.trim (JS.trim s) = JS.trim s.
Proof.
  unfold JS.trim.
  rewrite (trimStart_fixed (JS.trimEnd (JS.trimStart s)))
    by (apply trimEnd_head, trimStart_head).
  apply trimEnd_idempotent.
Qed.

Lemma orUndefined_not_empty (x : string) : JS.orUndefined x <> Some "".
Proof.
  unfold JS.orUndefined. destruct (String.eqb x "") eqn:E; [discriminate|].
  apply String.eqb_neq in E. congruence.
Qed.

(** X11. Every task [addTask] stores has the shape of a written task: its
    title is trimmed and not blank, its optional fields are absent rather
    than empty, it has an end date whenever it has a start date, and it has
    a recurrence. *)
Theorem added_task_is_well_formed (tz : Z) (newId nowIso : string) (f : AddForm.t)
    (prev : list Task) :
  newId <> "" ->
  out_tasks (addTask tz newId nowIso f prev) = prev \/
  exists t, out_tasks (addTask tz newId nowIso f prev) = (prev ++ [t])%list /\
            id t = newId /\ completed t = false /\ writtenByForm t.
Proof.
  intros Hid. unfold addTask.
  destruct (String.eqb (JS.trim (AddForm.input f)) "") eqn:Et; [left; reflexivity|].
  destruct (endsBeforeStart _ _); [left; reflexivity|].
  right. eexists. split; [reflexivity|]. split; [reflexivity|]. split; [reflexivity|].
  apply String.eqb_neq in Et.
  constructor; cbn [id title startDate startTime endDate endTime recurrence].
  - exact Hid.
  - split; [apply trim_idempotent|exact Et].
  - apply orUndefined_not_empty.
  - apply orUndefined_not_empty.
  - unfold JS.or, JS.truthy. destruct (String.eqb (AddForm.endDate f) "") eqn:E; cbn [negb].
    + apply orUndefined_not_empty.
    + apply String.eqb_neq in E. congruence.
  - apply orUndefined_not_empty.
  - unfold JS.or, JS.truthy, JS.orUndefined.
    destruct (String.eqb (AddForm.startDate f) ""); [congruence|].
    destruct (String.eqb (AddForm.endDate f) ""); cbn [negb]; discriminate.
  - discriminate.
Qed.

Lemma added_task_is_well_formed_witness :
  out_tasks (addTask 0 "id" "2023-12-31T00:00:00.000Z" startOnlyForm []) = [] \/
  exists t, out_tasks (addTask 0 "id" "2023-12-31T00:00:00.000Z" startOnlyForm [])
            = ([] ++ [t])%list /\
            id t = "id" /\ completed t = false /\ writtenByForm t.
Proof.
  apply (added_task_is_well_formed 0 "id" "2023-12-31T00:00:00.000Z" startOnlyForm []).
  discriminate.
Defined.

Lemma orUndefined_orStr (o : option string) :
  o <> Some "" -> JS.orUndefined (JS.orStr o "") = o.
Proof.
  unfold JS.orUndefined, JS.orStr. destruct o as [s|]; [|reflexivity].
  intros H. destruct (String.eqb s "") eqn:E.
  - apply String.eqb_eq in E. congruence.
  - rewrite E. reflexivity.
Qed.

(** X12. Opening a written task for editing and saving it without a change
    leaves the task list exactly as it was (the save is either applied
    without effect or refused), provided the tasks that share its id are
    that task. *)
Theorem edit_without_change_keeps_list (tz : Z) (t : Task) (prev : list Task) :
  writtenByForm t ->
  (forall t', In t' prev -> id t' = id t -> t' = t) ->
  out_tasks (saveEdit tz (startEdit t) prev) = prev.
Proof.
  intros [Hid [Htrim Hti] Hsd Hst Hed Het Hes Hrec] Huniq.
  unfold saveEdit, startEdit. cbn [EditForm.editingId EditForm.editInput
    EditForm.editStartDate EditForm.editStartTime EditForm.editEndDate
    EditForm.editEndTime EditForm.editRecurrence].
  replace (String.eqb (id t) "") with false by (symmetry; apply String.eqb_neq; exact Hid).
  destruct (endsBeforeStart _ _); [reflexivity|].
  cbn [out_tasks EditForm.editInput EditForm.editStartDate EditForm.editStartTime
       EditForm.editEndDate EditForm.editEndTime EditForm.editRecurrence].
  induction prev as [|x l IH]; cbn [List.map]; [reflexivity|].
  rewrite IH by (intros t' Hin; apply Huniq; right; exact Hin). f_equal.
  destruct (String.eqb (id x) (id t)) eqn:E; [|reflexivity].
  apply String.eqb_eq in E.
  rewrite (Huniq x (or_introl eq_refl) E).
  rewrite !orUndefined_orStr by assumption. rewrite Htrim.
  replace (JS.orStr (Some (title t)) (title t)) with (title t)
    by (unfold JS.orStr; destruct (String.eqb (title t) ""); reflexivity).
  assert (Hend : JS.or (Some (JS.orStr (endDate t) "")) (startDate t) = endDate t).
  { unfold JS.or, JS.truthy, JS.orStr. destruct (endDate t) as [e|] eqn:Ee.
    - destruct (String.eqb e "") eqn:E1.
      + apply String.eqb_eq in E1. congruence.
      + rewrite E1. reflexivity.
    - cbn. destruct (startDate t); [exfalso; apply Hes; congruence|reflexivity]. }
  rewrite Hend.
  destruct t as [i ti c sd st0 ed et r ca]. cbn in *.
  destruct r as [r|]; [reflexivity|congruence].
Qed.

Lemma dailyTask_written : writtenByForm dailyTask.
Proof.
  constructor; cbn; try discriminate.
  - split; [reflexivity|discriminate].
Qed.

Lemma edit_without_change_keeps_list_witness :
  out_tasks (saveEdit 0 (startEdit dailyTask) [undatedTask; dailyTask])
  = [undatedTask; dailyTask].
Proof.
  apply (edit_without_change_keeps_list 0 dailyTask [undatedTask; dailyTask]).
  - exact dailyTask_written.
  - intros t' [<-|[<-|[]]]; [discriminate|reflexivity].
Defined.

(** ** Import *)

Lemma NoDup_app_disjoint {A} (l1 l2 : list A) :
  List.NoDup (l1 ++ l2) -> forall a, In a l1 -> In a l2 -> False.
Proof.
  induction l1 as [|x l1 IH]; cbn [app]; intros Hnd a Hin1 Hin2; [destruct Hin1|].
  apply List.NoDup_cons_iff in Hnd. destruct Hnd as [Hx Hnd].
  destruct Hin1 as [<-|Hin1].
  - apply Hx. apply in_or_app. right. exact Hin2.
  - exact (IH Hnd a Hin1 Hin2).
Qed.

Lemma mapSet_In (k : string) (v : Task) (m : list (string * Task)) (e : string * Task) :
  List.NoDup (List.map fst m) ->
  (In e (mapSet k v m) <-> e = (k, v) \/ (fst e <> k /\ In e m)).
Proof.
  induction m as [|[k' v'] m IH]; cbn [mapSet List.map fst]; intros Hnd.
  - cbn. split; [intros [<-|[]]; auto|intros [->|[_ []]]; auto].
  - apply List.NoDup_cons_iff in Hnd. destruct Hnd as [Hk' Hnd].
    destruct (String.eqb k' k) eqn:E.
    + apply String.eqb_eq in E. subst k'. cbn [In]. split.
      * intros [<-|Hin]; [auto|]. right. split; [|auto].
        intros He. apply Hk'. rewrite <- He. apply List.in_map. exact Hin.
      * intros [->|[Hne [<-|Hin]]]; auto. cbn in Hne. congruence.
    + apply String.eqb_neq in E. cbn [In]. rewrite (IH Hnd). split.
      * intros [<-|[->|[Hne Hin]]]; auto.
      * intros [->|[Hne [<-|Hin]]]; auto.
Qed.

Lemma mapSet_keys (k : string) (v : Task) (m : list (string * Task)) :
  List.map fst (mapSet k v m)
  = if List.existsb (String.eqb k) (List.map fst m)
    then List.map fst m else (List.map fst m ++ [k])%list.
Proof.
  induction m as [|[k' v'] m IH]; cbn [mapSet List.map fst List.existsb]; [reflexivity|].
  rewrite (String.eqb_sym k k').
  destruct (String.eqb k' k); cbn [orb List.map fst]; [reflexivity|].
  rewrite IH. destruct (List.existsb _ _); reflexivity.
Qed.

Lemma existsb_eqb_In (k : string) (l : list string) :
  List.existsb (String.eqb k) l = true <-> In k l.
Proof.
  rewrite List.existsb_exists. split.
  - intros (x & Hin & E). apply String.eqb_eq in E. subst. exact Hin.
  - intros Hin. exists k. split; [exact Hin|apply String.eqb_refl].
Qed.

Lemma mapSet_keyed (t : Task) (m : list (string * Task)) :
  keyedById m -> keyedById (mapSet (id t) t m).
Proof.
  intros [Hnd Hid]. split.
  - rewrite mapSet_keys. destruct (List.existsb _ _) eqn:E; [exact Hnd|].
    apply List.NoDup_app; [exact Hnd|repeat constructor; intros []|].
    intros k Hin [<-|[]]. apply existsb_eqb_In in Hin. congruence.
  - apply List.Forall_forall. intros e He. apply (mapSet_In _ _ _ _ Hnd) in He.
    destruct He as [->|[_ Hin]]; [reflexivity|].
    rewrite List.Forall_forall in Hid. apply Hid. exact Hin.
Qed.

Lemma setAll_keyed (l : list Task) :
  forall m, keyedById m -> keyedById (setAll l m).
Proof.
  unfold setAll. induction l as [|t l IH]; intros m Hm; cbn [List.fold_left]; [exact Hm|].
  apply IH. apply mapSet_keyed. exact Hm.
Qed.

Lemma setAll_In (l : list Task) :
  forall m e, keyedById m ->
    (In e (setAll l m) <->
     (fst e = id (snd e) /\ lastWithId (snd e) l) \/
     (In e m /\ forall t, In t l -> id t <> fst e)).
Proof.
  unfold setAll. induction l as [|t l IH]; intros m e Hm; cbn [List.fold_left].
  - split.
    + intros Hin. right. split; [exact Hin|intros t []].
    + intros [[_ (l1 & l2 & H & _)]|[Hin _]]; [|exact Hin].
      destruct l1; discriminate.
  - rewrite (IH _ e (mapSet_keyed t m Hm)). rewrite (mapSet_In _ _ _ _ (proj1 Hm)). split.
    + intros [[He (l1 & l2 & -> & Hl2)] | [[->|[Hne Hin]] Hno]].
      * left. split; [exact He|]. exists (t :: l1), l2. split; [reflexivity|exact Hl2].
      * left. cbn [fst snd] in *. split; [reflexivity|].
        exists [], l. split; [reflexivity|]. intros t' Hin. apply Hno. exact Hin.
      * right. split; [exact Hin|]. intros t' [<-|Hin']; [congruence|]. apply Hno. exact Hin'.
    + intros [[He (l1 & l2 & Heq & Hl2)] | [Hin Hno]].
      * destruct l1 as [|x l1]; cbn [app] in Heq; injection Heq as -> ->.
        -- right. split; [left; destruct e; cbn in *; congruence|].
           intros t' Hin. rewrite He. apply Hl2. exact Hin.
        -- left. split; [exact He|]. exists l1, l2. split; [reflexivity|exact Hl2].
      * right. split.
        -- right. split; [|exact Hin]. intros Hk. apply (Hno t (or_introl eq_refl)).
           symmetry. exact Hk.
        -- intros t' Hin'. apply Hno. right. exact Hin'.
Qed.

Lemma keyedById_nil : keyedById [].
Proof. split; constructor. Qed.

Lemma keyed_ids (m : list (string * Task)) :
  keyedById m -> List.map id (List.map snd m) = List.map fst m.
Proof.
  intros [_ Hid]. induction Hid as [|e l He _ IH]; cbn [List.map]; [reflexivity|].
  rewrite He, IH. reflexivity.
Qed.

(** X13. After an import no two tasks of the list share an id, whatever
    the list and the imported array held. *)
Theorem import_ids_distinct (tasks data : list Task) :
  List.NoDup (List.map id (mergeImported tasks data)).
Proof.
  unfold mergeImported.
  pose proof (setAll_keyed (tasks ++ data) [] keyedById_nil) as Hk.
  rewrite (keyed_ids _ Hk). exact (proj1 Hk).
Qed.

(** X14. The list after an import holds, for every id of the old list or
    of the imported array, exactly the last task with that id, the old list
    read before the array: an imported task replaces the task of the same
    id, and of two tasks with one id the later one is kept. *)
Theorem import_keeps_last_of_each_id (tasks data : list Task) (t : Task) :
  In t (mergeImported tasks data) <-> lastWithId t (tasks ++ data)%list.
Proof.
  unfold mergeImported. rewrite List.in_map_iff. split.
  - intros ((k & v) & <- & Hin). cbn [snd].
    apply (setAll_In _ _ _ keyedById_nil) in Hin.
    destruct Hin as [[_ H]|[[] _]]. exact H.
  - intros H. exists (id t, t). split; [reflexivity|].
    apply (setAll_In _ _ _ keyedById_nil). left. split; [reflexivity|exact H].
Qed.

Lemma setAll_keys_prefix (l : list Task) :
  forall m, exists added, List.map fst (setAll l m) = (List.map fst m ++ added)%list.
Proof.
  unfold setAll. induction l as [|t l IH]; intros m; cbn [List.fold_left].
  - exists []. rewrite app_nil_r. reflexivity.
  - destruct (IH (mapSet (id t) t m)) as (added & ->). rewrite mapSet_keys.
    destruct (List.existsb _ _); [exists added; reflexivity|].
    exists (id t :: added). rewrite <- List.app_assoc. reflexivity.
Qed.

Lemma setAll_distinct (l : list Task) :
  forall m, keyedById m ->
    List.NoDup (List.map fst m ++ List.map id l) ->
    setAll l m = (m ++ List.map (fun t => (id t, t)) l)%list.
Proof.
  unfold setAll. induction l as [|t l IH]; intros m Hm Hnd; cbn [List.fold_left List.map].
  - rewrite app_nil_r. reflexivity.
  - assert (Hset : mapSet (id t) t m = (m ++ [(id t, t)])%list).
    { assert (Hnot : ~ In (id t) (List.map fst m)).
      { intros Hin. apply (NoDup_app_disjoint _ _ Hnd (id t) Hin). left. reflexivity. }
      clear - Hnot. induction m as [|[k v] m IH]; cbn [mapSet app]; [reflexivity|].
      cbn [List.map fst In] in Hnot.
      destruct (String.eqb k (id t)) eqn:E.
      - apply String.eqb_eq in E. exfalso. apply Hnot. left. exact E.
      - rewrite IH; [reflexivity|]. intros H. apply Hnot. right. exact H. }
    rewrite Hset. rewrite IH.
    + rewrite <- List.app_assoc. reflexivity.
    + rewrite <- Hset. apply mapSet_keyed. exact Hm.
    + rewrite List.map_app. cbn [List.map fst]. rewrite <- List.app_assoc. exact Hnd.
Qed.

(** X15. When the ids of the list are distinct, an import keeps every id
    of the list at its place and adds the new ids after them; importing an
    empty array changes nothing. *)
Theorem import_keeps_order (tasks data : list Task) :
  List.NoDup (List.map id tasks) ->
  (exists added, List.map id (mergeImported tasks data) = (List.map id tasks ++ added)%list)
  /\ mergeImported tasks [] = tasks.
Proof.
  intros Hnd.
  assert (Htasks : setAll tasks [] = List.map (fun t => (id t, t)) tasks)
    by (apply (setAll_distinct tasks [] keyedById_nil); exact Hnd).
  split.
  - unfold mergeImported.
    pose proof (setAll_keyed (tasks ++ data) [] keyedById_nil) as Hk.
    rewrite (keyed_ids _ Hk).
    unfold setAll in *. rewrite List.fold_left_app, Htasks.
    destruct (setAll_keys_prefix data (List.map (fun t => (id t, t)) tasks)) as (added & H).
    unfold setAll in H. rewrite H. exists added. f_equal.
    rewrite List.map_map. reflexivity.
  - unfold mergeImported. rewrite app_nil_r, Htasks, List.map_map. apply List.map_id.
Qed.

Lemma import_keeps_order_witness :
  (exists added,
     List.map id (mergeImported [undatedTask; dailyTask] [importedTask; exampleA])
     = (List.map id [undatedTask; dailyTask] ++ added)%list)
  /\ mergeImported [undatedTask; dailyTask] [] = [undatedTask; dailyTask].
Proof.
  apply (import_keeps_order [undatedTask; dailyTask] [importedTask; exampleA]).
  repeat constructor; cbn; intuition discriminate.
Defined.

(** * The visible list *)

Section SortFacts.
Context {A : Type} (cmp : A -> A -> Z).

Lemma insertBy_perm (x : A) (l : list A) : Permutation (insertBy cmp x l) (x :: l).
Proof.
  induction l as [|y l IH]; cbn [insertBy]; [reflexivity|].
  destruct (cmp x y <=? 0); [reflexivity|].
  rewrite IH. apply perm_swap.
Qed.

Lemma sortBy_perm (l : list A) : Permutation (sortBy cmp l) l.
Proof.
  induction l as [|x l IH]; [reflexivity|].
  unfold sortBy in *. cbn [List.fold_right].
  rewrite insertBy_perm. apply perm_skip, IH.
Qed.

Variable P : A -> Prop.
Hypothesis cmp_total : forall a b, P a -> P b -> 0 < cmp a b -> cmp b a <= 0.
Hypothesis cmp_trans : forall a b c, P a -> P b -> P c ->
  cmp a b <= 0 -> cmp b c <= 0 -> cmp a c <= 0.

Lemma insertBy_sorted (x : A) (l : list A) :
  P x -> List.Forall P l ->
  StronglySorted (fun a b => cmp a b <= 0) l ->
  StronglySorted (fun a b => cmp a b <= 0) (insertBy cmp x l).
Proof.
  intros Px Pl Hs. induction l as [|y l IH]; cbn [insertBy].
  - constructor; constructor.
  - apply List.Forall_cons_iff in Pl. destruct Pl as [Py Pl].
    apply StronglySorted_inv in Hs. destruct Hs as [Hs Hy].
    destruct (cmp x y <=? 0) eqn:E.
    + apply Z.leb_le in E. constructor.
      * constructor; assumption.
      * constructor; [exact E|].
        rewrite List.Forall_forall in *. intros z Hz.
        apply (cmp_trans x y z); auto.
    + apply Z.leb_gt in E. constructor.
      * apply IH; assumption.
      * rewrite List.Forall_forall in *. intros z Hz.
        apply In_insertBy in Hz. destruct Hz as [->|Hz]; [|auto].
        apply cmp_total; assumption.
Qed.

Lemma sortBy_sorted (l : list A) :
  List.Forall P l -> StronglySorted (fun a b => cmp a b <= 0) (sortBy cmp l).
Proof.
  induction l as [|x l IH]; intros Pl.
  - constructor.
  - apply List.Forall_cons_iff in Pl. destruct Pl as [Px Pl].
    unfold sortBy in *. cbn [List.fold_right].
    apply insertBy_sorted; [exact Px| |apply IH; exact Pl].
    rewrite List.Forall_forall in *. intros z Hz.
    apply Pl. apply (In_sortBy cmp z l). exact Hz.
Qed.

End SortFacts.

Lemma sorted_in_order {A} (R : A -> A -> Prop) (l l1 l2 l3 : list A) (a b : A) :
  StronglySorted R l -> l = (l1 ++ a :: l2 ++ b :: l3)%list -> R a b.
Proof.
  intros Hs. revert l1. induction Hs as [|c l Hs IH Hc]; intros l1 E.
  - destruct l1; discriminate.
  - destruct l1 as [|c' l1]; cbn in E; injection E as -> ->.
    + rewrite List.Forall_forall in Hc. apply Hc.
      apply List.in_or_app. right. left. reflexivity.
    + apply (IH l1). reflexivity.
Qed.

Lemma sorted_filter {A} (R : A -> A -> Prop) (f : A -> bool) (l : list A) :
  StronglySorted R l -> StronglySorted R (List.filter f l).
Proof.
  induction 1 as [|c l Hs IH Hc]; cbn [List.filter]; [constructor|].
  destruct (f c); [|exact IH].
  constructor; [exact IH|].
  rewrite List.Forall_forall in *. intros z Hz.
  apply List.filter_In in Hz. apply Hc, Hz.
Qed.

(** Sorting by completion is a stable partition: the uncompleted tasks in
    their order, then the completed ones in theirs. *)
Lemma insertBy_completed (x : Task) (l1 l2 : list Task) :
  List.Forall (fun t => completed t = false) l1 ->
  List.Forall (fun t => completed t = true) l2 ->
  insertBy compareCompleted x (l1 ++ l2)%list =
  if completed x then (l1 ++ x :: l2)%list else (x :: l1 ++ l2)%list.
Proof.
  intros H1 H2. destruct (completed x) eqn:Cx.
  - induction l1 as [|y l1 IH]; cbn [app insertBy].
    + destruct l2 as [|y l2]; [reflexivity|]. cbn [insertBy].
      apply List.Forall_cons_iff in H2. destruct H2 as [Cy _].
      unfold compareCompleted. rewrite Cx, Cy. reflexivity.
    + apply List.Forall_cons_iff in H1. destruct H1 as [Cy H1].
      unfold compareCompleted at 1. rewrite Cx, Cy. cbn.
      rewrite (IH H1). reflexivity.
  - destruct (l1 ++ l2)%list as [|y l] eqn:E; [reflexivity|].
    cbn [insertBy]. unfold compareCompleted. rewrite Cx.
    destruct (completed y); reflexivity.
Qed.

Lemma sortBy_completed (l : list Task) :
  sortBy compareCompleted l =
  (List.filter (fun t => negb (completed t)) l ++ List.filter completed l)%list.
Proof.
  induction l as [|x l IH]; [reflexivity|].
  unfold sortBy in *. cbn [List.fold_right List.filter]. rewrite IH.
  rewrite insertBy_completed.
  - destruct (completed x); reflexivity.
  - rewrite List.Forall_forall. intros t Ht. apply List.filter_In in Ht.
    destruct Ht as [_ Ht]. destruct (completed t); [discriminate|reflexivity].
  - rewrite List.Forall_forall. intros t Ht. apply List.filter_In in Ht.
    apply Ht.
Qed.

Lemma filter_filter_andb {A} (f g : A -> bool) (l : list A) :
  List.filter f (List.filter g l) = List.filter (fun x => g x && f x) l.
Proof.
  induction l as [|x l IH]; [reflexivity|]. cbn [List.filter].
  destruct (g x); cbn [andb List.filter]; [|exact IH].
  destruct (f x); rewrite IH; reflexivity.
Qed.

Lemma filter_true {A} (l : list A) : List.filter (fun _ => true) l = l.
Proof. induction l as [|x l IH]; [reflexivity|]. cbn. rewrite IH. reflexivity. Qed.

(** The three filtering steps keep the tasks that pass the filter and the
    search. *)
Lemma visibleTasks_eq (tz : Z) (lower : string -> string) (lc : string -> string -> Z)
    (tasks : list Task) (filter : ListFilter) (sort : ListSort) (query : string) :
  visibleTasks tz lower lc tasks filter sort query =
  sortBy compareCompleted
    (sortBy (compareBy tz lc sort) (shownTasks lower tasks filter query)).
Proof.
  unfold visibleTasks, shownTasks, passesSearch. do 2 f_equal.
  destruct (String.eqb (lower (JS.trim query)) "") eqn:Q.
  - destruct filter; cbn [passesFilter].
    + symmetry. apply filter_true.
    + apply List.filter_ext. intros t. rewrite andb_true_r. reflexivity.
    + apply List.filter_ext. intros t. rewrite andb_true_r. reflexivity.
  - destruct filter; cbn [passesFilter].
    + reflexivity.
    + apply filter_filter_andb.
    + apply filter_filter_andb.
Qed.

Lemma numLe_total (x y : Num) : x <> NaN -> y <> NaN -> numLe x y \/ numLe y x.
Proof.
  unfold numLe. destruct x, y; cbn; intros; try congruence; lia.
Qed.

Lemma numLe_trans (x y z : Num) :
  x <> NaN -> y <> NaN -> z <> NaN -> numLe x y -> numLe y z -> numLe x z.
Proof.
  unfold numLe. destruct x, y, z; cbn; intros; try congruence; lia.
Qed.

Lemma numLe_Fin (x y : Z) : numLe (Fin x) (Fin y) <-> x <= y.
Proof. unfold numLe. cbn. lia. Qed.

Lemma compareBy_key (tz : Z) (lc : string -> string -> Z) (sort : ListSort) (a b : Task) :
  sort <> sortTitle ->
  compareBy tz lc sort a b = sortValue (numSub (sortKey tz sort a) (sortKey tz sort b)).
Proof. destruct sort; intros H; try reflexivity. congruence. Qed.

(** X16. The visible list is a rearrangement of the tasks that pass the
    filter and the search: none is dropped, added or shown twice,
    whichever sort is chosen and whatever the collation does. *)
Theorem visible_is_rearrangement (tz : Z) (lower : string -> string)
    (lc : string -> string -> Z)
    (tasks : list Task) (filter : ListFilter) (sort : ListSort) (query : string) :
  Permutation (visibleTasks tz lower lc tasks filter sort query)
              (shownTasks lower tasks filter query).
Proof.
  rewrite visibleTasks_eq. rewrite sortBy_perm. apply sortBy_perm.
Qed.

(** X17. The second sort of [visibleTasks] only moves the completed tasks
    behind the others: the result is the uncompleted tasks in the order
    the first sort gave them, followed by the completed ones in that
    order. *)
Theorem visible_uncompleted_first (tz : Z) (lower : string -> string)
    (lc : string -> string -> Z)
    (tasks : list Task) (filter : ListFilter) (sort : ListSort) (query : string) :
  let sorted := sortBy (compareBy tz lc sort) (shownTasks lower tasks filter query) in
  visibleTasks tz lower lc tasks filter sort query =
  (List.filter (fun t => negb (completed t)) sorted
   ++ List.filter completed sorted)%list.
Proof.
  cbv zeta. rewrite visibleTasks_eq. apply sortBy_completed.
Qed.

Lemma filter_false {A} (l : list A) : List.filter (fun _ => false) l = [].
Proof. induction l as [|x l IH]; [reflexivity|]. exact IH. Qed.

(** The tasks of one completion state are in the partition what they were
    before it. *)
Lemma group_of_partition (c : bool) (l : list Task) :
  List.filter (fun t => Bool.eqb (completed t) c)
    (List.filter (fun t => negb (completed t)) l ++ List.filter completed l)%list =
  List.filter (fun t => Bool.eqb (completed t) c) l.
Proof.
  rewrite List.filter_app, !filter_filter_andb.
  destruct c.
  - assert (E : List.filter
                  (fun x => negb (completed x) && Bool.eqb (completed x) true) l = []).
    { rewrite <- (filter_false l). apply List.filter_ext.
      intros t. destruct (completed t); reflexivity. }
    rewrite E. cbn [app]. apply List.filter_ext.
    intros t. destruct (completed t); reflexivity.
  - assert (E : List.filter
                  (fun x => completed x && Bool.eqb (completed x) false) l = []).
    { rewrite <- (filter_false l). apply List.filter_ext.
      intros t. destruct (completed t); reflexivity. }
    rewrite E, app_nil_r. apply List.filter_ext.
    intros t. destruct (completed t); reflexivity.
Qed.

(** X18. When the sort is by end, start or creation time and no shown
    task has a key that is NaN, two tasks of the same completion state
    appear in the order of their keys: the one shown first has the
    smaller or equal key. *)
Theorem visible_sorted_within_groups (tz : Z) (lower : string -> string)
    (lc : string -> string -> Z)
    (tasks : list Task) (filter : ListFilter) (sort : ListSort) (query : string)
    (l1 l2 l3 : list Task) (a b : Task) :
  sort <> sortTitle ->
  (forall t, In t (shownTasks lower tasks filter query) -> sortKey tz sort t <> NaN) ->
  visibleTasks tz lower lc tasks filter sort query = (l1 ++ a :: l2 ++ b :: l3)%list ->
  completed a = completed b ->
  numLe (sortKey tz sort a) (sortKey tz sort b).
Proof.
  intros Hsort Hkeys Hvis Hc.
  rewrite visibleTasks_eq, sortBy_completed in Hvis.
  assert (Hs : StronglySorted (fun x y => compareBy tz lc sort x y <= 0)
                 (sortBy (compareBy tz lc sort) (shownTasks lower tasks filter query))).
  { apply (sortBy_sorted (compareBy tz lc sort) (fun t => sortKey tz sort t <> NaN)).
    - intros x y Px Py. rewrite !(compareBy_key tz lc sort _ _ Hsort).
      intros Hgt.
      destruct (numLe_total (sortKey tz sort x) (sortKey tz sort y) Px Py) as [H|H];
        unfold numLe in H; [lia|exact H].
    - intros x y z Px Py Pz. rewrite !(compareBy_key tz lc sort _ _ Hsort).
      apply numLe_trans; assumption.
    - rewrite List.Forall_forall. exact Hkeys. }
  apply (f_equal (List.filter (fun t => Bool.eqb (completed t) (completed a)))) in Hvis.
  rewrite group_of_partition in Hvis.
  rewrite List.filter_app in Hvis. cbn [List.filter] in Hvis.
  rewrite Bool.eqb_reflx in Hvis.
  rewrite List.filter_app in Hvis. cbn [List.filter] in Hvis.
  rewrite <- Hc, Bool.eqb_reflx in Hvis.
  unfold numLe. rewrite <- (compareBy_key tz lc sort a b Hsort).
  exact (sorted_in_order (fun x y => compareBy tz lc sort x y <= 0) _ _ _ _ a b
           (sorted_filter _ _ _ Hs) Hvis).
Qed.

Lemma visible_sorted_within_groups_witness :
  visibleTasks 540 (fun s => s) (fun _ _ => 0) [exampleA; exampleC; exampleB]
               filterAll sortEnd "" = [exampleB; exampleA; exampleC]
  /\ numLe (sortKey 540 sortEnd exampleB) (sortKey 540 sortEnd exampleC).
Proof.
  split; [vm_compute; reflexivity|].
  apply (visible_sorted_within_groups 540 (fun s => s) (fun _ _ => 0)
           [exampleA; exampleC; exampleB] filterAll sortEnd ""
           [] [exampleA] [] exampleB exampleC).
  - discriminate.
  - intros t Ht. vm_compute in Ht.
    destruct Ht as [<-|[<-|[<-|[]]]]; vm_compute; discriminate.
  - vm_compute. reflexivity.
  - reflexivity.
Defined.

(** * Dates on a host with a constant offset *)

Lemma yoe_range (doe : Z) :
  0 <= doe <= 146096 ->
  let yoe := (doe - doe / 1460 + doe / 36524 - doe / 146096) / 365 in
  let doy := doe - (365 * yoe + yoe / 4 - yoe / 100) in
  0 <= yoe <= 399 /\ 0 <= doy <= 365 /\
  (doy = 365 -> yoe mod 4 = 3 /\ (yoe mod 100 <> 99 \/ yoe = 399)).
Proof.
  intros H yoe doy. subst yoe doy.
  Z.div_mod_to_equations. lia.
Qed.

(** A day number determines a date of the calendar, and that date is the
    one [daysFromCivil] counts back to the day number. *)
Lemma civil_inverse (z y m d : Z) :
  Calendar.civilFromDays z = (y, m, d) ->
  Calendar.daysFromCivil y m d = z /\ 1 <= m <= 12 /\ 1 <= d <= Calendar.daysInMonth y m.
Proof.
  unfold Calendar.civilFromDays. cbv zeta.
  remember ((z + 719468) / 146097) as era eqn:Eera.
  remember (z + 719468 - era * 146097) as doe eqn:Edoe.
  assert (Hdoe : 0 <= doe <= 146096 /\ z = era * 146097 + doe - 719468).
  { subst doe era. Z.div_mod_to_equations. lia. }
  clear Eera Edoe. destruct Hdoe as [Hdoe ->].
  pose proof (yoe_range doe Hdoe) as Hy. cbv zeta in Hy.
  remember ((doe - doe / 1460 + doe / 36524 - doe / 146096) / 365) as yoe eqn:Eyoe.
  remember (doe - (365 * yoe + yoe / 4 - yoe / 100)) as doy eqn:Edoy.
  assert (Hd : doe = yoe * 365 + yoe / 4 - yoe / 100 + doy) by lia.
  clear Eyoe Edoy. destruct Hy as (Hyoe & Hdoy & Hleap).
  remember ((5 * doy + 2) / 153) as mp eqn:Emp.
  assert (Hmp : 0 <= mp <= 11) by (subst mp; Z.div_mod_to_equations; lia).
  remember (doy - (153 * mp + 2) / 5 + 1) as d' eqn:Ed.
  assert (Hdoy2 : doy = (153 * mp + 2) / 5 + d' - 1) by lia.
  assert (Hdd : 1 <= d' <= (if mp =? 11 then (if doy =? 365 then 29 else 28)
                            else if (mp =? 1) || (mp =? 3) || (mp =? 6) || (mp =? 8) then 30
                            else 31)).
  { assert (Hc : mp = 0 \/ mp = 1 \/ mp = 2 \/ mp = 3 \/ mp = 4 \/ mp = 5 \/ mp = 6 \/ mp = 7
                 \/ mp = 8 \/ mp = 9 \/ mp = 10 \/ mp = 11) by lia.
    clear Hdoy2.
    repeat (destruct Hc as [Hc|Hc];
            [rewrite Hc in *; cbn [Z.eqb Pos.eqb orb]; subst d';
             Z.div_mod_to_equations; lia|]).
    rewrite Hc in *. cbn [Z.eqb Pos.eqb orb]. subst d'.
    destruct (doy =? 365) eqn:E; [apply Z.eqb_eq in E|apply Z.eqb_neq in E];
      Z.div_mod_to_equations; lia. }
  clear Emp Ed.
  intros E. injection E as Ey Em Ed. subst d'.
  assert (Hm : m = (if mp <? 10 then mp + 3 else mp - 9)) by (symmetry; exact Em).
  clear Em.
  assert (Hyy : y = (if m <=? 2 then yoe + era * 400 + 1 else yoe + era * 400)).
  { rewrite Hm. symmetry. exact Ey. }
  clear Ey.
  assert (Hm12 : 1 <= m <= 12).
  { rewrite Hm. destruct (mp <? 10) eqn:E; [apply Z.ltb_lt in E|apply Z.ltb_ge in E]; lia. }
  split; [|split; [exact Hm12|]].
  - unfold Calendar.daysFromCivil. cbv zeta.
    assert (Hy' : (if m <=? 2 then y - 1 else y) = yoe + era * 400).
    { rewrite Hyy. destruct (m <=? 2); lia. }
    rewrite Hy'.
    assert (Hmp' : (if 2 <? m then m - 3 else m + 9) = mp).
    { rewrite Hm. destruct (mp <? 10) eqn:E; [apply Z.ltb_lt in E|apply Z.ltb_ge in E].
      - replace (2 <? mp + 3) with true by (symmetry; apply Z.ltb_lt; lia). lia.
      - replace (2 <? mp - 9) with false by (symmetry; apply Z.ltb_ge; lia). lia. }
    rewrite Hmp'.
    replace ((yoe + era * 400) / 400) with era by (Z.div_mod_to_equations; lia).
    replace (yoe + era * 400 - era * 400) with yoe by lia.
    lia.
  - unfold Calendar.daysInMonth.
    assert (Hc : mp = 0 \/ mp = 1 \/ mp = 2 \/ mp = 3 \/ mp = 4 \/ mp = 5 \/ mp = 6 \/ mp = 7
                 \/ mp = 8 \/ mp = 9 \/ mp = 10 \/ mp = 11) by lia.
    repeat (destruct Hc as [Hc|Hc];
            [rewrite Hc in *; cbn [Z.ltb Z.compare Pos.compare Pos.compare_cont Z.add Pos.add
                                   Z.sub Z.opp Z.pos_sub Pos.succ Z.succ_double Z.pred_double
                                   Z.double Pos.pred_double] in Hm;
             rewrite Hm; cbn [Z.eqb Pos.eqb orb] in *; exact Hdd|]).
    rewrite Hc in *.
    assert (Hm2 : m = 2) by (rewrite Hm; reflexivity).
    rewrite Hm2 in *. cbn [Z.eqb Pos.eqb] in *.
    cbn [Z.leb Z.compare Pos.compare Pos.compare_cont] in Hyy.
    destruct (doy =? 365) eqn:E; [apply Z.eqb_eq in E|].
    + specialize (Hleap E).
      assert (HL : Calendar.isLeap y = true).
      { apply isLeap_true. rewrite Hyy. clear - Hleap Hyoe.
        Z.div_mod_to_equations. lia. }
      rewrite HL. exact Hdd.
    + destruct (Calendar.isLeap y); lia.
Qed.

(** The local fields of a time value name its local day. *)
Lemma local_fields (t : Z) :
  1 <= Calendar.MonthFromTime t + 1 <= 12 /\
  1 <= Calendar.DateFromTime t
       <= Calendar.daysInMonth (Calendar.YearFromTime t) (Calendar.MonthFromTime t + 1) /\
  Calendar.daysFromCivil (Calendar.YearFromTime t) (Calendar.MonthFromTime t + 1)
                         (Calendar.DateFromTime t) = Calendar.Day t.
Proof.
  unfold Calendar.YearFromTime, Calendar.MonthFromTime, Calendar.DateFromTime.
  destruct (Calendar.civilFromDays (Calendar.Day t)) as [[y m] d] eqn:E.
  cbn [fst snd]. replace (m - 1 + 1) with m by lia.
  destruct (civil_inverse _ _ _ _ E) as (H1 & H2 & H3). auto.
Qed.

Lemma day_time (t : Z) :
  Calendar.MakeDate (Calendar.Day t) (Calendar.TimeWithinDay t) = t.
Proof.
  unfold Calendar.MakeDate, Calendar.Day, Calendar.TimeWithinDay, Calendar.msPerDay.
  Z.div_mod_to_equations. lia.
Qed.

(** [d.setMonth(d.getMonth() + 1)] moves a date to the day of the next
    month with the same number, counted from the first of that month:
    past its end when that month is shorter. *)
Lemma setMonth_next (tz tv : Z) :
  let t := DateObj.LocalTime tz tv in
  let y := Calendar.YearFromTime t in
  let m := Calendar.MonthFromTime t + 1 in
  DateObj.setMonth tz (DateAt tv)
    (option_map (fun m => m + 1) (DateObj.getMonth tz (DateAt tv)))
  = DateObj.TimeClip
      (DateObj.UTC tz
         (Calendar.MakeDate
            (Calendar.daysFromCivil (if m =? 12 then y + 1 else y)
                                    (if m =? 12 then 1 else m + 1) 1
             + Calendar.DateFromTime t - 1)
            (Calendar.TimeWithinDay t))).
Proof.
  cbv zeta. cbn [DateObj.getMonth option_map DateObj.setMonth].
  set (t := DateObj.LocalTime tz tv).
  destruct (local_fields t) as (Hm & _ & _).
  do 3 f_equal. unfold Calendar.MakeDay.
  destruct (Calendar.MonthFromTime t + 1 =? 12) eqn:E;
    [apply Z.eqb_eq in E|apply Z.eqb_neq in E].
  - rewrite E. cbn. reflexivity.
  - rewrite Z.div_small, Z.mod_small by lia.
    replace (Calendar.YearFromTime t + 0) with (Calendar.YearFromTime t) by lia.
    reflexivity.
Qed.

Lemma ymdString_not_empty (y m d : Z) : String.eqb (ymdString y m d) "" = false.
Proof. unfold ymdString. cbv [JS.fixedDigits String.append]. reflexivity. Qed.

(** The UTC day of a local midnight: the day before, east of Greenwich. *)
Lemma utc_day_of_local_midnight (tz n : Z) :
  -1440 < tz < 1440 ->
  Calendar.Day (DateObj.UTC tz (Calendar.MakeDate n 0)) = n - (if 0 <? tz then 1 else 0).
Proof.
  intros Htz.
  unfold Calendar.Day, DateObj.UTC, Calendar.MakeDate, Calendar.msPerDay, Calendar.msPerMinute.
  destruct (0 <? tz) eqn:E; [apply Z.ltb_lt in E|apply Z.ltb_ge in E];
    Z.div_mod_to_equations; lia.
Qed.

(** X19. On a host whose local time is UTC plus a constant offset (no
    daylight saving), for every date of a year of four digits, the daily
    and the weekly rule return the date one day and seven days later when
    the host is at or west of Greenwich, and one day less than that when it
    is east of it: the same day for the daily rule, six days later for the
    weekly one. *)
Theorem daily_weekly_by_host (tz y m d k y2 m2 d2 : Z) (rule : Recurrence) :
  0 <= y <= 9999 -> 1 <= m <= 12 -> 1 <= d <= Calendar.daysInMonth y m ->
  -1440 < tz < 1440 ->
  (rule = daily /\ k = 1 \/ rule = weekly /\ k = 7) ->
  Calendar.civilFromDays (Calendar.daysFromCivil y m d + k - (if 0 <? tz then 1 else 0))
  = (y2, m2, d2) ->
  0 <= y2 <= 9999 ->
  nextByRecurrence tz (Some (ymdString y m d)) rule = Some (Some (ymdString y2 m2 d2)).
Proof.
  intros Hy Hm Hd Htz Hr Hc Hy2.
  unfold nextByRecurrence. rewrite ymdString_not_empty.
  assert (Hadd : addToYMD tz (ymdString y m d) k 0 = Some (ymdString y2 m2 d2)).
  { apply addToYMD_days; try lia.
    rewrite <- Hc. f_equal. destruct (0 <? tz); lia. }
  destruct Hr as [[-> ->] | [-> ->]]; rewrite Hadd; reflexivity.
Qed.

Lemma daily_weekly_by_host_witness :
  nextByRecurrence 540 (Some (ymdString 2024 2 28)) weekly
  = Some (Some (ymdString 2024 3 5)).
Proof.
  apply (daily_weekly_by_host 540 2024 2 28 7 2024 3 5 weekly).
  - lia.
  - lia.
  - vm_compute. split; discriminate.
  - lia.
  - right. split; reflexivity.
  - vm_compute. reflexivity.
  - lia.
Defined.

(** X20. On a host whose local time is UTC plus a constant offset (no
    daylight saving), the monthly rule counts the day of the month from the
    first of the next month, so a day the next month does not have runs
    over into the month after it (31 January gives 3 March, or 2 March in a
    leap year); east of Greenwich the date returned is one day earlier. *)
Theorem monthly_by_host (tz y m d y2 m2 d2 : Z) :
  0 <= y <= 9998 -> 1 <= m <= 12 -> 1 <= d <= Calendar.daysInMonth y m ->
  -1440 < tz < 1440 ->
  Calendar.civilFromDays
    (Calendar.daysFromCivil (fst (nextMonth y m)) (snd (nextMonth y m)) 1 + (d - 1)
     - (if 0 <? tz then 1 else 0)) = (y2, m2, d2) ->
  0 <= y2 <= 9999 ->
  nextByRecurrence tz (Some (ymdString y m d)) monthly = Some (Some (ymdString y2 m2 d2)).
Proof.
  intros Hy Hm Hd Htz Hc Hy2. pose proof (daysInMonth_le y m) as Hle.
  unfold nextByRecurrence. rewrite ymdString_not_empty.
  unfold addToYMD. rewrite parse_ymd by lia.
  replace (1 =? 0) with false by reflexivity.
  replace (0 =? 0) with true by reflexivity.
  pose proof (setMonth_next tz (Calendar.daysFromCivil y m d * Calendar.msPerDay
                                - tz * Calendar.msPerMinute)) as Hs.
  cbv zeta in Hs. rewrite Hs. clear Hs.
  assert (Hlocal : DateObj.LocalTime tz
                     (Calendar.daysFromCivil y m d * Calendar.msPerDay
                      - tz * Calendar.msPerMinute)
                   = Calendar.daysFromCivil y m d * Calendar.msPerDay)
    by (unfold DateObj.LocalTime; lia).
  rewrite Hlocal.
  assert (Hday : Calendar.Day (Calendar.daysFromCivil y m d * Calendar.msPerDay)
                 = Calendar.daysFromCivil y m d)
    by (unfold Calendar.Day, Calendar.msPerDay; apply Z.div_mul; lia).
  assert (Htime : Calendar.TimeWithinDay (Calendar.daysFromCivil y m d * Calendar.msPerDay) = 0)
    by (unfold Calendar.TimeWithinDay, Calendar.msPerDay; apply Z.mod_mul; lia).
  unfold Calendar.YearFromTime, Calendar.MonthFromTime, Calendar.DateFromTime.
  rewrite Hday, (civil_roundtrip y m d Hm Hd), Htime. cbn [fst snd].
  replace (m - 1 + 1) with m by lia.
  set (n := Calendar.daysFromCivil (if m =? 12 then y + 1 else y)
                                   (if m =? 12 then 1 else m + 1) 1 + d - 1).
  assert (Hn : n = Calendar.daysFromCivil (fst (nextMonth y m)) (snd (nextMonth y m)) 1
                   + (d - 1)).
  { subst n. unfold nextMonth. destruct (m =? 12); cbn [fst snd]; lia. }
  assert (Hb : -719528 <= n - (d - 1) <= 2932896).
  { rewrite Hn. replace (_ + (d - 1) - (d - 1))
      with (Calendar.daysFromCivil (fst (nextMonth y m)) (snd (nextMonth y m)) 1) by lia.
    unfold nextMonth.
    destruct (m =? 12) eqn:E; [|apply Z.eqb_neq in E]; cbn [fst snd];
      apply daysFromCivil_bounds; lia. }
  unfold DateObj.TimeClip.
  replace (Z.abs _ <=? DateObj.maxTime) with true
    by (symmetry; apply Z.leb_le;
        unfold DateObj.UTC, Calendar.MakeDate, DateObj.maxTime, Calendar.msPerDay,
          Calendar.msPerMinute; lia).
  cbn [DateObj.toISOString option_map]. do 2 f_equal.
  apply isoString_date; [|exact Hy2].
  rewrite utc_day_of_local_midnight by exact Htz. rewrite Hn. exact Hc.
Qed.

Lemma monthly_by_host_witness :
  nextByRecurrence 0 (Some (ymdString 2023 1 31)) monthly
  = Some (Some (ymdString 2023 3 3)).
Proof.
  apply (monthly_by_host 0 2023 1 31 2023 3 3).
  - lia.
  - lia.
  - vm_compute. split; discriminate.
  - lia.
  - vm_compute. reflexivity.
  - lia.
Defined.

(** ** Creation stamps *)

Lemma digits_fixed3 (v : Z) :
  0 <= v <= 999 -> JS.digits (JS.fixedDigits 3 v) = Some v.
Proof.
  intros H. cbv [JS.fixedDigits String.append]. cbn [JS.digits JS.digitsFrom].
  rewrite !digitOf_digitChar by apply digit_bounds.
  f_equal. Z.div_mod_to_equations. lia.
Qed.

Lemma fieldsZ_iso (y m d h mi sec ms : Z) :
  0 <= y <= 9999 -> 0 <= m <= 99 -> 0 <= d <= 99 -> 0 <= h <= 99 -> 0 <= mi <= 99 ->
  0 <= sec <= 99 -> 0 <= ms <= 999 ->
  DateText.fieldsZ
    (JS.fixedDigits 4 y +:+ "-" +:+ JS.fixedDigits 2 m +:+ "-" +:+ JS.fixedDigits 2 d
     +:+ "T" +:+ JS.fixedDigits 2 h +:+ ":" +:+ JS.fixedDigits 2 mi
     +:+ ":" +:+ JS.fixedDigits 2 sec +:+ "." +:+ JS.fixedDigits 3 ms +:+ "Z")
  = Some (y, m, d, h, mi, sec, ms).
Proof.
  intros Hy Hm Hd Hh Hmi Hsec Hms.
  pose proof (digits_fixed4 y Hy) as Dy.
  pose proof (digits_fixed2 m Hm) as Dm.
  pose proof (digits_fixed2 d Hd) as Dd.
  pose proof (digits_fixed2 h Hh) as Dh.
  pose proof (digits_fixed2 mi Hmi) as Dmi.
  pose proof (digits_fixed2 sec Hsec) as Dsec.
  pose proof (digits_fixed3 ms Hms) as Dms.
  unfold DateText.fieldsZ.
  cbv [JS.fixedDigits String.append] in *.
  cbn [DateObj.charAt String.get String.length substring Nat.eqb Ascii.eqb Bool.eqb andb].
  rewrite Dy, Dm, Dd, Dh, Dmi, Dsec, Dms. reflexivity.
Qed.

(** [new Date] reads back the instant [toISOString] wrote, on every
    host. *)
Lemma iso_round_trip (tz tv : Z) :
  0 <= Calendar.YearFromTime tv <= 9999 ->
  DateText.ofString tz (DateObj.isoString tv) = DateAt tv.
Proof.
  intros Hy. unfold Calendar.YearFromTime in Hy.
  destruct (Calendar.civilFromDays (Calendar.Day tv)) as [[y m] d] eqn:Hc.
  cbn [fst] in Hy.
  destruct (civil_inverse _ _ _ _ Hc) as (Hinv & Hm & Hd).
  pose proof (daysInMonth_le y m) as Hle.
  pose proof (day_time tv) as Hdt.
  assert (Ht : 0 <= Calendar.TimeWithinDay tv < 86400000)
    by (unfold Calendar.TimeWithinDay, Calendar.msPerDay; apply Z.mod_pos_bound; lia).
  remember (Calendar.TimeWithinDay tv) as t eqn:Et.
  unfold DateText.ofString, DateObj.isoString. rewrite Hc, <- Et.
  unfold DateObj.isoYear.
  replace ((0 <=? y) && (y <=? 9999)) with true
    by (symmetry; apply andb_true_iff; split; apply Z.leb_le; lia).
  unfold Calendar.msPerHour, Calendar.msPerMinute.
  rewrite fieldsZ_iso; try lia; try (Z.div_mod_to_equations; lia).
  replace (1 <=? m) with true by (symmetry; apply Z.leb_le; lia).
  replace (m <=? 12) with true by (symmetry; apply Z.leb_le; lia).
  replace (1 <=? d) with true by (symmetry; apply Z.leb_le; lia).
  replace (d <=? Calendar.daysInMonth y m) with true by (symmetry; apply Z.leb_le; lia).
  replace (t / 3600000 <=? 23) with true
    by (symmetry; apply Z.leb_le; Z.div_mod_to_equations; lia).
  replace ((t / 60000) mod 60 <=? 59) with true
    by (symmetry; apply Z.leb_le; Z.div_mod_to_equations; lia).
  replace ((t / 1000) mod 60 <=? 59) with true
    by (symmetry; apply Z.leb_le; Z.div_mod_to_equations; lia).
  cbn [andb].
  rewrite MakeDay_civil by lia. rewrite Hinv.
  assert (Htv : Calendar.MakeDate (Calendar.Day tv)
                  (t / 3600000 * 3600000 + (t / 60000) mod 60 * 60000
                   + (t / 1000) mod 60 * 1000 + t mod 1000) = tv).
  { rewrite <- Hdt at 2. f_equal. Z.div_mod_to_equations. lia. }
  rewrite Htv. unfold DateObj.TimeClip.
  replace (Z.abs tv <=? DateObj.maxTime) with true; [reflexivity|].
  symmetry. apply Z.leb_le.
  pose proof (daysFromCivil_bounds y m d Hy Hm ltac:(lia)) as Hb.
  rewrite Hinv in Hb.
  unfold DateObj.maxTime, Calendar.MakeDate, Calendar.msPerDay in *. lia.
Qed.

Lemma isoString_not_empty (tv : Z) : String.eqb (DateObj.isoString tv) "" = false.
Proof.
  unfold DateObj.isoString.
  destruct (Calendar.civilFromDays (Calendar.Day tv)) as [[y m] d].
  unfold DateObj.isoYear.
  destruct ((0 <=? y) && (y <=? 9999)); [|destruct (y <? 0)];
    cbv [JS.fixedDigits String.append]; reflexivity.
Qed.

(** X22. The key by which [visibleTasks] sorts on creation is the instant
    at which [addTask] stamped the task, on every host: [new Date] reads
    back what [toISOString] wrote, for an instant in a year of four
    digits. *)
Theorem created_key_is_creation_time (tz tv : Z) (newId : string) (f : AddForm.t)
    (prev : list Task) (t : Task) :
  0 <= Calendar.YearFromTime tv <= 9999 ->
  out_tasks (addTask tz newId (DateObj.isoString tv) f prev) = (prev ++ [t])%list ->
  getCreated tz t = Fin tv.
Proof.
  intros Hy. unfold addTask.
  destruct (String.eqb (JS.trim (AddForm.input f)) "").
  { cbn [out_tasks]. intros H. exfalso.
    apply (f_equal (@List.length Task)) in H. rewrite List.length_app in H. cbn in H. lia. }
  cbv zeta.
  destruct (endsBeforeStart _ _).
  { cbn [out_tasks]. intros H. exfalso.
    apply (f_equal (@List.length Task)) in H. rewrite List.length_app in H. cbn in H. lia. }
  cbn [out_tasks]. intros H. apply List.app_inv_head in H. injection H as <-.
  unfold getCreated. cbn [createdAt].
  rewrite isoString_not_empty, iso_round_trip by exact Hy. reflexivity.
Qed.

Lemma created_key_is_creation_time_witness :
  getCreated 540
    {| id := "n"; title := "Walk"; completed := false;
       startDate := Some "2024-01-01"; startTime := None;
       endDate := Some "2024-01-01"; endTime := None;
       recurrence := Some none;
       createdAt := Some (DateObj.isoString 1714564780123) |}
  = Fin 1714564780123.
Proof.
  apply (created_key_is_creation_time 540 1714564780123 "n" startOnlyForm []).
  - vm_compute. split; discriminate.
  - vm_compute. reflexivity.
Defined.

(** ** The key of a target *)

Lemma append_inj_suffix (a b x y : string) :
  String.length x = String.length y -> a +:+ x = b +:+ y -> a = b /\ x = y.
Proof.
  intros Hl. revert b. induction a as [|c a IH]; intros [|c' b] H.
  - change (x = y) in H. auto.
  - exfalso. change (x = String c' (b +:+ y)) in H. subst x.
    cbn [String.length] in Hl. rewrite length_append in Hl. lia.
  - exfalso. change (String c (a +:+ x) = y) in H. subst y.
    cbn [String.length] in Hl. rewrite length_append in Hl. lia.
  - change (String c (a +:+ x) = String c' (b +:+ y)) in H.
    injection H as -> H. destruct (IH b H) as [-> ->]. auto.
Qed.

Lemma isoString_length (tv : Z) :
  0 <= Calendar.YearFromTime tv <= 9999 ->
  String.length (DateObj.isoString tv) = 24%nat.
Proof.
  intros Hy. unfold Calendar.YearFromTime in Hy. unfold DateObj.isoString.
  destruct (Calendar.civilFromDays (Calendar.Day tv)) as [[y m] d].
  cbn [fst] in Hy. unfold DateObj.isoYear.
  replace ((0 <=? y) && (y <=? 9999)) with true
    by (symmetry; apply andb_true_iff; split; apply Z.leb_le; lia).
  cbv [JS.fixedDigits String.append]. reflexivity.
Qed.

(** X23. The key of a target names its task id and its due instant and
    nothing else: two targets whose due instants lie in years of four
    digits have the same key exactly when they have the same id and the
    same due instant, although the id may itself hold hyphens. *)
Theorem target_key_identifies_target (c1 c2 : Cand) (tv1 tv2 : Z) :
  due c1 = DateAt tv1 -> due c2 = DateAt tv2 ->
  0 <= Calendar.YearFromTime tv1 <= 9999 ->
  0 <= Calendar.YearFromTime tv2 <= 9999 ->
  targetKeyOf c1 = targetKeyOf c2 <-> id (task c1) = id (task c2) /\ tv1 = tv2.
Proof.
  intros H1 H2 Hy1 Hy2. unfold targetKeyOf. rewrite H1, H2. split.
  - intros H. apply append_inj_suffix in H.
    + destruct H as [Hid H]. split; [exact Hid|].
      change (String "-" (DateObj.isoString tv1) = String "-" (DateObj.isoString tv2)) in H.
      injection H as H.
      pose proof (iso_round_trip 0 tv1 Hy1) as R1.
      pose proof (iso_round_trip 0 tv2 Hy2) as R2.
      rewrite H in R1. congruence.
    + change (S (String.length (DateObj.isoString tv1))
              = S (String.length (DateObj.isoString tv2))).
      rewrite !isoString_length by assumption. reflexivity.
  - intros [-> ->]. reflexivity.
Qed.

Lemma target_key_identifies_target_witness :
  targetKeyOf (mkCand hyphenTask (DateAt 1714564810000) None)
  <> targetKeyOf (mkCand exampleA (DateAt 1714564810000) None) /\
  targetKeyOf (mkCand exampleA (DateAt 1714564810000) None)
  <> targetKeyOf (mkCand exampleA (DateAt 1714564820000) None).
Proof.
  assert (Hy1 : 0 <= Calendar.YearFromTime 1714564810000 <= 9999)
    by (vm_compute; split; discriminate).
  assert (Hy2 : 0 <= Calendar.YearFromTime 1714564820000 <= 9999)
    by (vm_compute; split; discriminate).
  split; intros H.
  - apply (proj1 (target_key_identifies_target
                    (mkCand hyphenTask (DateAt 1714564810000) None)
                    (mkCand exampleA (DateAt 1714564810000) None)
                    1714564810000 1714564810000 eq_refl eq_refl Hy1 Hy1)) in H.
    destruct H as [H _]. vm_compute in H. discriminate.
  - apply (proj1 (target_key_identifies_target
                    (mkCand exampleA (DateAt 1714564810000) None)
                    (mkCand exampleA (DateAt 1714564820000) None)
                    1714564810000 1714564820000 eq_refl eq_refl Hy1 Hy2)) in H.
    destruct H as [_ H]. discriminate.
Defined.

(** * The banner text *)

Lemma pad2_fixedDigits (n : Z) : 0 <= n <= 99 -> pad2 n = JS.fixedDigits 2 n.
Proof.
  intros H.
  assert (Hall : List.forallb
                   (fun k => String.eqb (pad2 (Z.of_nat k)) (JS.fixedDigits 2 (Z.of_nat k)))
                   (List.seq 0 100) = true) by (vm_compute; reflexivity).
  rewrite List.forallb_forall in Hall. specialize (Hall (Z.to_nat n)).
  rewrite Z2Nat.id in Hall by lia.
  apply String.eqb_eq, Hall, List.in_seq. lia.
Qed.

(** X24. For the minutes and seconds the handler passes to it, and for
    every number from 0 to 99, [pad2] gives exactly two characters, and
    they are the decimal digits of the number: reading them back gives
    the number. *)
Theorem pad2_two_digits (n : Z) :
  0 <= n <= 99 -> String.length (pad2 n) = 2%nat /\ JS.digits (pad2 n) = Some n.
Proof.
  intros H. rewrite pad2_fixedDigits by exact H.
  split; [|apply digits_fixed2; exact H].
  cbv [JS.fixedDigits String.append]. reflexivity.
Qed.

Lemma pad2_two_digits_witness :
  String.length (pad2 7) = 2%nat /\ JS.digits (pad2 7) = Some 7.
Proof. apply (pad2_two_digits 7). lia. Defined.

(** * An overdue task *)

(** X25. While the list holds an uncompleted, started task whose due
    instant has passed, the banner reads Done, in blue: the target is the
    task that is due first, so a task that is due later is not counted
    down until the overdue one is completed. Such a tick leaves the alarm
    off and makes no call but pausing it. *)
Theorem overdue_task_holds_the_banner (tz : Z) (inp : TickInput) (st : EngineState)
    (t : Task) :
  In t (tasks inp) -> eligible tz (now inp) t = true -> dueMsOf tz t <= now inp ->
  (exists ttl, countdown (fst (tick tz inp st))
               = Some {| cd_title := ttl; cd_time := "Done"; cd_color := COLOR.blue |}) /\
  alarmStarted (fst (tick tz inp st)) = false /\
  (forall e, In e (snd (tick tz inp st)) -> e = AlarmPause).
Proof.
  intros Hin Hel Hdue.
  destruct (tick_eq tz inp st) as [-> _]. unfold tickResult.
  pose proof (selectTarget_first_least tz (now inp) (tasks inp)) as Hsel.
  destruct (selectTarget tz (now inp) (tasks inp)) as [| | |c];
    try (specialize (Hsel t Hin); congruence).
  destruct Hsel as (l1 & t0 & l2 & Hts & Hc & _ & _ & Hd & Hl1 & Hl2).
  rewrite Hd. cbn [fst snd].
  assert (Hle : dueMsOf tz t0 <= now inp).
  { rewrite Hts in Hin. apply List.in_app_or in Hin.
    destruct Hin as [Hin|[<-|Hin]].
    - specialize (Hl1 t Hin Hel). lia.
    - exact Hdue.
    - specialize (Hl2 t Hin Hel). lia. }
  unfold afterTarget.
  replace (dueMsOf tz t0 - now inp <=? 0) with true by (symmetry; apply Z.leb_le; lia).
  unfold afterDone. cbn [queued calls countdown alarmStarted].
  split; [eexists; reflexivity|]. split; [reflexivity|].
  intros e He. apply List.in_app_or in He. destruct He as [He|[<-|[]]]; [|reflexivity].
  unfold afterReset in He.
  destruct (negb (String.eqb (targetKeyOf c) (lastTaskKey st))); cbn [calls] in He.
  - destruct He as [<-|[]]. reflexivity.
  - destruct He.
Qed.

Lemma overdue_task_holds_the_banner_witness :
  (exists ttl, countdown (fst (tick 0 doneInput criticalState))
               = Some {| cd_title := ttl; cd_time := "Done"; cd_color := COLOR.blue |}) /\
  alarmStarted (fst (tick 0 doneInput criticalState)) = false /\
  (forall e, In e (snd (tick 0 doneInput criticalState)) -> e = AlarmPause).
Proof.
  apply (overdue_task_holds_the_banner 0 doneInput criticalState exampleA).
  - left. reflexivity.
  - vm_compute. reflexivity.
  - vm_compute. discriminate.
Defined.
